(* ===== verification/_CoqProject ===== *)
-Q . S2P
Prelude.v
Precise.v
Json.v
Errors.v
Markets.v
Signer.v
Normalizers.v
Exchange.v
Orders.v
MarketData.v
Account.v
Unified.v
