(* ===== verification/Prelude.v ===== *)
(** * A verification development for the Poloniex Futures adapter of ccxt

    (src/js/poloniexfutures.js, class [poloniexfutures extends Exchange])

    The adapter translates the exchange's REST API into ccxt's unified
    interface.  It has no state of its own beyond the exchange object's
    configuration (credentials, options, the market registry filled by
    [loadMarkets]); every operation is a request/response round trip.  Its
    parts and how they interact:

    - the decimal-string arithmetic of the base library ([Precise]), used for
      every derived money field;
    - the generic JSON accessors of the base [Exchange] class ([safeString],
      [safeValue], [safeInteger], [omit], [extend], [urlencode], [json]);
    - the request signer [sign] (private endpoints are HMAC-signed);
    - the error classifier [handleErrors] with its [exceptions] tables;
    - the response normalizers [parseTicker], [parseTrade], [parseOrder],
      [parsePosition], [parseBalance] and the market builder in
      [fetchMarkets];
    - the public and private operations ([createOrder], [cancelOrder],
      [fetchOrdersByStatus], ...), which validate their arguments, issue one
      request through [sign], classify the answer with [handleErrors] and
      normalize it.

    Files (in dependency order, see _CoqProject), with the part of
    src/js/poloniexfutures.js each models:

    - [Prelude] (this file): the result type [res] of code that may throw
      and its [let*] notation ([ccxt_scope]); [res_map] for loops that may
      throw; the stable insertion sort [sort_by] of the base class's
      [sortBy] with its permutation and sortedness lemmas; string lemmas;
      the tactics [inv], [case_if], [res_simpl], [witness_hyps]; the hint
      databases [ccxt] and [ccxt_rw].
    - [Precise] (Module [Precise]; base/Precise.js, modelled from the spec):
      a decimal is an integer and a count of decimals; parsing, printing,
      [add], [mul], the truncating [div] and the comparisons, and the string
      wrappers that return [None] where JavaScript returns [undefined].
      Abstract specification: the rational number a decimal denotes
      ([Precise.val], relation [Precise.denotes]); each operation is shown
      to compute the rational operation (division exactly when the quotient
      has at most [precision] = 18 decimals, the library's default), and
      printing then parsing gives back the value; [div] at precision 0
      on non-negative operands is the floor of the quotient
      ([div0_floor]), which bounds [amountToPrecision].
    - [Json] (Module [JS]): JavaScript values with objects as ordered
      association lists, and the base class's accessors ([safeValue],
      [safeString], [safeInteger], [extend], [omit], [urlencode], [json]),
      with the lemmas relating [get] to [set], [extend] and [omit].
    - [Errors] (Module [Errors]): the exception classes, [describe ()]'s
      exact and broad tables (lines 166-192) and [handleErrors]
      (1618-1635).  Abstract specification [classify] (spec section 4.8);
      C1 is the refinement, C10 and C11 the rate-limit and
      position-not-found cases.
    - [Markets] (Module [Markets]): the market record and [parseMarket], the
      loop body of [fetchMarkets] (272-337); the registry lookups of the
      base class ([market_of], [safeMarket]).  C15: every parsed market
      is well-formed ([market_wf], the type of a market of this exchange);
      C27, C28: status, symbol and contract size.
    - [Signer] (Module [Signer]): the exchange configuration record (keys,
      options, the clock, the HMAC primitive and the [iso8601] formatter
      as fields, the market registry, the currency canonicalization) and
      [sign] (1572-1616): C2
      (what a private request carries and signs), C3 (the signature
      changes with the body), C20 (a substituted placeholder stays in the
      body).  The file ends with the sample market and exchange of the
      witnesses.
    - [Normalizers] (Modules [Ticker], [Trade], [Balance], [Position],
      [Order]): [parseTicker] (342-369), [parseTrade] (525-615),
      [parseBalance] (723-737), [parsePosition] (1007-1096), [parseOrder]
      (1362-1429).  Theorems on the exact derived fields (C4, C22, C26,
      C36), the status (C23), the fee currency (C24) and the position side
      (C25).
    - [Exchange] (Module [Api]): the request monad [prog] (a value, a thrown
      exception, or a call of a generated API method with its
      continuation), the API table (73-127) with the base class's method
      names, and [run], which resolves each call (an unknown name is a
      [TypeError]), signs it, asks a server function, checks the answer
      with [handleErrors] and logs the request.  A program logic
      ([returns], [returns_run]) proves properties of every run, whatever
      the server answers; [run_call] steps through one answered call;
      [within n p] bounds the number of requests of every run ([within_run]).
      The table carries each endpoint's rate-limit weight; [run_metered]
      is [run] with the limiter's cost of each call ([run_metered_erase]:
      dropping the cost gives [run]).  The
      base class's list helpers ([parseTrades], [filterBySymbolSinceLimit],
      [marketSymbols], ...) and [amountToPrecision] live here too.
    - [Orders] (Module [Orders]): [createOrder] (776-882), [cancelOrder]
      (884-943), [cancelAllOrders] (1172-1231), [fetchOrdersByStatus]
      (1233-1291), [fetchOpenOrders], [fetchClosedOrders], [fetchOrder]
      (1331-1360).  C5: the open view is always empty; C6, C7: the closed
      view is exactly the uncancelled orders;
      C8: argument checks in order, before any request (abstract
      specification [createOrder_rejection]); C12: an accepted order
      completes with one request; C14: the size sent is the amount cut to
      the lot size; C9, C33, C34: cancellations; C16: a client that
      places an order and cancels it by the returned id sends the two
      requests in order; C19: [fetchOrder]; C21: stop direction.
    - [MarketData] (Module [MarketData]): [fetchMarkets], [fetchTicker],
      [fetchTickers], [fetchOrderBook], [fetchL3OrderBook], [fetchTrades],
      [fetchTime], [fetchOHLCV] (196-721) with the base class's order-book,
      ticker and candle parsers.  C29-C31: the level-2 and level-3 books
      and the level check; C32: the ticker's v2 endpoint; C17: the
      granularity of ['4h'].
    - [Account] (Module [Account]): [fetchBalance], [fetchPositions],
      [fetchFundingHistory], [fetchFundingRate], [fetchMyTrades],
      [setMarginMode].  C18: the currency [fetchBalance] sends; C35.
    - [Unified] (Module [Unified]): ccxt's unified API as a record of
      operations ([unified_api]) and the adapter's instance
      [poloniexfutures] built from the three files above, and the
      capability table [has] of [describe ()] (lines 23-49).  C13: every
      method finishes after at most one request, whatever the answers.
      Only the literal [has] block is modelled: [describe ()] deep-extends
      the base class's table (line 14), which is outside this repository.

    Every operation is a total, executable definition; the witnesses run
    them with [vm_compute] on the sample exchange and on servers that give
    fixed answers.  No fuel is needed outside [Precise]: the programs are
    finite trees whose every loop runs over a finite list.  In [Precise],
    printing and trailing-zero removal recurse with the fuel
    [S (Z.to_nat (Z.log2 n))], one more than the number of binary digits
    of the integer, which bounds its number of decimal digits (lemma
    [digits_fuel]).  The request bound of C13 is the one the code has: no
    method loops over pages or retries, so [within 1] holds of each.  The
    weights are exact rationals (180.002 is [180002 # 1000]).

    Not modelled: HTTP transport and the parsing of the response text (the
    server function returns the body and its parsed value), the base class's
    HTTP status exceptions, the HMAC-SHA256 primitive (a field of the
    exchange, assumed injective only where a theorem says so), the rate
    limiter's queue and timing (the cost each call takes from it is
    modelled), the text of the [iso8601] formatter (a field of the exchange,
    which every [datetime] field is computed with), the completion of
    records by [safeTicker], [safeTrade], [safeOrder] and [safeBalance], the
    base class's sort of order lists whose timestamps are not all defined
    (the model's stable sort agrees with JavaScript's whenever they are),
    WebSocket streaming, the delimiter ['-'] [parseTrade] passes to
    [safeMarket] (line 564, which only matters for an id the registry does
    not know), and the parts of [describe ()] that carry no behaviour of the
    methods (name, countries, logo and documentation urls, the fee
    schedule); the [iso8601] text and the [safe*] completion belong to the
    base class, outside this repository, which the spec names as an external
    collaborator and does not describe. JavaScript numbers are exact
    decimals, not binary64 floats; timeframe durations are whole seconds.
    Numeric text that is not a plain decimal (an exponent such as [1e-8],
    or text that is no number at all) is [undefined] in the model
    ([JS.safeNumber], [Precise.parse]), where the base class's conversion
    gives a number or NaN and [Precise] reads the exponent or throws; the
    theorems are about well-formed decimals, and [fetchOrderBook]'s level
    check treats such a level as the code's NaN.
    [loadMarkets] is the registry the exchange record carries. *)

From Stdlib Require Import ZArith String Ascii List Bool Lia Permutation Sorted.
Import ListNotations.

Declare Scope ccxt_scope.
Delimit Scope ccxt_scope with ccxt.

(** ** Results of code that may throw *)

(** A JavaScript function that may [throw] returns [Ok] with its value or
    [Err] with the thrown exception. *)
Inductive res (E A : Type) : Type :=
| Ok (a : A)
| Err (e : E).
Arguments Ok {E A} a.
Arguments Err {E A} e.

Definition res_bind {E A B : Type} (r : res E A) (k : A -> res E B) : res E B :=
  match r with
  | Ok a => k a
  | Err e => Err e
  end.

Notation "'let*' x ':=' c 'in' k" := (res_bind c (fun x => k))
  (at level 61, x name, c at next level, right associativity) : ccxt_scope.

Definition is_ok {E A : Type} (r : res E A) : bool :=
  match r with Ok _ => true | Err _ => false end.

Lemma res_bind_ok {E A B : Type} (a : A) (k : A -> res E B) :
  res_bind (Ok a) k = k a.
Proof. reflexivity. Qed.

Lemma res_bind_err {E A B : Type} (e : E) (k : A -> res E B) :
  res_bind (Err e) k = Err e.
Proof. reflexivity. Qed.

Lemma res_bind_Ok_inv {E A B : Type} (r : res E A) (k : A -> res E B) b :
  res_bind r k = Ok b -> exists a, r = Ok a /\ k a = Ok b.
Proof. destruct r; simpl; [eauto | discriminate]. Qed.

(** ** Options *)

(** [option_map2 f x y]: a binary operation that is unset when an operand
    is unset (the [undefined] short-circuit of the base library). *)
Definition option_map2 {A B C : Type} (f : A -> B -> C) (x : option A) (y : option B)
  : option C :=
  match x, y with
  | Some a, Some b => Some (f a b)
  | _, _ => None
  end.

Lemma option_map2_Some {A B C : Type} (f : A -> B -> C) x y c :
  option_map2 f x y = Some c -> exists a b, x = Some a /\ y = Some b /\ f a b = c.
Proof. destruct x, y; simpl; intros H; inversion H; eauto. Qed.

(** [for] loops that may throw: the results in order, or the first error. *)
Fixpoint res_map {E A B : Type} (f : A -> res E B) (l : list A) : res E (list B) :=
  match l with
  | [] => Ok []
  | x :: r => res_bind (f x) (fun b => res_bind (res_map f r) (fun bs => Ok (b :: bs)))
  end.

Lemma res_map_Ok {E A B : Type} (f : A -> res E B) l bs :
  res_map f l = Ok bs -> Forall2 (fun a b => f a = Ok b) l bs.
Proof.
  revert bs. induction l as [|x r IH]; simpl; intros bs H; [inversion H; constructor|].
  destruct (f x) as [b|e] eqn:Ef; [|discriminate]. simpl in H.
  destruct (res_map f r) as [bs'|e]; [|discriminate]. inversion H. constructor; auto.
Qed.

Lemma res_map_map {E A B : Type} (f : A -> res E B) (g : A -> B) l :
  (forall x, In x l -> f x = Ok (g x)) -> res_map f l = Ok (map g l).
Proof.
  induction l as [|x r IH]; intros H; [reflexivity|]. simpl.
  rewrite H by (left; reflexivity). simpl. rewrite IH by (intros y Hy; apply H; right; exact Hy).
  reflexivity.
Qed.

(** A loop over the indices of a list is a loop over its elements. *)
Lemma res_map_seq {E A B : Type} (f : nat -> res E B) (g : A -> res E B) d l k :
  (forall i, (i < length l)%nat -> f (k + i)%nat = g (nth i l d)) ->
  res_map f (seq k (length l)) = res_map g l.
Proof.
  revert k. induction l as [|x r IH]; intros k H; [reflexivity|]. simpl.
  specialize (H 0%nat) as H0. rewrite Nat.add_0_r in H0. rewrite H0 by (simpl; lia). simpl.
  rewrite (IH (S k)); [reflexivity|].
  intros i Hi. replace (S k + i)%nat with (k + S i)%nat by lia. apply (H (S i)). simpl. lia.
Qed.

Lemma map_seq {A B : Type} (f : nat -> B) (g : A -> B) d l k :
  (forall i, (i < length l)%nat -> f (k + i)%nat = g (nth i l d)) ->
  map f (seq k (length l)) = map g l.
Proof.
  revert k. induction l as [|x r IH]; intros k H; [reflexivity|]. simpl.
  specialize (H 0%nat) as H0. rewrite Nat.add_0_r in H0. rewrite H0 by (simpl; lia). simpl.
  rewrite (IH (S k)); [reflexivity|].
  intros i Hi. replace (S k + i)%nat with (k + S i)%nat by lia. apply (H (S i)). simpl. lia.
Qed.

(** ** Lists *)

Lemma In_firstn {A : Type} n (l : list A) x : In x (firstn n l) -> In x l.
Proof. intros H. rewrite <- (firstn_skipn n l). apply in_or_app. left. exact H. Qed.


(** The stable sort of the base class's [sortBy]: each element goes after
    those it is not smaller than. *)
Fixpoint insert_by {A : Type} (lt : A -> A -> bool) (x : A) (l : list A) : list A :=
  match l with
  | [] => [x]
  | y :: r => if lt x y then x :: y :: r else y :: insert_by lt x r
  end.

Definition sort_by {A : Type} (lt : A -> A -> bool) (l : list A) : list A :=
  fold_left (fun acc x => insert_by lt x acc) l [].

Lemma insert_by_perm {A : Type} (lt : A -> A -> bool) x l : Permutation (x :: l) (insert_by lt x l).
Proof.
  induction l as [|y r IH]; simpl; [reflexivity|].
  destruct (lt x y); [reflexivity|].
  transitivity (y :: x :: r); [apply perm_swap | constructor; exact IH].
Qed.

Lemma sort_by_perm {A : Type} (lt : A -> A -> bool) l : Permutation l (sort_by lt l).
Proof.
  unfold sort_by. change l with ([] ++ l)%list at 1. generalize (@nil A).
  induction l as [|x r IH]; intros acc; simpl; [rewrite app_nil_r; reflexivity|].
  rewrite <- IH, <- (insert_by_perm lt x acc).
  symmetry. apply Permutation_middle.
Qed.

Lemma In_sort_by {A : Type} (lt : A -> A -> bool) l x : In x (sort_by lt l) <-> In x l.
Proof. split; apply Permutation_in; [symmetry|]; apply sort_by_perm. Qed.

(** With an asymmetric [lt], the sort leaves no element smaller than the
    one before it. *)
Lemma insert_by_sorted {A : Type} (lt : A -> A -> bool)
  (Hasym : forall x y, lt x y = true -> lt y x = false) x l :
  Sorted (fun a b => lt b a = false) l -> Sorted (fun a b => lt b a = false) (insert_by lt x l).
Proof.
  induction l as [|y r IH]; intros Hs; simpl; [repeat constructor|].
  destruct (lt x y) eqn:E; [constructor; [exact Hs | constructor; apply Hasym, E]|].
  inversion Hs as [|y' r' Hr Hhd]; subst. constructor; [apply IH, Hr|].
  destruct r as [|z r]; simpl; [constructor; exact E|].
  destruct (lt x z); constructor; [exact E|]. inversion Hhd; assumption.
Qed.

Lemma sort_by_sorted {A : Type} (lt : A -> A -> bool)
  (Hasym : forall x y, lt x y = true -> lt y x = false) l :
  Sorted (fun a b => lt b a = false) (sort_by lt l).
Proof.
  unfold sort_by. assert (H0 : Sorted (fun a b => lt b a = false) (@nil A)) by constructor.
  revert H0. generalize (@nil A). induction l as [|x r IH]; intros acc Hacc; simpl; [exact Hacc|].
  apply IH, insert_by_sorted; assumption.
Qed.

(** ** Strings *)

Local Open Scope string_scope.

Lemma string_app_nil_r (s : string) : s ++ "" = s.
Proof. induction s; simpl; congruence. Qed.

Lemma string_app_assoc (a b c : string) : a ++ (b ++ c) = (a ++ b) ++ c.
Proof. induction a; simpl; congruence. Qed.

Lemma string_length_app (a b : string) :
  String.length (a ++ b) = String.length a + String.length b.
Proof. induction a; simpl; congruence. Qed.

(** Left and right cancellation of concatenation: a payload built as
    [prefix ++ x ++ suffix] determines [x]. *)
Lemma string_app_inv_l (s a b : string) : s ++ a = s ++ b -> a = b.
Proof. induction s; simpl; [auto | intros H; inversion H; auto]. Qed.

Lemma string_app_inv_r (s a b : string) : a ++ s = b ++ s -> a = b.
Proof.
  revert b. induction a as [|c a IH]; intros [|c' b] H; simpl in *; auto.
  - apply (f_equal String.length) in H. simpl in H.
    rewrite string_length_app in H. lia.
  - apply (f_equal String.length) in H. simpl in H.
    rewrite string_length_app in H. lia.
  - inversion H; subst. f_equal. auto.
Qed.

Lemma list_ascii_of_string_app (a b : string) :
  list_ascii_of_string (a ++ b) = (list_ascii_of_string a ++ list_ascii_of_string b)%list.
Proof. induction a; simpl; congruence. Qed.

Lemma string_of_list_ascii_app (a b : list ascii) :
  string_of_list_ascii (a ++ b)%list = string_of_list_ascii a ++ string_of_list_ascii b.
Proof. induction a; simpl; congruence. Qed.

(** ** Automation *)

Create HintDb ccxt discriminated.
Create Rewrite HintDb ccxt_rw.
#[export] Hint Resolve string_app_inv_l string_app_inv_r : ccxt.
#[export] Hint Rewrite string_app_nil_r list_ascii_of_string_app
  string_of_list_ascii_app list_ascii_of_string_of_list_ascii
  string_of_list_ascii_of_string : ccxt_rw.

(** [inv H]: invert a hypothesis and clean up. *)
Ltac inv H := inversion H; clear H; subst.

(** [case_if]: split on the first [if] of the goal, keeping the equation. *)
Ltac case_if :=
  match goal with
  | |- context [if ?b then _ else _] =>
      let E := fresh "E" in destruct b eqn:E
  end.

(** [res_simpl]: unfold binds of known results in the goal and in the
    hypotheses. *)
Ltac res_simpl :=
  repeat (rewrite ?res_bind_ok, ?res_bind_err in *; simpl in *).

(** [witness_hyps]: discharge the hypotheses of a theorem applied at a
    concrete input by computation. *)
Ltac witness_hyps :=
  try reflexivity;
  try (intros H; vm_compute in H; discriminate H);
  try (vm_compute; reflexivity);
  try (eexists; split; reflexivity).
