(* ===== verification/Precise.v ===== *)
(** * Precise: decimal-string arithmetic

    The base library's [Precise] class (base/Precise.js, which is not part
    of src/: modelled from the spec, section 2 "Decimal-String Arithmetic
    collaborator" and section 4.5) holds a decimal as an integer and a
    count of decimals, [integer * 10 ^ (- decimals)].  The adapter uses its
    static string functions ([stringAbs], [stringMul], [stringDiv],
    [stringGt], [stringLt]) for every derived money field.

    This file holds the representation [t], the parser [parse] and the
    printer [to_string] of decimal text, the operations, and their
    refinement theorems against the rationals ([val]). *)

From Stdlib Require Import ZArith QArith Qpower Qabs Lqa String Ascii List Bool Lia.
From S2P Require Import Prelude.
Import ListNotations.
Local Open Scope Z_scope.

Module Precise.

(** ** Representation *)

Record t := mk { integer : Z; decimals : Z }.

(** The library's default precision of a division. *)
Definition precision : Z := 18.

(** ** Decimal text *)

Definition is_digit (c : ascii) : bool :=
  (48 <=? nat_of_ascii c)%nat && (nat_of_ascii c <=? 57)%nat.

Definition digit_of (c : ascii) : Z := Z.of_nat (nat_of_ascii c) - 48.

Definition ascii_of_digit (d : Z) : ascii := ascii_of_nat (Z.to_nat (d + 48)).

Definition is_dot (c : ascii) : bool := Ascii.eqb c ".".
Definition is_exp (c : ascii) : bool := Ascii.eqb c "e" || Ascii.eqb c "E".

(** The value of a run of digits, read left to right; [None] on a
    character that is not a digit. *)
Fixpoint digits_value (acc : Z) (l : list ascii) : option Z :=
  match l with
  | [] => Some acc
  | c :: r => if is_digit c then digits_value (acc * 10 + digit_of c) r else None
  end.

(** [split_at sep l]: the part of [l] before the first separator, and what
    follows it when there is one ([String.prototype.split] on the first
    occurrence). *)
Fixpoint split_at (sep : ascii -> bool) (l : list ascii)
  : list ascii * option (list ascii) :=
  match l with
  | [] => ([], None)
  | c :: r =>
      if sep c then ([], Some r)
      else let '(a, b) := split_at sep r in (c :: a, b)
  end.

(** The mantissa: digits with at most one point, at least one digit.
    Returns the integer of the digits and the number of fractional digits. *)
Definition parse_mantissa (l : list ascii) : option (Z * Z) :=
  let '(ip, fp) := split_at is_dot l in
  let frac := match fp with Some f => f | None => [] end in
  match ip ++ frac with
  | [] => None
  | ds =>
      match digits_value 0 ds with
      | Some v => Some (v, Z.of_nat (length frac))
      | None => None
      end
  end.

(** The exponent after [e]: an optional sign and at least one digit. *)
Definition parse_exponent (l : list ascii) : option Z :=
  match l with
  | [] => None
  | c :: r =>
      if Ascii.eqb c "-" then
        match r with [] => None | _ => option_map Z.opp (digits_value 0 r) end
      else if Ascii.eqb c "+" then
        match r with [] => None | _ => digits_value 0 r end
      else digits_value 0 l
  end.

(** An unsigned decimal: mantissa, then optionally [e] and an exponent.
    Returns the integer and the decimals. *)
Definition parse_unsigned (body : list ascii) : option (Z * Z) :=
  let '(m, e) := split_at is_exp body in
  let ek := match e with None => Some 0%Z | Some el => parse_exponent el end in
  match parse_mantissa m, ek with
  | Some (v, d), Some k => Some (v, d - k)
  | _, _ => None
  end.

Definition parse_list (l : list ascii) : option t :=
  let '(neg, body) :=
    match l with
    | c :: r => if Ascii.eqb c "-" then (true, r) else (false, l)
    | [] => (false, l)
    end in
  match parse_unsigned body with
  | Some (v, d) => Some (mk (if neg then - v else v) d)
  | None => None
  end.

(** [new Precise (string)], on plain decimals; other text (an exponent,
    no digits) is [None], where the class reads the exponent or throws. *)
Definition parse (s : string) : option t := parse_list (list_ascii_of_string s).

(** Decimal digits of a non-negative integer, most significant first, with
    enough fuel (one step per binary digit). *)
Fixpoint digits_aux (fuel : nat) (n : Z) (acc : list ascii) : list ascii :=
  match fuel with
  | O => acc
  | S f =>
      let acc' := ascii_of_digit (n mod 10) :: acc in
      if n <? 10 then acc' else digits_aux f (n / 10) acc'
  end.

Definition digits (n : Z) : list ascii :=
  digits_aux (S (Z.to_nat (Z.log2 n))) n [].

(** [reduce]: drop trailing zeros of the integer (one step per digit). *)
Fixpoint reduce_aux (fuel : nat) (x : t) : t :=
  match fuel with
  | O => x
  | S f =>
      if (integer x =? 0) then mk 0 0
      else if (integer x mod 10 =? 0) then reduce_aux f (mk (integer x / 10) (decimals x - 1))
      else x
  end.

Definition reduce (x : t) : t :=
  reduce_aux (S (Z.to_nat (Z.log2 (Z.abs (integer x))))) x.

(** The digits of [a] with the point inserted [d] places from the right,
    padded with leading zeros so that at least one digit precedes the
    point, or followed by [- d] zeros when [d] is not positive. *)
Definition print_unsigned (a d : Z) : list ascii :=
  let ds := digits a in
  if (d <=? 0)%Z then ds ++ repeat "0"%char (Z.to_nat (- d))
  else
    let padded := repeat "0"%char (S (Z.to_nat d) - length ds)%nat ++ ds in
    let cut := (length padded - Z.to_nat d)%nat in
    firstn cut padded ++ "."%char :: skipn cut padded.

Definition print_list (x : t) : list ascii :=
  let body := print_unsigned (Z.abs (integer x)) (decimals x) in
  if (integer x <? 0)%Z then "-"%char :: body else body.

(** [Precise.prototype.toString]: reduce, then print. *)
Definition to_string (x : t) : string := string_of_list_ascii (print_list (reduce x)).

(** ** Operations *)

Definition neg (x : t) : t := mk (- integer x) (decimals x).

Definition abs (x : t) : t := mk (Z.abs (integer x)) (decimals x).

Definition add (x y : t) : t :=
  if (decimals x =? decimals y) then mk (integer x + integer y) (decimals x)
  else
    let '(smaller, bigger) := if (decimals y <? decimals x) then (y, x) else (x, y) in
    let exponent := decimals bigger - decimals smaller in
    mk (integer smaller * 10 ^ exponent + integer bigger) (decimals bigger).

Definition sub (x y : t) : t := add x (neg y).

Definition mul (x y : t) : t := mk (integer x * integer y) (decimals x + decimals y).

(** [div] scales the dividend to [prec] decimals, then divides the
    integers truncating toward zero (BigInt division). *)
Definition div (x y : t) (prec : Z) : t :=
  let distance := prec - decimals x + decimals y in
  let numerator :=
    if (distance =? 0) then integer x
    else if (distance <? 0) then Z.quot (integer x) (10 ^ (- distance))
    else integer x * 10 ^ distance in
  mk (Z.quot numerator (integer y)) prec.

Definition gt (x y : t) : bool := (0 <? integer (sub x y))%Z.
Definition lt (x y : t) : bool := (integer (sub x y) <? 0)%Z.

(** ** String functions: [undefined] in, [undefined] out *)

Definition lift1 (f : t -> t) (a : option string) : option string :=
  match a with
  | Some s => option_map (fun x => to_string (f x)) (parse s)
  | None => None
  end.

Definition lift2 (f : t -> t -> t) (a b : option string) : option string :=
  match a, b with
  | Some s1, Some s2 =>
      match parse s1, parse s2 with
      | Some x, Some y => Some (to_string (f x y))
      | _, _ => None
      end
  | _, _ => None
  end.

Definition stringAbs : option string -> option string := lift1 abs.
Definition stringNeg : option string -> option string := lift1 neg.
Definition stringAdd : option string -> option string -> option string := lift2 add.
Definition stringSub : option string -> option string -> option string := lift2 sub.
Definition stringMul : option string -> option string -> option string := lift2 mul.

(** [stringDiv]: unset on an unset operand and on a zero divisor. *)
Definition stringDiv (a b : option string) : option string :=
  match a, b with
  | Some s1, Some s2 =>
      match parse s1, parse s2 with
      | Some x, Some y =>
          if (integer y =? 0)%Z then None else Some (to_string (div x y precision))
      | _, _ => None
      end
  | _, _ => None
  end.

Definition lift_cmp (f : t -> t -> bool) (a b : option string) : option bool :=
  match a, b with
  | Some s1, Some s2 =>
      match parse s1, parse s2 with
      | Some x, Some y => Some (f x y)
      | _, _ => None
      end
  | _, _ => None
  end.

Definition stringGt : option string -> option string -> option bool := lift_cmp gt.
Definition stringLt : option string -> option string -> option bool := lift_cmp lt.

(** JavaScript truthiness of a comparison's result: [undefined] is false. *)
Definition truthy (b : option bool) : bool :=
  match b with Some true => true | _ => false end.

(** ** Abstract specification: the rational a decimal denotes *)

Definition val (x : t) : Q := inject_Z (integer x) * (10 ^ (- decimals x))%Q.

(** Every character is a digit. *)
Definition all_digits (l : list ascii) : Prop := Forall (fun c => is_digit c = true) l.

(** The dividend scaled to the division's precision. *)
Definition div_numerator (x y : t) (prec : Z) : Z :=
  integer x * 10 ^ (prec - decimals x + decimals y).

(** [denotes o q]: the optional text [o] is a decimal whose value is [q]. *)
Definition denotes (o : option string) (q : Q) : Prop :=
  exists x, match o with Some s => parse s | None => None end = Some x /\ (val x == q)%Q.

(** ** Lemmas *)

(** *** Digits and the text round trip *)

Lemma digits_value_app acc l1 l2 :
  digits_value acc (l1 ++ l2) =
  match digits_value acc l1 with Some v => digits_value v l2 | None => None end.
Proof.
  revert acc; induction l1 as [|c l1 IH]; intros acc; simpl; [reflexivity|].
  destruct (is_digit c); [apply IH | reflexivity].
Qed.

Lemma digits_value_zeros acc k :
  digits_value acc (repeat "0"%char k) = Some (acc * 10 ^ Z.of_nat k).
Proof.
  revert acc; induction k as [|k IH]; intros acc; cbn [repeat digits_value].
  - f_equal; lia.
  - replace (is_digit "0") with true by reflexivity. rewrite IH. f_equal.
    replace (digit_of "0") with 0 by reflexivity.
    rewrite Nat2Z.inj_succ, Z.pow_succ_r by lia. lia.
Qed.

Lemma ascii_of_digit_ok d : 0 <= d < 10 ->
  is_digit (ascii_of_digit d) = true /\ digit_of (ascii_of_digit d) = d.
Proof.
  intros Hd. unfold is_digit, digit_of, ascii_of_digit.
  rewrite nat_ascii_embedding by lia. split.
  - apply andb_true_intro; split; apply Nat.leb_le; lia.
  - lia.
Qed.

Lemma digits_aux_value f n acc : 0 <= n < 10 ^ Z.of_nat f ->
  digits_value 0 (digits_aux f n acc) = digits_value n acc.
Proof.
  revert n acc; induction f as [|f IH]; intros n acc Hn; simpl.
  - simpl in Hn. assert (n = 0) by lia. subst. reflexivity.
  - destruct (ascii_of_digit_ok (n mod 10)) as [D1 D2]; [apply Z.mod_pos_bound; lia|].
    destruct (Z.ltb_spec n 10).
    + simpl. rewrite D1, D2, Z.mod_small by lia. reflexivity.
    + rewrite Nat2Z.inj_succ, Z.pow_succ_r in Hn by lia.
      rewrite IH by (split; [apply Z.div_pos | apply Z.div_lt_upper_bound]; lia).
      simpl. rewrite D1, D2. f_equal. rewrite (Z.div_mod n 10) at 3 by lia. lia.
Qed.

Lemma digits_aux_digits f n acc : 0 <= n ->
  Forall (fun c => is_digit c = true) acc ->
  Forall (fun c => is_digit c = true) (digits_aux f n acc).
Proof.
  revert n acc; induction f as [|f IH]; intros n acc Hn Hacc; simpl; [exact Hacc|].
  assert (Hd := proj1 (ascii_of_digit_ok (n mod 10) ltac:(apply Z.mod_pos_bound; lia))).
  destruct (n <? 10); [constructor; auto|].
  apply IH; [apply Z.div_pos; lia | constructor; auto].
Qed.

Lemma digits_aux_nonempty f n acc : (0 < f)%nat -> digits_aux f n acc <> [].
Proof.
  revert n acc; induction f as [|[|f] IH]; intros n acc Hf; [lia| |]; simpl.
  - destruct (n <? 10); discriminate.
  - destruct (n <? 10); [discriminate|]. apply IH; lia.
Qed.

Lemma digits_fuel n : 0 <= n -> n < 10 ^ Z.of_nat (S (Z.to_nat (Z.log2 n))).
Proof.
  intros Hn. rewrite Nat2Z.inj_succ, Z2Nat.id by apply Z.log2_nonneg.
  apply Z.lt_le_trans with (2 ^ Z.succ (Z.log2 n)).
  - destruct (Z.eq_dec n 0) as [->|Hn0]; [reflexivity|].
    apply Z.log2_spec; lia.
  - apply Z.pow_le_mono_l. split; [lia|lia].
Qed.

Lemma digits_value_digits n : 0 <= n -> digits_value 0 (digits n) = Some n.
Proof. intros Hn. unfold digits. rewrite digits_aux_value; [reflexivity|]. split; [lia|]. now apply digits_fuel. Qed.

Lemma digits_all n : 0 <= n -> Forall (fun c => is_digit c = true) (digits n).
Proof. intros Hn. apply digits_aux_digits; auto. Qed.

Lemma digits_nonempty n : digits n <> [].
Proof. apply digits_aux_nonempty. lia. Qed.

Lemma split_at_none sep l : Forall (fun c => sep c = false) l -> split_at sep l = (l, None).
Proof. induction 1 as [|c l Hc _ IH]; simpl; [reflexivity|]. now rewrite Hc, IH. Qed.

Lemma split_at_app sep l1 c l2 : Forall (fun c => sep c = false) l1 -> sep c = true ->
  split_at sep (l1 ++ c :: l2) = (l1, Some l2).
Proof. induction 1 as [|c' l Hc _ IH]; intros Hsep; simpl; [now rewrite Hsep|]. now rewrite Hc, IH. Qed.

Lemma digit_not_special c : is_digit c = true ->
  is_dot c = false /\ is_exp c = false /\ Ascii.eqb c "-" = false.
Proof.
  intros H. unfold is_dot, is_exp.
  destruct (Ascii.eqb_spec c "."), (Ascii.eqb_spec c "e"), (Ascii.eqb_spec c "E"),
    (Ascii.eqb_spec c "-"); subst; try discriminate; auto.
Qed.


Lemma all_digits_not sep l : (forall c, is_digit c = true -> sep c = false) ->
  all_digits l -> Forall (fun c => sep c = false) l.
Proof. intros Hs H. eapply Forall_impl; [|exact H]. auto. Qed.

Lemma zeros_all_digits k : all_digits (repeat "0"%char k).
Proof. apply Forall_forall. intros c Hc. apply repeat_spec in Hc. now subst. Qed.

Lemma parse_unsigned_digits l v :
  all_digits l -> l <> [] -> digits_value 0 l = Some v -> parse_unsigned l = Some (v, 0).
Proof.
  intros Hl Hne Hv. unfold parse_unsigned.
  rewrite split_at_none by (apply all_digits_not; [apply digit_not_special|exact Hl]).
  unfold parse_mantissa.
  rewrite split_at_none by (apply all_digits_not; [apply digit_not_special|exact Hl]).
  rewrite app_nil_r. destruct l as [|c l]; [congruence|]. now rewrite Hv.
Qed.

Lemma parse_print_unsigned a d : 0 <= a ->
  parse_unsigned (print_unsigned a d) =
  if (d <=? 0) then Some (a * 10 ^ (- d), 0) else Some (a, d).
Proof.
  intros Ha. unfold print_unsigned.
  assert (Hds := digits_all a Ha).
  destruct (Z.leb_spec d 0) as [Hd|Hd].
  - apply parse_unsigned_digits.
    + apply Forall_app; split; [exact Hds | apply zeros_all_digits].
    + destruct (digits a) eqn:E; [now apply digits_nonempty in E | discriminate].
    + rewrite digits_value_app, digits_value_digits, digits_value_zeros by exact Ha.
      rewrite Z2Nat.id by lia. reflexivity.
  - set (padded := repeat "0"%char (S (Z.to_nat d) - length (digits a)) ++ digits a).
    set (cut := (length padded - Z.to_nat d)%nat).
    assert (Hpad : all_digits padded) by (apply Forall_app; split; [apply zeros_all_digits | exact Hds]).
    assert (Hlen : (S (Z.to_nat d) <= length padded)%nat)
      by (unfold padded; rewrite length_app, repeat_length; lia).
    assert (Hval : digits_value 0 padded = Some a)
      by (unfold padded; rewrite digits_value_app, digits_value_zeros, Z.mul_0_l;
          apply digits_value_digits, Ha).
    rewrite <- (firstn_skipn cut padded) in Hpad, Hval.
    apply Forall_app in Hpad as [Hip Hfp].
    unfold parse_unsigned.
    rewrite split_at_none.
    2:{ apply Forall_app; split; [|constructor; [reflexivity|]];
        apply all_digits_not; auto; apply digit_not_special. }
    unfold parse_mantissa.
    rewrite split_at_app; [| apply all_digits_not; auto; apply digit_not_special | reflexivity].
    destruct (firstn cut padded ++ skipn cut padded) as [|c r] eqn:E.
    + apply (f_equal (@length ascii)) in E. rewrite firstn_skipn in E. simpl in E. lia.
    + rewrite Hval, length_skipn. f_equal. f_equal. unfold cut. lia.
Qed.

Lemma print_unsigned_head a d : 0 <= a ->
  exists c r, print_unsigned a d = c :: r /\ is_digit c = true.
Proof.
  intros Ha. assert (Hds := digits_all a Ha). unfold print_unsigned.
  destruct (d <=? 0).
  - destruct (digits a) as [|c r] eqn:E; [now apply digits_nonempty in E|].
    inversion Hds; subst. eexists _, _. split; [reflexivity | assumption].
  - set (padded := repeat "0"%char (S (Z.to_nat d) - length (digits a)) ++ digits a).
    assert (Hpad : all_digits padded) by (apply Forall_app; split; [apply zeros_all_digits | exact Hds]).
    assert (Hlen : (S (Z.to_nat d) <= length padded)%nat)
      by (unfold padded; rewrite length_app, repeat_length; lia).
    destruct padded as [|c r]; [simpl in Hlen; lia|].
    inversion Hpad; subst.
    destruct (length (c :: r) - Z.to_nat d)%nat eqn:E; [lia|].
    eexists _, _. split; [reflexivity | assumption].
Qed.

(** Printing then parsing gives back the decimal, with a non-positive
    count of decimals folded into the integer. *)
Lemma parse_print_list x :
  parse_list (print_list x) =
  Some (if (decimals x <=? 0) then mk (integer x * 10 ^ (- decimals x)) 0 else x).
Proof.
  destruct x as [i d]. unfold print_list, parse_list; simpl.
  destruct (print_unsigned_head (Z.abs i) d) as (c & r & Hcr & Hc); [lia|].
  destruct (digit_not_special c Hc) as (_ & _ & Hm).
  rewrite Hcr. destruct (Z.ltb_spec i 0) as [Hi|Hi]; simpl; [|rewrite Hm];
    rewrite <- Hcr, parse_print_unsigned by lia;
    [rewrite Z.abs_neq by lia | rewrite Z.abs_eq by lia];
    destruct (Z.leb_spec d 0); f_equal; f_equal; ring.
Qed.


(** *** Powers of ten and the value of a decimal *)

Local Open Scope Q_scope.

Lemma ten_nonzero : ~ (10 : Q) == 0.
Proof. discriminate. Qed.

Lemma pow10_pos k : 0 < (10 : Q) ^ k.
Proof. apply Qpower_0_lt. reflexivity. Qed.

Lemma pow10_add a b : (10 : Q) ^ (a + b) == 10 ^ a * 10 ^ b.
Proof. apply Qpower_plus, ten_nonzero. Qed.

Lemma pow10_opp_r k : (10 : Q) ^ k * 10 ^ (- k) == 1.
Proof. rewrite <- pow10_add, Z.add_opp_diag_r. reflexivity. Qed.

Lemma inject_pow10 k : (0 <= k)%Z -> inject_Z (10 ^ k) == 10 ^ k.
Proof. intros Hk. apply Zpower_Qpower, Hk. Qed.

(** Scaling the integer by [10 ^ k] and the decimals by [k] keeps the value. *)
Lemma val_shift i d k : (0 <= k)%Z -> val (mk (i * 10 ^ k) (d + k)) == val (mk i d).
Proof.
  intros Hk. unfold val; simpl.
  rewrite inject_Z_mult, inject_pow10 by exact Hk.
  replace (- (d + k))%Z with (- d + - k)%Z by lia. rewrite pow10_add.
  transitivity (inject_Z i * 10 ^ (- d) * (10 ^ k * 10 ^ (- k))); [ring|].
  rewrite pow10_opp_r. ring.
Qed.

Lemma val_add x y : val (add x y) == val x + val y.
Proof.
  destruct x as [ix dx], y as [iy dy]. unfold add; simpl.
  destruct (Z.eqb_spec dx dy) as [<-|Hne].
  - unfold val; simpl. rewrite inject_Z_plus. ring.
  - destruct (Z.ltb_spec dy dx); simpl.
    + assert (Hs := val_shift iy dy (dx - dy) ltac:(lia)).
      replace (dy + (dx - dy))%Z with dx in Hs by lia.
      unfold val in *; simpl in *. rewrite inject_Z_plus, Qmult_plus_distr_l, Hs. ring.
    + assert (Hs := val_shift ix dx (dy - dx) ltac:(lia)).
      replace (dx + (dy - dx))%Z with dy in Hs by lia.
      unfold val in *; simpl in *. rewrite inject_Z_plus, Qmult_plus_distr_l, Hs. ring.
Qed.

Lemma val_neg x : val (neg x) == - val x.
Proof. unfold val, neg; simpl. rewrite inject_Z_opp. ring. Qed.

Lemma val_sub x y : val (sub x y) == val x - val y.
Proof. unfold sub. rewrite val_add, val_neg. ring. Qed.

Lemma val_mul x y : val (mul x y) == val x * val y.
Proof.
  unfold val, mul; simpl. rewrite inject_Z_mult.
  replace (- (decimals x + decimals y))%Z with (- decimals x + - decimals y)%Z by lia.
  rewrite pow10_add. ring.
Qed.

Lemma val_neg_iff x : (integer x < 0)%Z <-> val x < 0.
Proof.
  unfold val. rewrite Zlt_Qlt.
  rewrite <- (Qmult_lt_r _ _ _ (pow10_pos (- decimals x))), Qmult_0_l. reflexivity.
Qed.

Lemma val_abs x : val (abs x) == Qabs (val x).
Proof.
  destruct (Z.le_gt_cases 0 (integer x)) as [H|H].
  - rewrite Qabs_pos.
    + unfold abs. rewrite Z.abs_eq by exact H. destruct x; reflexivity.
    + apply Qnot_lt_le. rewrite <- val_neg_iff. lia.
  - rewrite Qabs_neg.
    + rewrite <- val_neg. unfold abs, neg. rewrite Z.abs_neq by lia. reflexivity.
    + apply Qlt_le_weak. apply val_neg_iff, H.
Qed.

(** The sign of a decimal is the sign of its integer. *)
Lemma val_pos_iff x : (0 < integer x)%Z <-> 0 < val x.
Proof.
  unfold val. rewrite Zlt_Qlt.
  rewrite <- (Qmult_lt_r _ _ _ (pow10_pos (- decimals x))), Qmult_0_l. reflexivity.
Qed.



Lemma gt_spec x y : gt x y = true <-> val y < val x.
Proof.
  unfold gt. rewrite Z.ltb_lt, val_pos_iff, val_sub. split; intros; lra.
Qed.

Lemma lt_spec x y : lt x y = true <-> val x < val y.
Proof.
  unfold lt. rewrite Z.ltb_lt, val_neg_iff, val_sub. split; intros; lra.
Qed.


Lemma div_integer x y prec : (decimals x <= prec + decimals y)%Z ->
  integer (div x y prec) = Z.quot (div_numerator x y prec) (integer y).
Proof.
  intros H. unfold div, div_numerator; simpl.
  destruct (Z.eqb_spec (prec - decimals x + decimals y) 0) as [E|E].
  - rewrite E, Z.pow_0_r, Z.mul_1_r. reflexivity.
  - destruct (Z.ltb_spec (prec - decimals x + decimals y) 0); [lia|reflexivity].
Qed.

Lemma pow10_nonzero k : ~ (10 : Q) ^ k == 0.
Proof. intros H. assert (Hp := pow10_pos k). rewrite H in Hp. discriminate. Qed.

Lemma val_quotient x y prec : integer y <> 0%Z -> (decimals x <= prec + decimals y)%Z ->
  val x / val y == inject_Z (div_numerator x y prec) / inject_Z (integer y) * 10 ^ (- prec).
Proof.
  intros Hy Hd. unfold val, div_numerator.
  assert (Hiy : ~ inject_Z (integer y) == 0)
    by (change 0 with (inject_Z 0); rewrite inject_Z_injective; exact Hy).
  rewrite inject_Z_mult, inject_pow10 by lia.
  replace (- decimals x)%Z with ((prec - decimals x + decimals y) + - prec + - decimals y)%Z by lia.
  rewrite !pow10_add.
  field; repeat split; first [exact Hiy | apply pow10_nonzero].
Qed.

Lemma inject_Z_nonzero z : z <> 0%Z -> ~ inject_Z z == 0.
Proof. intros H. change 0 with (inject_Z 0). rewrite inject_Z_injective. exact H. Qed.

(** The quotient equation scaled back to integers. *)
Lemma div_scaled_eq x y prec m : integer y <> 0%Z ->
  val x / val y == inject_Z m * 10 ^ (- prec) ->
  inject_Z (integer x) * 10 ^ (prec - decimals x + decimals y) == inject_Z (m * integer y).
Proof.
  intros Hy H. unfold val in H. rewrite inject_Z_mult.
  assert (Hiy := inject_Z_nonzero _ Hy).
  replace (prec - decimals x + decimals y)%Z with (- decimals x + (prec + decimals y))%Z by lia.
  rewrite pow10_add.
  apply Qmult_inj_r with (10 ^ (- prec - decimals y)); [apply pow10_nonzero|].
  setoid_replace (inject_Z m * inject_Z (integer y) * 10 ^ (- prec - decimals y))
    with (inject_Z m * 10 ^ (- prec) * (inject_Z (integer y) * 10 ^ (- decimals y)))
    by (replace (- prec - decimals y)%Z with (- prec + - decimals y)%Z by lia;
        rewrite pow10_add; ring).
  rewrite <- H.
  replace (- prec - decimals y)%Z with (- (prec + decimals y))%Z by lia.
  transitivity (inject_Z (integer x) * 10 ^ (- decimals x)
                * (10 ^ (prec + decimals y) * 10 ^ (- (prec + decimals y)))); [ring|].
  rewrite pow10_opp_r. field. split; first [exact Hiy | apply pow10_nonzero].
Qed.



(** Division is exact when the rational quotient has at most [prec]
    fractional digits. *)
Lemma div_exact x y prec m : integer y <> 0%Z ->
  val x / val y == inject_Z m * 10 ^ (- prec) -> div x y prec = mk m prec.
Proof.
  intros Hy H. pose proof (div_scaled_eq _ _ _ _ Hy H) as E. unfold div. f_equal.
  set (dist := (prec - decimals x + decimals y)%Z) in *.
  destruct (Z.eqb_spec dist 0) as [D|D]; [|destruct (Z.ltb_spec dist 0) as [D'|D']].
  - rewrite D, Qpower_0_r, Qmult_1_r, inject_Z_injective in E.
    rewrite E. apply Z.quot_mul, Hy.
  - assert (Hk : (0 < - dist)%Z) by lia.
    apply Qmult_inj_r with (z := 10 ^ (- dist)) in E; [|apply pow10_nonzero].
    rewrite <- Qmult_assoc, pow10_opp_r, Qmult_1_r, <- inject_pow10, <- inject_Z_mult,
      inject_Z_injective in E by lia.
    rewrite E, Z.quot_mul, Z.quot_mul; [reflexivity | exact Hy | apply Z.pow_nonzero; lia].
  - rewrite <- inject_pow10, <- inject_Z_mult, inject_Z_injective in E by lia.
    rewrite E. apply Z.quot_mul, Hy.
Qed.

Lemma val_mk_exp m prec : val (mk m prec) == inject_Z m * 10 ^ (- prec).
Proof. reflexivity. Qed.

(** In general the result is the quotient truncated toward zero at
    [prec] digits: the error is the remainder over the divisor. *)
Lemma val_div x y prec : integer y <> 0%Z -> (decimals x <= prec + decimals y)%Z ->
  val x / val y - val (div x y prec) ==
  inject_Z (Z.rem (div_numerator x y prec) (integer y)) / inject_Z (integer y) * 10 ^ (- prec).
Proof.
  intros Hy Hd. rewrite (val_quotient x y prec Hy Hd).
  unfold val at 1. rewrite div_integer by exact Hd. simpl decimals.
  rewrite (Z.quot_rem (div_numerator x y prec) (integer y) Hy) at 1.
  rewrite inject_Z_plus, inject_Z_mult. field. apply inject_Z_nonzero, Hy.
Qed.

Lemma val_reduce_aux f x : val (reduce_aux f x) == val x.
Proof.
  revert x; induction f as [|f IH]; intros [i d]; simpl; [reflexivity|].
  destruct (Z.eqb_spec i 0) as [->|Hi]; [unfold val; simpl; ring|].
  destruct (Z.eqb_spec (i mod 10) 0) as [Hm|Hm]; [|reflexivity].
  rewrite IH. rewrite <- (val_shift (i / 10) (d - 1) 1) by lia.
  replace (d - 1 + 1)%Z with d by lia.
  rewrite Z.pow_1_r, Z.mul_comm, <- (proj2 (Z.div_exact i 10 ltac:(lia)) Hm). reflexivity.
Qed.

Lemma val_reduce x : val (reduce x) == val x.
Proof. apply val_reduce_aux. Qed.

(** *** Truncation at precision 0 *)

(** The truncated quotient of non-negative integers is the floor of the
    rational quotient. *)
Lemma quot_floor a b : (0 <= a)%Z -> (0 < b)%Z ->
  inject_Z (Z.quot a b) <= inject_Z a / inject_Z b /\
  inject_Z a / inject_Z b < inject_Z (Z.quot a b + 1).
Proof.
  intros Ha Hb. rewrite Z.quot_div_nonneg by lia.
  assert (Hq : 0 < inject_Z b) by (change 0 with (inject_Z 0); rewrite <- Zlt_Qlt; exact Hb).
  split.
  - apply Qle_shift_div_l; [exact Hq|]. rewrite <- inject_Z_mult, <- Zle_Qle.
    pose proof (Z.mul_div_le a b Hb). lia.
  - apply Qlt_shift_div_r; [exact Hq|]. rewrite <- inject_Z_mult, <- Zlt_Qlt.
    pose proof (Z.mul_succ_div_gt a b Hb). lia.
Qed.

Lemma integer_nonneg x : 0 <= val x -> (0 <= integer x)%Z.
Proof.
  intros H. destruct (Z.lt_ge_cases (integer x) 0) as [L|L]; [|exact L].
  apply val_neg_iff in L. exfalso. apply (Qlt_not_le _ _ L H).
Qed.

(** [div x y 0] on non-negative operands is the floor of [x / y], on both
    sides of the [distance] test. *)
Lemma div0_floor x y : 0 <= val x -> 0 < val y ->
  inject_Z (integer (div x y 0)) <= val x / val y /\
  val x / val y < inject_Z (integer (div x y 0) + 1).
Proof.
  intros Hx Hy. apply integer_nonneg in Hx. apply val_pos_iff in Hy.
  destruct (Z.le_gt_cases (decimals x) (0 + decimals y)) as [D|D].
  - rewrite div_integer, (val_quotient x y 0), Qmult_1_r by (lia || exact D).
    apply quot_floor; [|exact Hy]. unfold div_numerator.
    apply Z.mul_nonneg_nonneg; [exact Hx | apply Z.pow_nonneg; lia].
  - unfold div. cbn [integer].
    destruct (Z.eqb_spec (0 - decimals x + decimals y) 0) as [E|_]; [lia|].
    destruct (Z.ltb_spec (0 - decimals x + decimals y) 0) as [_|E]; [|lia].
    replace (- (0 - decimals x + decimals y))%Z with (decimals x - decimals y)%Z by lia.
    rewrite Z.quot_quot by (lia || apply Z.pow_nonzero; lia).
    assert (E : val x / val y ==
                inject_Z (integer x) / inject_Z (10 ^ (decimals x - decimals y) * integer y)).
    { unfold val. rewrite inject_Z_mult, inject_pow10 by lia.
      replace (- decimals x)%Z with (- decimals y + - (decimals x - decimals y))%Z by lia.
      rewrite pow10_add, !Qpower_opp.
      generalize (pow10_nonzero (decimals y)) (pow10_nonzero (decimals x - decimals y))
        (inject_Z_nonzero (integer y) ltac:(lia)).
      generalize (10 ^ decimals y) (10 ^ (decimals x - decimals y)) (inject_Z (integer y)).
      intros p q b Hp Hq Hb. field. auto. }
    rewrite E. apply quot_floor; [exact Hx|].
    apply Z.mul_pos_pos; [apply Z.pow_pos_nonneg; lia | exact Hy].
Qed.

(** Floor bounds scaled back by a positive divisor. *)
Lemma floor_bounds_mul q d k : 0 < d ->
  inject_Z k <= q / d -> q / d < inject_Z (k + 1) ->
  inject_Z k * d <= q /\ q < inject_Z (k + 1) * d.
Proof.
  intros Hd H1 H2. assert (Eq : q == q / d * d) by (field; intros E; rewrite E in Hd; discriminate).
  split.
  - apply Qle_trans with (q / d * d); [|rewrite <- Eq; apply Qle_refl].
    apply Qmult_le_compat_r; [exact H1 | apply Qlt_le_weak, Hd].
  - apply Qle_lt_trans with (q / d * d); [rewrite <- Eq; apply Qle_refl|].
    apply Qmult_lt_compat_r; [exact Hd | exact H2].
Qed.

(** Round trip of the printer: the text [to_string x] parses back to a
    decimal of the same value. *)
Lemma parse_to_string x : exists y, parse (to_string x) = Some y /\ val y == val x.
Proof.
  unfold parse, to_string. rewrite list_ascii_of_string_of_list_ascii, parse_print_list.
  eexists; split; [reflexivity|]. transitivity (val (reduce x)); [|apply val_reduce].
  destruct (Z.leb_spec (decimals (reduce x)) 0); [|reflexivity].
  destruct (reduce x) as [i d]; simpl in *.
  rewrite <- (val_shift i d (- d)) by lia. replace (d + - d)%Z with 0%Z by lia. reflexivity.
Qed.

Lemma val_zero_iff x : integer x = 0%Z <-> val x == 0.
Proof.
  split; intros H.
  - unfold val. rewrite H. reflexivity.
  - destruct (Z.lt_trichotomy (integer x) 0) as [Hl|[He|Hg]]; [|exact He|].
    + apply val_neg_iff in Hl. rewrite H in Hl. discriminate.
    + apply val_pos_iff in Hg. rewrite H in Hg. discriminate.
Qed.

(** ** Refinement of the string functions *)


(** [stringAbs] of a decimal text parses back to a non-negative decimal. *)
Lemma stringAbs_nonneg o x :
  match stringAbs o with Some t => parse t | None => None end = Some x -> (0 <= integer x)%Z.
Proof.
  destruct o as [s|]; [|discriminate]. unfold stringAbs, lift1.
  destruct (parse s) as [y|]; [|discriminate]. simpl.
  destruct (parse_to_string (abs y)) as (z & Hz & Hv). rewrite Hz. intros E. inv E.
  apply integer_nonneg. rewrite Hv, val_abs. apply Qabs_nonneg.
Qed.

Lemma denotes_to_string x q : val x == q -> denotes (Some (to_string x)) q.
Proof.
  intros H. destruct (parse_to_string x) as (y & Hy & Hv).
  exists y. split; [exact Hy|]. rewrite Hv. exact H.
Qed.

Lemma denotes_inv o q : denotes o q -> exists s x, o = Some s /\ parse s = Some x /\ val x == q.
Proof. intros (x & Hx & Hv). destruct o as [s|]; [|discriminate]. eauto. Qed.

Ltac denotes_inv H :=
  let s := fresh "s" in let x := fresh "x" in
  let Hp := fresh "Hp" in let Hv := fresh "Hv" in
  destruct (denotes_inv _ _ H) as (s & x & -> & Hp & Hv).

Lemma stringMul_denotes a b qa qb :
  denotes a qa -> denotes b qb -> denotes (stringMul a b) (qa * qb).
Proof.
  intros Ha Hb. denotes_inv Ha. denotes_inv Hb. unfold stringMul, lift2.
  rewrite Hp, Hp0. apply denotes_to_string. rewrite val_mul, Hv, Hv0. reflexivity.
Qed.

Lemma stringAdd_denotes a b qa qb :
  denotes a qa -> denotes b qb -> denotes (stringAdd a b) (qa + qb).
Proof.
  intros Ha Hb. denotes_inv Ha. denotes_inv Hb. unfold stringAdd, lift2.
  rewrite Hp, Hp0. apply denotes_to_string. rewrite val_add, Hv, Hv0. reflexivity.
Qed.

Lemma stringAbs_denotes a q : denotes a q -> denotes (stringAbs a) (Qabs q).
Proof.
  intros Ha. denotes_inv Ha. unfold stringAbs, lift1. rewrite Hp. simpl.
  apply denotes_to_string. rewrite val_abs, Hv. reflexivity.
Qed.

(** Division refines the rational quotient when the divisor is non-zero
    and the quotient has at most [precision] fractional digits. *)
Lemma stringDiv_denotes a b qa qb m :
  denotes a qa -> denotes b qb -> ~ qb == 0 ->
  qa / qb == inject_Z m * 10 ^ (- precision) ->
  denotes (stringDiv a b) (qa / qb).
Proof.
  intros Ha Hb Hnz Hm. denotes_inv Ha. denotes_inv Hb. unfold stringDiv.
  rewrite Hp, Hp0.
  assert (Hy : integer x0 <> 0%Z) by (rewrite val_zero_iff, Hv0; exact Hnz).
  apply Z.eqb_neq in Hy as Hy'. rewrite Hy'.
  rewrite (div_exact x x0 precision m) by (auto; rewrite Hv, Hv0; exact Hm).
  apply denotes_to_string. rewrite val_mk_exp, Hm. reflexivity.
Qed.

Lemma stringDiv_zero a b : denotes b 0 -> stringDiv a b = None.
Proof.
  intros Hb. denotes_inv Hb. unfold stringDiv. destruct a as [s1|]; [|reflexivity].
  rewrite Hp. destruct (parse s1); [|reflexivity].
  apply val_zero_iff in Hv. rewrite Hv. reflexivity.
Qed.

Lemma Qlt_negb_le p q : q < p <-> negb (Qle_bool p q) = true.
Proof.
  rewrite negb_true_iff. split; intros H.
  - apply not_true_is_false. rewrite Qle_bool_iff. apply Qlt_not_le, H.
  - apply Qnot_le_lt. rewrite <- Qle_bool_iff, H. discriminate.
Qed.

Lemma stringGt_denotes a b qa qb :
  denotes a qa -> denotes b qb -> stringGt a b = Some (negb (Qle_bool qa qb)).
Proof.
  intros Ha Hb. denotes_inv Ha. denotes_inv Hb. unfold stringGt, lift_cmp.
  rewrite Hp, Hp0. f_equal. apply eq_true_iff_eq.
  rewrite gt_spec, <- Qlt_negb_le, Hv, Hv0. reflexivity.
Qed.

Lemma stringLt_denotes a b qa qb :
  denotes a qa -> denotes b qb -> stringLt a b = Some (negb (Qle_bool qb qa)).
Proof.
  intros Ha Hb. denotes_inv Ha. denotes_inv Hb. unfold stringLt, lift_cmp.
  rewrite Hp, Hp0. f_equal. apply eq_true_iff_eq.
  rewrite lt_spec, <- Qlt_negb_le, Hv, Hv0. reflexivity.
Qed.

End Precise.
