(* ===== verification/Json.v ===== *)
(** * JavaScript values and the base class's field accessors

    Responses and request parameters are JavaScript values.  This file
    models them ([jvalue]; objects keep their keys in insertion order, as
    [Object.keys] and [JSON.stringify] do) and the generic helpers of the
    base [Exchange] class that the adapter calls (base/Exchange.js and
    base/functions, not part of src/: modelled from the spec, sections 2
    and 9, "safe-get with default, safe-get-as-number, safe-get-as-string",
    "model every raw field as optional").

    A field counts as absent when it is missing, [undefined], [null] or the
    empty string, the base library's convention.  JavaScript numbers are
    exact decimals ([Precise.t]). *)

From Stdlib Require Import ZArith String Ascii List Bool Lia.
From S2P Require Import Prelude Precise.
Import ListNotations.
Local Open Scope string_scope.

Module JS.

#[warnings="-register-all"]
Inductive jvalue : Type :=
| JUndefined
| JNull
| JBool (b : bool)
| JNum (n : Precise.t)
| JStr (s : string)
| JArr (l : list jvalue)
| JObj (fields : list (string * jvalue)).

(** ** Objects *)

Fixpoint assoc_get (fs : list (string * jvalue)) (k : string) : option jvalue :=
  match fs with
  | [] => None
  | (k', v) :: r => if String.eqb k k' then Some v else assoc_get r k
  end.

(** [o[k]] on an object, [o[i]] on an array (the key is the index). *)
Definition index_of_key (k : string) : option nat :=
  option_map Z.to_nat
    (match Precise.digits_value 0 (list_ascii_of_string k), k with
     | _, EmptyString => None
     | v, _ => v
     end).

Definition get (o : jvalue) (k : string) : jvalue :=
  match o with
  | JObj fs => match assoc_get fs k with Some v => v | None => JUndefined end
  | JArr l =>
      match index_of_key k with
      | Some i => nth i l JUndefined
      | None => JUndefined
      end
  | _ => JUndefined
  end.

(** [k in o]: the key is present, whatever its value. *)
Definition has_key (o : jvalue) (k : string) : bool :=
  match o with
  | JObj fs => match assoc_get fs k with Some _ => true | None => false end
  | _ => false
  end.

(** [Object.keys (o).length]. *)
Definition keys_length (o : jvalue) : nat :=
  match o with JObj fs => length fs | _ => 0 end.

(** [o[k] = v]: replace in place, or append a new key. *)
Fixpoint assoc_set (fs : list (string * jvalue)) (k : string) (v : jvalue)
  : list (string * jvalue) :=
  match fs with
  | [] => [(k, v)]
  | (k', v') :: r => if String.eqb k k' then (k', v) :: r else (k', v') :: assoc_set r k v
  end.

Definition set (o : jvalue) (k : string) (v : jvalue) : jvalue :=
  match o with
  | JObj fs => JObj (assoc_set fs k v)
  | _ => JObj [(k, v)]
  end.

(** [extend (a, b)] is [Object.assign ({}, a, b)]: the keys of [a] in order,
    overwritten by those of [b], then the new keys of [b]. *)
Definition extend (a b : jvalue) : jvalue :=
  match a, b with
  | JObj fa, JObj fb => JObj (fold_left (fun acc '(k, v) => assoc_set acc k v) fb fa)
  | JObj fa, _ => JObj fa
  | _, JObj fb => JObj fb
  | _, _ => JObj []
  end.

(** [omit (o, keys)]: a copy of [o] without the given keys. *)
Definition omit (o : jvalue) (ks : list string) : jvalue :=
  match o with
  | JObj fs => JObj (filter (fun '(k, _) => negb (existsb (String.eqb k) ks)) fs)
  | _ => o
  end.

(** ** Truthiness *)

Definition truthy (v : jvalue) : bool :=
  match v with
  | JUndefined | JNull => false
  | JBool b => b
  | JNum n => negb (Precise.integer n =? 0)%Z
  | JStr s => negb (String.eqb s "")
  | JArr _ | JObj _ => true
  end.

(** ** The [safe*] accessors *)

(** [prop]: the field, or [undefined] when it is missing, [null] or [''] *)
Definition prop (o : jvalue) (k : string) : jvalue :=
  match get o k with
  | JNull => JUndefined
  | JStr "" => JUndefined
  | v => v
  end.

Definition safeValue (o : jvalue) (k : string) (d : jvalue) : jvalue :=
  match prop o k with JUndefined => d | v => v end.

Definition safeValue2 (o : jvalue) (k1 k2 : string) (d : jvalue) : jvalue :=
  match prop o k1 with JUndefined => safeValue o k2 d | v => v end.

(** [String (v)] for the values the accessors coerce. *)
Definition as_string (v : jvalue) : option string :=
  match v with
  | JStr s => Some s
  | JNum n => Some (Precise.to_string n)
  | JBool true => Some "true"
  | JBool false => Some "false"
  | _ => None
  end.

Definition safeString (o : jvalue) (k : string) : option string := as_string (prop o k).

Definition safeStringD (o : jvalue) (k : string) (d : string) : string :=
  match safeString o k with Some s => s | None => d end.

Definition safeString2 (o : jvalue) (k1 k2 : string) : option string :=
  match safeString o k1 with Some s => Some s | None => safeString o k2 end.

Definition upper_ascii (c : ascii) : ascii :=
  let n := nat_of_ascii c in
  if ((97 <=? n) && (n <=? 122))%nat then ascii_of_nat (n - 32) else c.

Definition safeStringUpper (o : jvalue) (k : string) : option string :=
  option_map (fun s => string_of_list_ascii (map upper_ascii (list_ascii_of_string s)))
    (safeString o k).

(** [safeNumber]: the field's text as a number.  Text that is not a plain
    decimal is [None] here, where the base class's conversion gives a
    number (an exponent) or NaN. *)
Definition safeNumber (o : jvalue) (k : string) : option Precise.t :=
  match safeString o k with Some s => Precise.parse s | None => None end.

(** [parseNumber] of a string that may be [undefined]. *)
Definition parseNumber (s : option string) : option Precise.t :=
  match s with Some s => Precise.parse s | None => None end.

(** The integer part of a number, truncated toward zero ([parseInt]). *)
Definition trunc (x : Precise.t) : Z :=
  Precise.integer (Precise.div x (Precise.mk 1 0) 0).

Definition as_integer (v : jvalue) : option Z :=
  match v with
  | JNum n => Some (trunc n)
  | JStr s => option_map trunc (Precise.parse s)
  | _ => None
  end.

Definition safeInteger (o : jvalue) (k : string) : option Z := as_integer (prop o k).

Definition safeInteger2 (o : jvalue) (k1 k2 : string) : option Z :=
  match safeInteger o k1 with Some z => Some z | None => safeInteger o k2 end.

(** [safeIntegerProduct (o, k, factor)]: [parseInt (o[k] * factor)]. *)
Definition safeIntegerProduct (o : jvalue) (k : string) (factor : Precise.t) : option Z :=
  match prop o k with
  | JNum n => Some (trunc (Precise.mul n factor))
  | JStr s => option_map (fun n => trunc (Precise.mul n factor)) (Precise.parse s)
  | _ => None
  end.

(** ** Encodings *)

Definition hex_digit (n : nat) : ascii :=
  if (n <? 10)%nat then ascii_of_nat (48 + n) else ascii_of_nat (55 + n).

Definition unreserved (c : ascii) : bool :=
  let n := nat_of_ascii c in
  (((48 <=? n) && (n <=? 57)) || ((65 <=? n) && (n <=? 90)) || ((97 <=? n) && (n <=? 122))
   || (n =? 45) || (n =? 46) || (n =? 95) || (n =? 126))%nat.

(** Percent-encoding of a URL component (RFC 3986). *)
Definition percent_encode (s : string) : string :=
  string_of_list_ascii
    (flat_map (fun c => if unreserved c then [c]
                        else ["%"%char; hex_digit (nat_of_ascii c / 16);
                              hex_digit (nat_of_ascii c mod 16)])
       (list_ascii_of_string s)).

Fixpoint join (sep : string) (l : list string) : string :=
  match l with
  | [] => ""
  | [x] => x
  | x :: r => x ++ sep ++ join sep r
  end.

(** [urlencode (o)]: [k=v] pairs joined by [&]; [undefined] values are
    skipped and [null] is the empty string. *)
Definition urlencode (o : jvalue) : string :=
  match o with
  | JObj fs =>
      join "&"
        (flat_map (fun '(k, v) =>
                     match v with
                     | JUndefined => []
                     | JNull => [percent_encode k ++ "="]
                     | _ => [percent_encode k ++ "=" ++
                              percent_encode (match as_string v with Some s => s | None => "" end)]
                     end) fs)
  | _ => ""
  end.

Definition quote_char : ascii := ascii_of_nat 34.
Definition backslash : ascii := ascii_of_nat 92.

Definition json_string (s : string) : string :=
  string_of_list_ascii
    ([quote_char] ++
     flat_map (fun c => if Ascii.eqb c quote_char || Ascii.eqb c backslash
                        then [backslash; c] else [c]) (list_ascii_of_string s) ++
     [quote_char]).

(** [JSON.stringify (v)] without spaces; [undefined] members are skipped. *)
Fixpoint json (v : jvalue) : string :=
  match v with
  | JUndefined => "null"
  | JNull => "null"
  | JBool true => "true"
  | JBool false => "false"
  | JNum n => Precise.to_string n
  | JStr s => json_string s
  | JArr l => "[" ++ join "," (map json l) ++ "]"
  | JObj fs =>
      "{" ++ join ","
        ((fix members (fs : list (string * jvalue)) : list string :=
            match fs with
            | [] => []
            | (_, JUndefined) :: r => members r
            | (k, v) :: r => (json_string k ++ ":" ++ json v) :: members r
            end) fs) ++ "}"
  end.

(** ** Lemmas on objects *)

Lemma assoc_get_set fs k v k' :
  assoc_get (assoc_set fs k v) k' = if String.eqb k' k then Some v else assoc_get fs k'.
Proof.
  induction fs as [|[k0 v0] r IH]; simpl.
  - destruct (String.eqb k' k); reflexivity.
  - destruct (String.eqb k k0) eqn:E; simpl.
    + apply String.eqb_eq in E. subst k0. destruct (String.eqb k' k); reflexivity.
    + rewrite IH. destruct (String.eqb k' k0) eqn:E1, (String.eqb k' k) eqn:E2; try reflexivity.
      apply String.eqb_eq in E1, E2. subst. rewrite String.eqb_refl in E. discriminate.
Qed.

Lemma get_set_obj fs k v k' :
  get (set (JObj fs) k v) k' = if String.eqb k' k then v else get (JObj fs) k'.
Proof. simpl. rewrite assoc_get_set. destruct (String.eqb k' k); reflexivity. Qed.

Lemma get_extend_obj fa b k :
  has_key b k = false -> get (extend (JObj fa) b) k = get (JObj fa) k.
Proof.
  destruct b as [| | | | | |fb]; try reflexivity. simpl. revert fa.
  induction fb as [|[k0 v0] r IH]; intros fa H; [reflexivity|]. simpl in H |- *.
  destruct (String.eqb k k0) eqn:E; [discriminate|].
  specialize (IH (assoc_set fa k0 v0) H). simpl in IH. rewrite IH, assoc_get_set, E. reflexivity.
Qed.

Lemma get_omit o ks k : existsb (String.eqb k) ks = false -> get (omit o ks) k = get o k.
Proof.
  intros H. destruct o as [| | | | | |fs]; try reflexivity. simpl.
  induction fs as [|[k0 v0] r IH]; [reflexivity|]. simpl.
  destruct (existsb (String.eqb k0) ks) eqn:E; simpl.
  - destruct (String.eqb k k0) eqn:E1; [|exact IH].
    apply String.eqb_eq in E1. subst. rewrite E in H. discriminate.
  - destruct (String.eqb k k0); [reflexivity | exact IH].
Qed.

Lemma safeValue_omit o ks k d :
  existsb (String.eqb k) ks = false -> safeValue (omit o ks) k d = safeValue o k d.
Proof. intros H. unfold safeValue, prop. rewrite get_omit by exact H. reflexivity. Qed.

Lemma safeString_omit o ks k :
  existsb (String.eqb k) ks = false -> safeString (omit o ks) k = safeString o k.
Proof. intros H. unfold safeString, prop. rewrite get_omit by exact H. reflexivity. Qed.

Lemma has_key_omit o ks k :
  existsb (String.eqb k) ks = false -> has_key (omit o ks) k = has_key o k.
Proof.
  intros H. destruct o as [| | | | | |fs]; try reflexivity. simpl.
  induction fs as [|[k0 v0] r IH]; [reflexivity|]. simpl.
  destruct (existsb (String.eqb k0) ks) eqn:E; simpl.
  - destruct (String.eqb k k0) eqn:E1; [|exact IH].
    apply String.eqb_eq in E1. subst. rewrite E in H. discriminate.
  - destruct (String.eqb k k0); [reflexivity | exact IH].
Qed.

Lemma safeValue2_omit o ks k1 k2 d :
  existsb (String.eqb k1) ks = false -> existsb (String.eqb k2) ks = false ->
  safeValue2 (omit o ks) k1 k2 d = safeValue2 o k1 k2 d.
Proof.
  intros H1 H2. unfold safeValue2, prop. rewrite get_omit by exact H1.
  rewrite safeValue_omit by exact H2. reflexivity.
Qed.

End JS.
