(* ===== verification/Errors.v ===== *)
(** * Error taxonomy and the error classifier

    [describe ().exceptions] (src/js/poloniexfutures.js, lines 166-192)
    declares an exact table, keyed by the exchange's codes, and a broad
    table, keyed by substrings of the response body.  [handleErrors]
    (lines 1618-1635) consults them in a fixed order: the message, then the
    code, then the body.  The base class's [throwExactlyMatchedException]
    and [throwBroadlyMatchedException] (not part of src/) are modelled
    from spec section 4.8.

    The abstract specification [classify] states the matching order of
    spec section 4.8; [handleErrors_refines] shows that the code
    implements it. *)

From Stdlib Require Import ZArith String Ascii List Bool Lia.
From S2P Require Import Prelude Precise Json.
Import ListNotations.
Local Open Scope string_scope.
Local Open Scope ccxt_scope.

Module Errors.
Import JS.

(** ** The exception classes the adapter throws (base/errors.js) *)

Inductive exn_kind : Type :=
| BadRequest
| ArgumentsRequired
| InvalidOrder
| AuthenticationError
| NotSupported
| RateLimitExceeded
| ExchangeNotAvailable
| InvalidNonce
| AccountSuspended
| OrderNotFound
(** The base class's generic error, raised by its registry lookups. *)
| ExchangeError
(** A symbol the market registry does not know. *)
| BadSymbol
(** A JavaScript runtime error: a property read of [undefined], a call of
    a method that does not exist. *)
| TypeError.

Scheme Equality for exn_kind.

Record exn : Type := mkExn { kind : exn_kind; message : string }.

(** [this.id]. *)
Definition exchange_id : string := "poloniexfutures".

(** ** The tables of [describe ()] *)

Definition exact_table : list (string * exn_kind) :=
  [ ("400", BadRequest);
    ("401", AuthenticationError);
    ("403", NotSupported);
    ("404", NotSupported);
    ("405", NotSupported);
    ("415", BadRequest);
    ("429", RateLimitExceeded);
    ("500", ExchangeNotAvailable);
    ("503", ExchangeNotAvailable);
    ("400001", AuthenticationError);
    ("400002", InvalidNonce);
    ("400003", AuthenticationError);
    ("400004", AuthenticationError);
    ("400005", AuthenticationError);
    ("400006", AuthenticationError);
    ("400007", AuthenticationError);
    ("404000", NotSupported);
    ("400100", BadRequest);
    ("411100", AccountSuspended);
    ("500000", ExchangeNotAvailable) ].

Definition broad_table : list (string * exn_kind) :=
  [ ("Position does not exist", OrderNotFound) ].

(** ** The base class's matching helpers *)

Fixpoint lookup (tbl : list (string * exn_kind)) (k : string) : option exn_kind :=
  match tbl with
  | [] => None
  | (k', e) :: r => if String.eqb k k' then Some e else lookup r k
  end.

(** [s.indexOf (key) >= 0]. *)
Definition contains (s key : string) : bool :=
  match String.index 0 key s with Some _ => true | None => false end.

(** [findBroadlyMatchedKey]: the first key of the table contained in [s]. *)
Fixpoint find_broad (tbl : list (string * exn_kind)) (s : string) : option exn_kind :=
  match tbl with
  | [] => None
  | (k, e) :: r => if contains s k then Some e else find_broad r s
  end.

Definition throw_if (m : option exn_kind) (msg : string) : res exn unit :=
  match m with
  | Some k => Err (mkExn k msg)
  | None => Ok tt
  end.

Definition throwExactlyMatchedException (tbl : list (string * exn_kind)) (s : option string)
  (msg : string) : res exn unit :=
  throw_if (match s with Some s => lookup tbl s | None => None end) msg.

Definition throwBroadlyMatchedException (tbl : list (string * exn_kind)) (s : option string)
  (msg : string) : res exn unit :=
  throw_if (match s with Some s => find_broad tbl s | None => None end) msg.

(** ** [handleErrors] *)

(** [body] is the raw text of the response, [response] its parsed JSON
    ([undefined] when the body is not JSON). *)
Definition handleErrors (body : string) (response : jvalue) : res exn unit :=
  if negb (truthy response) then
    throwBroadlyMatchedException broad_table (Some body) body
  else
    let errorCode := safeString response "code" in
    let message := safeStringD response "msg" "" in
    let feedback := exchange_id ++ " " ++ message in
    let* _ := throwExactlyMatchedException exact_table (Some message) feedback in
    let* _ := throwExactlyMatchedException exact_table errorCode feedback in
    throwBroadlyMatchedException broad_table (Some body) feedback.

(** ** Abstract specification (spec section 4.8) *)

(** The kind a response is classified as: exact match of the message,
    then of the code, then broad match on the body; on a falsy response
    only the broad check. *)
Definition classify (body : string) (response : jvalue) : option exn_kind :=
  if negb (truthy response) then find_broad broad_table body
  else
    match lookup exact_table (safeStringD response "msg" "") with
    | Some k => Some k
    | None =>
        match (match safeString response "code" with
               | Some c => lookup exact_table c | None => None end) with
        | Some k => Some k
        | None => find_broad broad_table body
        end
    end.

(** ** Theorems *)

Lemma throw_if_bind (m : option exn_kind) msg (k : unit -> res exn unit) :
  res_bind (throw_if m msg) k = match m with Some e => Err (mkExn e msg) | None => k tt end.
Proof. destruct m; reflexivity. Qed.

Lemma handleErrors_classify body response :
  handleErrors body response =
  throw_if (classify body response)
    (if truthy response then exchange_id ++ " " ++ safeStringD response "msg" "" else body).
Proof.
  unfold handleErrors, classify, throwExactlyMatchedException, throwBroadlyMatchedException.
  destruct (truthy response); cbn [negb]; [|reflexivity].
  rewrite throw_if_bind. destruct (lookup exact_table (safeStringD response "msg" ""));
    [reflexivity|].
  rewrite throw_if_bind. destruct (match safeString response "code" with
                                   | Some s => lookup exact_table s | None => None end);
    reflexivity.
Qed.

(** C1: [handleErrors] implements the classifier of spec section 4.8: it
    throws exactly when [classify] finds a kind, with that kind, and its
    message is the exchange id and the response's message (the body itself
    when the response is falsy); otherwise it returns normally. *)
Theorem handleErrors_refines body response :
  handleErrors body response =
  throw_if (classify body response)
    (if truthy response then exchange_id ++ " " ++ safeStringD response "msg" "" else body).
Proof. apply handleErrors_classify. Qed.

(** C10: a response whose code is ["429"] raises [RateLimitExceeded], when
    its message is not itself a key of the exact table. *)
Theorem handleErrors_rate_limit body response :
  truthy response = true ->
  safeString response "code" = Some "429" ->
  lookup exact_table (safeStringD response "msg" "") = None ->
  handleErrors body response =
  Err (mkExn RateLimitExceeded (exchange_id ++ " " ++ safeStringD response "msg" "")).
Proof.
  intros Ht Hc Hm. rewrite handleErrors_classify. unfold classify.
  rewrite Ht, Hm, Hc. reflexivity.
Qed.

Example handleErrors_rate_limit_witness :
  let r := JObj [("code", JStr "429"); ("msg", JStr "Too Many Requests")] in
  handleErrors "{}" r = Err (mkExn RateLimitExceeded "poloniexfutures Too Many Requests").
Proof.
  intros r. rewrite (handleErrors_rate_limit "{}" r); reflexivity.
Defined.

(** C11: a body containing ["Position does not exist"] raises
    [OrderNotFound] even when the code is the success code ["200000"], when
    neither the message nor the code is a key of the exact table. *)
Theorem handleErrors_position_not_found body response :
  truthy response = true ->
  lookup exact_table (safeStringD response "msg" "") = None ->
  safeString response "code" = Some "200000" ->
  contains body "Position does not exist" = true ->
  handleErrors body response =
  Err (mkExn OrderNotFound (exchange_id ++ " " ++ safeStringD response "msg" "")).
Proof.
  intros Ht Hm Hc Hb. rewrite handleErrors_classify. unfold classify.
  rewrite Ht, Hm, Hc. simpl. rewrite Hb. reflexivity.
Qed.

Example handleErrors_position_not_found_witness :
  let r := JObj [("code", JStr "200000"); ("msg", JStr "Position does not exist")] in
  handleErrors "{code:200000,msg:Position does not exist}" r =
  Err (mkExn OrderNotFound "poloniexfutures Position does not exist").
Proof.
  intros r. rewrite (handleErrors_position_not_found _ r); reflexivity.
Defined.

End Errors.
