(* ===== verification/Markets.v ===== *)
(** * Markets: the listing normalizer and the market registry

    [fetchMarkets] (src/js/poloniexfutures.js, lines 196-340) turns each
    record of [contracts/active] into a unified market (the loop body,
    lines 272-337, is [parseMarket] here).  The registry the base class
    builds from these markets ([loadMarkets], [market (symbol)],
    [safeMarket (id, market)], [safeCurrencyCode]; not part of src/) is
    modelled from spec sections 2 and 3: a market is looked up by symbol
    or by exchange id, and currency codes are canonicalized by a function
    the exchange object supplies.  [market_wf] is the shape every market
    of this exchange has, and every parsed market has it. *)

From Stdlib Require Import ZArith QArith Qabs String Ascii List Bool Lia.
From S2P Require Import Prelude Precise Json Errors.
Import ListNotations.
Local Open Scope string_scope.
Local Open Scope ccxt_scope.

Module Markets.
Import JS Errors.

Record minmax : Type := mkMinMax { min : option Precise.t; max : option Precise.t }.

(** The unified market of lines 288-337 (the [undefined] fields [expiry],
    [expiryDatetime], [strike], [optionType] are left out). *)
Record market : Type := mkMarket {
  id : option string;
  symbol : option string;
  base : option string;
  quote : option string;
  settle : option string;
  baseId : option string;
  quoteId : option string;
  settleId : option string;
  type_ : string;
  spot : bool;
  margin : bool;
  swap : bool;
  future : bool;
  option_ : bool;
  active : bool;
  contract : bool;
  linear : bool;
  inverse : jvalue;
  taker : option Precise.t;
  maker : option Precise.t;
  contractSize : option Precise.t;
  precision_amount : option Precise.t;
  precision_price : option Precise.t;
  limits_leverage : minmax;
  limits_amount : minmax;
  limits_price : minmax;
  limits_cost : minmax;
  info : jvalue
}.

(** [String (x)] in a concatenation: [undefined] prints as ["undefined"]. *)
Definition js_str (o : option string) : string :=
  match o with Some s => s | None => "undefined" end.

(** [safeCurrencyCode (id)]: [undefined] stays [undefined]; an id is mapped
    to its unified code by the exchange's currency canonicalization. *)
Definition safeCurrencyCode (currency_code : string -> string) (id : option string)
  : option string :=
  option_map currency_code id.

Definition parseMarket (currency_code : string -> string) (raw : jvalue) : market :=
  let id := safeString raw "symbol" in
  let baseId := safeString raw "baseCurrency" in
  let quoteId := safeString raw "quoteCurrency" in
  let settleId := safeString raw "rootSymbol" in
  let base := safeCurrencyCode currency_code baseId in
  let quote := safeCurrencyCode currency_code quoteId in
  let settle := safeCurrencyCode currency_code settleId in
  let symbol := js_str base ++ "/" ++ js_str quote ++ ":" ++ js_str settle in
  let inverse := safeValue raw "isInverse" JUndefined in
  let status := safeString raw "status" in
  let multiplier := safeString raw "multiplier" in
  let tickSize := safeNumber raw "indexPriceTickSize" in
  let lotSize := safeNumber raw "lotSize" in
  let limitAmountMax := safeNumber raw "maxOrderQty" in
  let limitPriceMax := safeNumber raw "maxPrice" in
  {| id := id;
     symbol := Some symbol;
     base := base;
     quote := quote;
     settle := settle;
     baseId := baseId;
     quoteId := quoteId;
     settleId := settleId;
     type_ := "swap";
     spot := false;
     margin := false;
     swap := true;
     future := false;
     option_ := false;
     active := match status with Some s => String.eqb s "Open" | None => false end;
     contract := true;
     linear := negb (truthy inverse);
     inverse := inverse;
     taker := safeNumber raw "takerFeeRate";
     maker := safeNumber raw "makerFeeRate";
     contractSize := parseNumber (Precise.stringAbs multiplier);
     precision_amount := lotSize;
     precision_price := tickSize;
     limits_leverage := mkMinMax (Precise.parse "1") (safeNumber raw "maxLeverage");
     limits_amount := mkMinMax lotSize limitAmountMax;
     limits_price := mkMinMax tickSize limitPriceMax;
     limits_cost := mkMinMax None None;
     info := raw |}.

(** Lines 268-339: one market per record of [data] ([data.length] of
    anything but an array ends the loop at once). *)
Definition parseMarkets (currency_code : string -> string) (response : jvalue) : list market :=
  match safeValue response "data" (JArr []) with
  | JArr data => map (parseMarket currency_code) data
  | _ => []
  end.

(** The shape of every market of this exchange (lines 296-309): a
    perpetual swap contract, linear exactly when [isInverse] is falsy,
    with a symbol and, when the multiplier is a number, a non-negative
    contract size. *)
Definition market_wf (m : market) : bool :=
  String.eqb (type_ m) "swap" && swap m && contract m && negb (spot m) && negb (margin m)
  && negb (future m) && negb (option_ m)
  && Bool.eqb (linear m) (negb (truthy (inverse m)))
  && match symbol m with Some _ => true | None => false end
  && match contractSize m with Some x => (0 <=? Precise.integer x)%Z | None => true end.

(** ** The registry of the base class *)

Fixpoint find_market (f : market -> bool) (ms : list market) : option market :=
  match ms with
  | [] => None
  | m :: r => if f m then Some m else find_market f r
  end.

Definition same (a : option string) (b : string) : bool :=
  match a with Some a => String.eqb a b | None => false end.

(** [this.market (symbol)]: by unified symbol, then by exchange id; a
    symbol the registry does not know is a [BadSymbol] error. *)
Definition market_of (ms : list market) (s : string) : res exn market :=
  match find_market (fun m => same (symbol m) s) ms with
  | Some m => Ok m
  | None =>
      match find_market (fun m => same (id m) s) ms with
      | Some m => Ok m
      | None => Err (mkExn BadSymbol (exchange_id ++ " does not have market symbol " ++ s))
      end
  end.

(** The market the registry returns for an id it does not know: only the
    id and, as its symbol, the id itself; its other fields are [undefined]
    ([linear] is then falsy). *)
Definition stub_market (marketId : option string) : market :=
  {| id := marketId; symbol := marketId; base := None; quote := None; settle := None;
     baseId := None; quoteId := None; settleId := None; type_ := "swap";
     spot := false; margin := false; swap := true; future := false; option_ := false;
     active := false; contract := true; linear := false; inverse := JUndefined;
     taker := None; maker := None; contractSize := None;
     precision_amount := None; precision_price := None;
     limits_leverage := mkMinMax None None; limits_amount := mkMinMax None None;
     limits_price := mkMinMax None None; limits_cost := mkMinMax None None;
     info := JUndefined |}.

(** [safeMarket (marketId, market)]: the registry's market with that id,
    else the market passed in, else a stub.  The optional [delimiter]
    argument (['-'] at line 564), with which the base class splits an id
    the registry does not know into base and quote, is not modelled: the
    stub's symbol is such an id itself. *)
Definition safeMarket (ms : list market) (marketId : option string) (m : option market)
  : market :=
  match marketId with
  | Some i =>
      match find_market (fun m => same (id m) i) ms with
      | Some m' => m'
      | None => match m with Some m => m | None => stub_market marketId end
      end
  | None => match m with Some m => m | None => stub_market None end
  end.

(** ** Theorems *)

(** C27: a listed market is active exactly when its status is ["Open"], and
    its unified symbol is [BASE/QUOTE:SETTLE] of the canonical codes of
    the base, quote and settlement currency ids. *)
Theorem parseMarket_active_symbol cc raw b q s :
  safeString raw "baseCurrency" = Some b ->
  safeString raw "quoteCurrency" = Some q ->
  safeString raw "rootSymbol" = Some s ->
  symbol (parseMarket cc raw) = Some (cc b ++ "/" ++ cc q ++ ":" ++ cc s) /\
  (active (parseMarket cc raw) = true <-> safeString raw "status" = Some "Open").
Proof.
  intros Hb Hq Hs. unfold parseMarket. cbn [symbol active].
  rewrite Hb, Hq, Hs. split; [reflexivity|].
  destruct (safeString raw "status") as [st|]; [|split; discriminate].
  rewrite String.eqb_eq. split; congruence.
Qed.

Example parseMarket_active_symbol_witness :
  let raw := JObj [("symbol", JStr "BTCUSDTPERP"); ("baseCurrency", JStr "XBT");
                   ("quoteCurrency", JStr "USDT"); ("rootSymbol", JStr "USDT");
                   ("status", JStr "Open"); ("multiplier", JStr "-0.001")] in
  let cc := fun c => if String.eqb c "XBT" then "BTC" else c in
  symbol (parseMarket cc raw) = Some "BTC/USDT:USDT" /\ active (parseMarket cc raw) = true.
Proof.
  intros raw cc.
  destruct (parseMarket_active_symbol cc raw "XBT" "USDT" "USDT") as [Hs Ha];
    [reflexivity..|].
  split; [exact Hs | apply Ha; reflexivity].
Defined.

(** C28: the contract size is the absolute value of the multiplier (whose
    sign marks an inverse contract), computed exactly. *)
Theorem parseMarket_contractSize cc raw (q : Q) :
  Precise.denotes (safeString raw "multiplier") q ->
  exists x, contractSize (parseMarket cc raw) = Some x /\ (Precise.val x == Qabs q)%Q.
Proof.
  intros Hm. apply Precise.stringAbs_denotes in Hm.
  destruct Hm as (x & Hx & Hv). unfold parseMarket; cbn [contractSize].
  destruct (Precise.stringAbs (safeString raw "multiplier")) as [str|]; [|discriminate].
  exists x. split; [exact Hx | exact Hv].
Qed.

Example parseMarket_contractSize_witness :
  exists x, contractSize (parseMarket (fun c => c) (JObj [("multiplier", JStr "-0.001")]))
              = Some x /\ (Precise.val x == Qabs (-1 # 1000))%Q.
Proof.
  apply parseMarket_contractSize. exists (Precise.mk (-1) 3). split; reflexivity.
Defined.

(** C15: every market [fetchMarkets] parses is well-formed
    ([market_wf]): a perpetual swap with a symbol, [linear] the negation
    of [isInverse], and a non-negative contract size, whatever the raw
    records hold. *)
Theorem parseMarkets_wf cc response :
  Forall (fun m => market_wf m = true) (parseMarkets cc response).
Proof.
  unfold parseMarkets. destruct (safeValue response "data" (JArr [])); try constructor.
  apply Forall_forall. intros m Hin. apply in_map_iff in Hin as (raw & <- & _).
  unfold market_wf, parseMarket. cbn [type_ swap contract spot margin future option_ linear
    inverse symbol contractSize]. rewrite Bool.eqb_reflx. simpl.
  destruct (parseNumber _) as [x|] eqn:E; [|reflexivity].
  apply Z.leb_le, (Precise.stringAbs_nonneg _ _ E).
Qed.

(** [market (symbol)] returns a market with that symbol or that id, and
    fails with [BadSymbol] on a symbol and id the registry does not know. *)
Theorem market_of_spec ms s :
  match market_of ms s with
  | Ok m => same (symbol m) s = true \/ same (id m) s = true
  | Err e => kind e = BadSymbol /\
             Forall (fun m => same (symbol m) s = false /\ same (id m) s = false) ms
  end.
Proof.
  unfold market_of.
  assert (Hf : forall f l m, find_market f l = Some m -> f m = true)
    by (induction l as [|x l IH]; simpl; [discriminate|];
        intros m; destruct (f x) eqn:E; [intros H; inv H; exact E | apply IH]).
  assert (Hn : forall f l, find_market f l = None -> Forall (fun m => f m = false) l)
    by (induction l as [|x l IH]; simpl; [constructor|];
        destruct (f x) eqn:E; [discriminate | intros H; constructor; auto]).
  destruct (find_market (fun m => same (symbol m) s) ms) eqn:E1; [left; exact (Hf _ _ _ E1)|].
  destruct (find_market (fun m => same (id m) s) ms) eqn:E2; [right; exact (Hf _ _ _ E2)|].
  split; [reflexivity|].
  apply Hn in E1, E2. clear -E1 E2. induction ms as [|m ms IH]; [constructor|].
  inv E1. inv E2. constructor; auto.
Qed.

End Markets.
