(* ===== verification/Signer.v ===== *)
(** * The request signer

    [sign] (src/js/poloniexfutures.js, lines 1572-1616) builds the URL,
    body and headers of every request: it resolves the API version from
    [options.versions] (lines 150-165) or the caller's [version] parameter,
    substitutes the path placeholders, and for a private endpoint checks
    the credentials and signs [timestamp + method + endpoint + body] with
    HMAC-SHA256.  The exchange object's configuration is the record
    [exchange]; the HMAC primitive and the clock are fields of it, since
    the model does not compute SHA-256 and the code reads the clock once.

    The base class's [implodeParams] and [checkRequiredCredentials] (not
    part of src/) are modelled from spec section 4.1.  The file ends with
    the sample market and exchange that the witnesses of every later file
    run on. *)

From Stdlib Require Import ZArith QArith String Ascii List Bool Lia.
From S2P Require Import Prelude Precise Json Errors Markets.
Import ListNotations.
Local Open Scope string_scope.
Local Open Scope ccxt_scope.

Module Signer.
Import JS Errors.

(** ** The exchange object's configuration *)

Record exchange : Type := mkExchange {
  apiKey : option string;
  secret : option string;
  password : option string;
  (** [this.milliseconds ()] when the request is signed. *)
  milliseconds : Z;
  (** [this.hmac (payload, secret, 'sha256', 'base64')]. *)
  hmac : string -> string -> string;
  (** [this.options]. *)
  options : jvalue;
  (** [this.uuid ()]: the client order id [createOrder] generates. *)
  uuid : string;
  (** The market registry [loadMarkets] filled. *)
  markets : list Markets.market;
  (** The canonicalization of currency ids into unified codes. *)
  currency_code : string -> string;
  (** [this.iso8601 (timestamp)]: the base class's datetime text of a
      timestamp, [undefined] included. *)
  iso8601 : option Z -> option string
}.

(** [describe ().version]. *)
Definition default_version : string := "v1".

(** [describe ().urls.api]: the same host for both scopes. *)
Definition api_url (api : string) : string :=
  if String.eqb api "public" then "https://futures-api.poloniex.com"
  else "https://futures-api.poloniex.com".

(** [describe ().options]. *)
Definition default_options : jvalue :=
  JObj [ ("networks", JObj [("OMNI", JStr "omni"); ("ERC20", JStr "eth"); ("TRC20", JStr "trx")]);
         ("versions",
           JObj [("public",
                   JObj [("GET",
                           JObj [("ticker", JStr "v2"); ("tickers", JStr "v2");
                                 ("level3/snapshot", JStr "v2")])])]) ].

(** ** Base class helpers *)

(** [s.replace (pat, rep)]: the first occurrence only. *)
Definition replace_first (pat rep s : string) : string :=
  match String.index 0 pat s with
  | Some i => substring 0 i s ++ rep ++
              substring (i + String.length pat) (String.length s - (i + String.length pat)) s
  | None => s
  end.

(** [implodeParams (path, params)]: each [{key}] of the template replaced by
    the parameter's text, in the order of the parameters. *)
Definition implodeParams (path : string) (params : jvalue) : string :=
  match params with
  | JObj fs =>
      fold_left (fun p '(k, v) =>
                   match v with
                   | JArr _ => p
                   | _ => match as_string v with
                          | Some s => replace_first ("{" ++ k ++ "}") s p
                          | None => p
                          end
                   end) fs path
  | _ => path
  end.

Definition credential_present (c : option string) : bool :=
  match c with Some s => negb (String.eqb s "") | None => false end.

(** [checkRequiredCredentials ()] with [requiredCredentials] of [describe ()]
    (lines 145-149): the key, the secret and the passphrase. *)
Definition checkRequiredCredentials (ex : exchange) : res exn unit :=
  if negb (credential_present (apiKey ex)) then
    Err (mkExn AuthenticationError (exchange_id ++ " requires apiKey credential"))
  else if negb (credential_present (secret ex)) then
    Err (mkExn AuthenticationError (exchange_id ++ " requires secret credential"))
  else if negb (credential_present (password ex)) then
    Err (mkExn AuthenticationError (exchange_id ++ " requires password credential"))
  else Ok tt.

(** [milliseconds ().toString ()]. *)
Definition z_to_string (z : Z) : string := Precise.to_string (Precise.mk z 0).

(** ** [sign] *)

Record request : Type := mkRequest {
  url : string;
  method : string;
  body : option string;
  headers : option (list (string * string))
}.

(** The version resolution of lines 1574-1578. *)
Definition resolve_version (ex : exchange) (path api method : string) (params : jvalue)
  : string :=
  let versions := safeValue (options ex) "versions" (JObj []) in
  let apiVersions := safeValue versions api (JObj []) in
  let methodVersions := safeValue apiVersions method (JObj []) in
  let defaultVersion := safeStringD methodVersions path default_version in
  safeStringD params "version" defaultVersion.

(** The payload that is signed (line 1605). *)
Definition payload (now method endpoint endpart : string) : string :=
  now ++ method ++ endpoint ++ endpart.

(** The headers of a private request (lines 1607-1613). *)
Definition signed_headers (ex : exchange) (signature now : string) : list (string * string) :=
  [("PF-API-SIGN", signature); ("PF-API-TIMESTAMP", now);
   ("PF-API-KEY", match apiKey ex with Some k => k | None => "" end);
   ("PF-API-PASSPHRASE", match password ex with Some p => p | None => "" end);
   ("Content-Type", "application/json")].

Definition sign (ex : exchange) (path api method : string) (params : jvalue)
  (headers_in : option (list (string * string))) (body_in : option string)
  : res exn request :=
  let version := resolve_version ex path api method params in
  let tail := "/api/" ++ version ++ "/" ++ implodeParams path params in
  let url0 := api_url api ++ tail in
  let query := omit params [path] in
  let queryLength := keys_length query in
  if String.eqb api "public" then
    let url1 := if (queryLength =? 0)%nat then url0 else url0 ++ "?" ++ urlencode query in
    Ok (mkRequest url1 method body_in headers_in)
  else
    let* _ := checkRequiredCredentials ex in
    let endpoint0 := "/api/v1/" ++ implodeParams path params in
    let bodyEncoded := urlencode query in
    let is_get := String.eqb method "GET" || String.eqb method "HEAD" in
    let has_body := negb is_get || match body_in with Some _ => true | None => false end in
    let append := is_get && negb (queryLength =? 0)%nat && negb (String.eqb bodyEncoded "") in
    let url1 := if append then url0 ++ "?" ++ bodyEncoded else url0 in
    let endpoint := if append then endpoint0 ++ "?" ++ bodyEncoded else endpoint0 in
    let now := z_to_string (milliseconds ex) in
    let body := if has_body then Some (json query) else body_in in
    let endpart := if has_body then json query else "" in
    let signature :=
      hmac ex (payload now method endpoint endpart)
        (match secret ex with Some s => s | None => "" end) in
    Ok (mkRequest url1 method body (Some (signed_headers ex signature now))).

(** The signature header of a signed request. *)
Definition signature_of (r : request) : option string :=
  match headers r with
  | Some hs => match find (fun '(k, _) => String.eqb k "PF-API-SIGN") hs with
               | Some (_, v) => Some v
               | None => None
               end
  | None => None
  end.

(** The same exchange object read at another time. *)
Definition with_clock (ex : exchange) (ms : Z) : exchange :=
  mkExchange (apiKey ex) (secret ex) (password ex) ms (hmac ex) (options ex) (uuid ex)
    (markets ex) (currency_code ex) (iso8601 ex).

(** ** Theorems *)

Lemma sign_private_body_eq ex path method params h b :
  checkRequiredCredentials ex = Ok tt ->
  String.eqb method "GET" = false -> String.eqb method "HEAD" = false ->
  sign ex path "private" method params h b =
  Ok (mkRequest
        (api_url "private" ++ "/api/" ++ resolve_version ex path "private" method params ++ "/"
           ++ implodeParams path params)
        method (Some (json (omit params [path])))
        (Some (signed_headers ex
                 (hmac ex (payload (z_to_string (milliseconds ex)) method
                             ("/api/v1/" ++ implodeParams path params) (json (omit params [path])))
                    (match secret ex with Some s => s | None => "" end))
                 (z_to_string (milliseconds ex))))).
Proof.
  intros Hc Hg Hh. unfold sign. rewrite Hc. cbn [String.eqb Ascii.eqb Bool.eqb res_bind].
  rewrite Hg, Hh. reflexivity.
Qed.

(** C2: A private request with a body (any method but GET and HEAD): the URL
    carries the resolved version, the body is the JSON of the remaining
    parameters, and the signature is the HMAC, under the secret, of the
    text timestamp + method + v1 endpoint + that JSON body (line 1605). *)
Theorem sign_private_body ex path method params h b :
  checkRequiredCredentials ex = Ok tt ->
  String.eqb method "GET" = false -> String.eqb method "HEAD" = false ->
  let now := z_to_string (milliseconds ex) in
  let body_text := json (omit params [path]) in
  sign ex path "private" method params h b =
  Ok (mkRequest
        (api_url "private" ++ "/api/" ++ resolve_version ex path "private" method params ++ "/"
           ++ implodeParams path params)
        method (Some body_text)
        (Some (signed_headers ex
                 (hmac ex (now ++ method ++ "/api/v1/" ++ implodeParams path params ++ body_text)
                    (match secret ex with Some s => s | None => "" end))
                 now))).
Proof.
  intros Hc Hg Hh now body_text. rewrite sign_private_body_eq by assumption.
  unfold payload. rewrite !string_app_assoc. reflexivity.
Qed.

(** A private request fails with [AuthenticationError], before anything is
    signed, when a credential is missing. *)
Theorem sign_missing_credentials ex path api method params h b :
  String.eqb api "public" = false ->
  (credential_present (apiKey ex) && credential_present (secret ex)
   && credential_present (password ex))%bool = false ->
  exists msg, sign ex path api method params h b = Err (mkExn AuthenticationError msg).
Proof.
  intros Hp Hc. unfold sign. rewrite Hp. unfold checkRequiredCredentials.
  destruct (credential_present (apiKey ex)), (credential_present (secret ex)),
    (credential_present (password ex)); simpl in *; try discriminate; eauto.
Qed.

(** A public request is not signed: the headers and body are passed
    through, the remaining parameters go into the query string when there
    are any. *)
Theorem sign_public ex path method params h b :
  sign ex path "public" method params h b =
  Ok (mkRequest
        (api_url "public" ++ "/api/" ++ resolve_version ex path "public" method params ++ "/"
           ++ implodeParams path params
           ++ (if (keys_length (omit params [path]) =? 0)%nat then ""
               else "?" ++ urlencode (omit params [path])))
        method b h).
Proof.
  unfold sign. cbn [String.eqb Ascii.eqb Bool.eqb].
  destruct (keys_length (omit params [path]) =? 0)%nat;
    rewrite ?string_app_nil_r, ?string_app_assoc; reflexivity.
Qed.

Lemma safeValue_single k v k' d :
  v <> JNull -> v <> JStr "" -> v <> JUndefined ->
  safeValue (JObj [(k, v)]) k' d = if String.eqb k' k then v else d.
Proof.
  intros H1 H2 H3. unfold safeValue, prop, get. simpl.
  destruct (String.eqb k' k); [|reflexivity].
  destruct v as [| | | |s| |]; try reflexivity; try congruence.
  destruct s as [|c s]; [congruence|reflexivity].
Qed.

Lemma resolve_version_default ex path api method params :
  options ex = default_options ->
  resolve_version ex path api method params =
  match safeString params "version" with
  | Some v => v
  | None =>
      if (String.eqb api "public" && String.eqb method "GET"
          && existsb (String.eqb path) ["ticker"; "tickers"; "level3/snapshot"])%bool
      then "v2" else "v1"
  end.
Proof.
  intros Ho. unfold resolve_version, safeStringD at 1. rewrite Ho.
  destruct (safeString params "version") as [v|]; [reflexivity|].
  change (safeValue default_options "versions" (JObj []))
    with (JObj [("public", JObj [("GET", JObj [("ticker", JStr "v2"); ("tickers", JStr "v2");
                                               ("level3/snapshot", JStr "v2")])])]).
  rewrite safeValue_single by discriminate.
  destruct (String.eqb api "public"); [|reflexivity].
  rewrite safeValue_single by discriminate.
  destruct (String.eqb method "GET"); [|reflexivity]. simpl.
  unfold safeStringD, safeString, prop, get. simpl.
  destruct (String.eqb path "ticker"), (String.eqb path "tickers"),
    (String.eqb path "level3/snapshot"); reflexivity.
Qed.

(** The version of a request: the caller's [version] parameter, else the
    override of [options.versions] (v2 for the public GET endpoints
    [ticker], [tickers] and [level3/snapshot]), else v1. *)
Theorem resolve_version_spec ex path api method params :
  options ex = default_options ->
  resolve_version ex path api method params =
  match safeString params "version" with
  | Some v => v
  | None =>
      if (String.eqb api "public" && String.eqb method "GET"
          && existsb (String.eqb path) ["ticker"; "tickers"; "level3/snapshot"])%bool
      then "v2" else "v1"
  end.
Proof. apply resolve_version_default. Qed.


Lemma z_to_string_inj a b : z_to_string a = z_to_string b -> a = b.
Proof.
  unfold z_to_string. intros E.
  destruct (Precise.parse_to_string (Precise.mk a 0)) as (x & Hx & Hvx).
  destruct (Precise.parse_to_string (Precise.mk b 0)) as (y & Hy & Hvy).
  rewrite E, Hy in Hx. injection Hx as ->.
  rewrite Hvx in Hvy. unfold Precise.val in Hvy. simpl in Hvy.
  unfold Qeq in Hvy. simpl in Hvy. lia.
Qed.

Lemma sign_ok_credentials ex path api method params h b r :
  String.eqb api "public" = false ->
  sign ex path api method params h b = Ok r -> checkRequiredCredentials ex = Ok tt.
Proof.
  intros Hp Hs. unfold sign in Hs. rewrite Hp in Hs.
  destruct (checkRequiredCredentials ex) as [[]|e]; [reflexivity | discriminate].
Qed.

Lemma payload_inv_endpart now m e p1 p2 : payload now m e p1 = payload now m e p2 -> p1 = p2.
Proof. unfold payload. intros H. do 3 apply string_app_inv_l in H. exact H. Qed.

Lemma payload_inv_now n1 n2 m e p : payload n1 m e p = payload n2 m e p -> n1 = n2.
Proof. unfold payload. apply string_app_inv_r. Qed.

(** C3: With an HMAC injective in the message, two private requests that differ
    only in their JSON body carry different signatures. *)
Theorem sign_signature_body ex path method p1 p2 h b r1 r2 :
  (forall k m1 m2, hmac ex m1 k = hmac ex m2 k -> m1 = m2) ->
  String.eqb method "GET" = false -> String.eqb method "HEAD" = false ->
  implodeParams path p1 = implodeParams path p2 ->
  json (omit p1 [path]) <> json (omit p2 [path]) ->
  sign ex path "private" method p1 h b = Ok r1 ->
  sign ex path "private" method p2 h b = Ok r2 ->
  signature_of r1 <> signature_of r2.
Proof.
  intros Hinj Hg Hh Himp Hjson H1 H2.
  assert (Hc := sign_ok_credentials _ _ "private" _ _ _ _ _ eq_refl H1).
  rewrite sign_private_body_eq in H1, H2 by assumption.
  injection H1 as <-. injection H2 as <-. simpl. rewrite Himp.
  intros E. injection E as E. apply Hinj, payload_inv_endpart in E. contradiction.
Qed.

(** with an HMAC injective in the message, two private requests
    signed at different milliseconds carry different signatures. *)
Theorem sign_signature_timestamp ex ms1 ms2 path method params h b r1 r2 :
  (forall k m1 m2, hmac ex m1 k = hmac ex m2 k -> m1 = m2) ->
  ms1 <> ms2 ->
  String.eqb method "GET" = false -> String.eqb method "HEAD" = false ->
  sign (with_clock ex ms1) path "private" method params h b = Ok r1 ->
  sign (with_clock ex ms2) path "private" method params h b = Ok r2 ->
  signature_of r1 <> signature_of r2.
Proof.
  intros Hinj Hms Hg Hh H1 H2.
  assert (Hc := sign_ok_credentials _ _ "private" _ _ _ _ _ eq_refl H1).
  rewrite sign_private_body_eq in H1 by assumption.
  rewrite sign_private_body_eq in H2 by (exact Hc || assumption).
  injection H1 as <-. injection H2 as <-. simpl.
  intros E. injection E as E. apply Hinj, payload_inv_now, z_to_string_inj in E. contradiction.
Qed.

(** A private GET: the query goes into the URL and into the signed endpoint. *)
Theorem sign_private_get ex path params h :
  checkRequiredCredentials ex = Ok tt ->
  keys_length (omit params [path]) <> 0%nat ->
  String.eqb (urlencode (omit params [path])) "" = false ->
  sign ex path "private" "GET" params h None =
  Ok (mkRequest
        (api_url "private" ++ "/api/" ++ resolve_version ex path "private" "GET" params ++ "/"
           ++ implodeParams path params ++ "?" ++ urlencode (omit params [path]))
        "GET" None
        (Some (signed_headers ex
                 (hmac ex (payload (z_to_string (milliseconds ex)) "GET"
                             ("/api/v1/" ++ implodeParams path params ++ "?"
                                ++ urlencode (omit params [path])) "")
                    (match secret ex with Some s => s | None => "" end))
                 (z_to_string (milliseconds ex))))).
Proof.
  intros Hc Hq Hu. unfold sign. rewrite Hc. cbn [String.eqb Ascii.eqb Bool.eqb res_bind].
  apply Nat.eqb_neq in Hq. rewrite Hq, Hu. cbn [andb orb negb String.eqb Ascii.eqb Bool.eqb].
  rewrite !string_app_assoc. reflexivity.
Qed.

(** C20: The key of a substituted placeholder stays in the body: cancelling an
    order sends ["order-id"] both in the path and in the signed JSON body. *)
Theorem sign_cancel_order_body ex id :
  checkRequiredCredentials ex = Ok tt ->
  exists r, sign ex "orders/{order-id}" "private" "DELETE" (JObj [("order-id", JStr id)]) None None
            = Ok r /\ body r = Some (json (JObj [("order-id", JStr id)])).
Proof.
  intros Hc. rewrite sign_private_body_eq by (assumption || reflexivity).
  eexists; split; reflexivity.
Qed.

End Signer.

(** ** Sample data for the witnesses *)

Import JS.

(** A linear market of contract size 1.0, and an exchange whose registry
    holds it. *)
Definition sample_market : Markets.market :=
  Markets.parseMarket (fun c => c)
    (JObj [("symbol", JStr "BTCUSDTPERP"); ("baseCurrency", JStr "XBT");
           ("quoteCurrency", JStr "USDT"); ("rootSymbol", JStr "USDT");
           ("status", JStr "Open"); ("multiplier", JStr "1.0"); ("isInverse", JBool false)]).

Definition sample_exchange : Signer.exchange :=
  Signer.mkExchange (Some "key") (Some "secret") (Some "pass") 1700000000000
    (fun payload key => payload ++ "|" ++ key) Signer.default_options "uuid"
    [sample_market] (fun c => c) (option_map Signer.z_to_string).

(** The request [sign] builds for the sample exchange. *)
Definition signed (api path method : string) (params : jvalue) : Signer.request :=
  match Signer.sign sample_exchange path api method params None None with
  | Ok r => r
  | Err _ => Signer.mkRequest "" "" None None
  end.

Lemma sample_hmac_injective k m1 m2 :
  Signer.hmac sample_exchange m1 k = Signer.hmac sample_exchange m2 k -> m1 = m2.
Proof. simpl. apply string_app_inv_r. Qed.

(** ** Witnesses *)

Example sign_private_body_witness :
  Signer.signature_of (signed "private" "orders" "POST" (JObj [("symbol", JStr "X")])) =
  Some ("1700000000000POST/api/v1/orders" ++ json (JObj [("symbol", JStr "X")]) ++ "|secret").
Proof.
  unfold signed. rewrite Signer.sign_private_body by reflexivity. cbn [Signer.signature_of].
  reflexivity.
Defined.

Example sign_signature_body_witness :
  Signer.signature_of (signed "private" "orders" "POST" (JObj [("symbol", JStr "X")])) <>
  Signer.signature_of (signed "private" "orders" "POST" (JObj [("symbol", JStr "Y")])).
Proof.
  apply (Signer.sign_signature_body sample_exchange "orders" "POST" (JObj [("symbol", JStr "X")])
           (JObj [("symbol", JStr "Y")]) None None);
    [apply sample_hmac_injective | reflexivity | reflexivity | reflexivity
    | intros H; vm_compute in H; discriminate H | vm_compute; reflexivity ..].
Defined.

Example sign_signature_timestamp_witness :
  let sign_at ms :=
    match Signer.sign (Signer.with_clock sample_exchange ms) "orders" "private" "POST" (JObj []) None None
    with Ok r => r | Err _ => Signer.mkRequest "" "" None None end in
  Signer.signature_of (sign_at 1%Z) <> Signer.signature_of (sign_at 2%Z).
Proof.
  intros sign_at. apply (Signer.sign_signature_timestamp sample_exchange 1 2 "orders" "POST" (JObj []) None None);
    [apply sample_hmac_injective | discriminate | reflexivity | reflexivity
    | vm_compute; reflexivity | vm_compute; reflexivity].
Defined.

Example sign_missing_credentials_witness :
  exists msg, Signer.sign (Signer.mkExchange None (Some "secret") (Some "pass") 0 (fun p _ => p)
                             Signer.default_options "uuid" [] (fun c => c) (fun _ => None))
                "orders" "private" "POST" (JObj []) None None
              = Err (Errors.mkExn Errors.AuthenticationError msg).
Proof. apply Signer.sign_missing_credentials; reflexivity. Defined.

Example sign_private_get_witness :
  Signer.url (signed "private" "orders" "GET" (JObj [("status", JStr "active")]))
  = "https://futures-api.poloniex.com/api/v1/orders?status=active".
Proof. unfold signed. rewrite Signer.sign_private_get; reflexivity || discriminate. Defined.

Example sign_cancel_order_body_witness :
  exists r, Signer.sign sample_exchange "orders/{order-id}" "private" "DELETE"
              (JObj [("order-id", JStr "abc")]) None None = Ok r /\
            Signer.body r = Some (json (JObj [("order-id", JStr "abc")])).
Proof. apply Signer.sign_cancel_order_body. reflexivity. Defined.

Example resolve_version_spec_witness :
  Signer.resolve_version sample_exchange "level3/snapshot" "public" "GET" (JObj []) = "v2".
Proof. rewrite Signer.resolve_version_spec; reflexivity. Defined.
