(* ===== verification/Normalizers.v ===== *)
(** * Response normalizers

    One Module per resource, each the translation of one method of
    src/js/poloniexfutures.js: [parseTicker] (lines 342-369), [parseTrade]
    (525-615), [parseBalance] (723-737), [parsePosition] (1007-1096) and
    [parseOrder] (1362-1429).  Each builds the dictionary the code builds;
    the base class's [safeTicker], [safeTrade], [safeOrder] and
    [safeBalance], which fill in further derived fields, are not modelled,
    so the records here are the dictionaries passed to them.  Derived money
    fields go through [Precise]; each [datetime] field is [this.iso8601]
    of the timestamp, the base class's formatter being a field of the
    exchange record ([Signer.iso8601]). *)

From Stdlib Require Import ZArith QArith Qabs String Ascii List Bool Lia Lqa.
From S2P Require Import Prelude Precise Json Errors Markets Signer.
Import ListNotations.
Local Open Scope string_scope.
Local Open Scope ccxt_scope.

(** [market['contractSize']] read as a string ([safeString (market, ...)]). *)
Definition contract_size_string (m : Markets.market) : option string :=
  option_map Precise.to_string (Markets.contractSize m).

(** [safeSymbol (marketId, market)]. *)
Definition safeSymbol (ex : Signer.exchange) (marketId : option string)
  (market : option Markets.market) : option string :=
  Markets.symbol (Markets.safeMarket (Signer.markets ex) marketId market).

(** The constant [0.000001] of [parseTicker]. *)
Definition ns_to_ms : Precise.t := Precise.mk 1 6.

Module Ticker.
Import JS.

Record ticker : Type := mkTicker {
  symbol : option string;
  timestamp : option Z;
  datetime : option string;
  high : option string;
  low : option string;
  bid : option string;
  bidVolume : option string;
  ask : option string;
  askVolume : option string;
  vwap : option string;
  open_ : option string;
  close : option string;
  last : option string;
  previousClose : option string;
  change : option string;
  percentage : option string;
  average : option string;
  baseVolume : option string;
  quoteVolume : option string;
  info : jvalue
}.

Definition parseTicker (ex : Signer.exchange) (t : jvalue) (market : option Markets.market)
  : ticker :=
  let marketId := safeString t "symbol" in
  let symbol := safeSymbol ex marketId market in
  let timestamp := safeIntegerProduct t "ts" ns_to_ms in
  let last := safeString t "price" in
  {| symbol := symbol;
     timestamp := timestamp;
     datetime := Signer.iso8601 ex timestamp;
     high := None;
     low := None;
     bid := safeString t "bestBidPrice";
     bidVolume := safeString t "bestBidSize";
     ask := safeString t "bestAskPrice";
     askVolume := safeString t "bestAskSize";
     vwap := None;
     open_ := None;
     close := last;
     last := last;
     previousClose := None;
     change := None;
     percentage := None;
     average := None;
     baseVolume := safeString t "size";
     quoteVolume := None;
     info := t |}.

End Ticker.

Module Trade.
Import JS.

Record fee : Type := mkFee {
  fee_cost : string;
  fee_currency : option string;
  fee_rate : option string
}.

Record trade : Type := mkTrade {
  info : jvalue;
  id : option string;
  order : option string;
  timestamp : option Z;
  datetime : option string;
  symbol : option string;
  type_ : option string;
  takerOrMaker : option string;
  side : option string;
  price : option string;
  amount : option string;
  cost : option string;
  fee_ : option fee
}.

(** Lines 568-577: the nanosecond [ts] scaled to milliseconds; else
    [createdAt], scaled from seconds when the record has a [dealValue]
    field (a historical v1 trade). *)
Definition trade_timestamp (t : jvalue) : option Z :=
  match safeInteger t "ts" with
  | Some ts => Some (Z.quot ts 1000000)
  | None =>
      let created := safeInteger t "createdAt" in
      match created with
      | Some c => if has_key t "dealValue" then Some (c * 1000)%Z else created
      | None => created
      end
  end.

(** [parseTrade] (lines 525-615); the delimiter ['-'] that line 564 passes
    to [safeMarket] is not modelled (see [Markets.safeMarket]). *)
Definition parseTrade (ex : Signer.exchange) (t : jvalue) (market : option Markets.market)
  : trade :=
  let marketId := safeString t "symbol" in
  let market := Markets.safeMarket (Signer.markets ex) marketId market in
  let id := safeString t "tradeId" in
  let orderId := safeString t "orderId" in
  let takerOrMaker := safeString t "liquidity" in
  let timestamp := trade_timestamp t in
  let priceString := safeString t "price" in
  let amountString := safeString t "size" in
  let side := safeString t "side" in
  let fee :=
    match safeString t "fee" with
    | Some feeCostString =>
        let feeCurrencyId := safeString t "feeCurrency" in
        let feeCurrency :=
          match Markets.safeCurrencyCode (Signer.currency_code ex) feeCurrencyId with
          | Some c => Some c
          | None =>
              if Markets.same side "sell" then Markets.quote market else Markets.base market
          end in
        Some (mkFee feeCostString feeCurrency (safeString t "feeRate"))
    | None => None
    end in
  let type_ :=
    match safeString t "orderType" with
    | Some ty => if String.eqb ty "match" then None else Some ty
    | None => None
    end in
  let costString := safeString t "value" in
  {| info := t;
     id := id;
     order := orderId;
     timestamp := timestamp;
     datetime := Signer.iso8601 ex timestamp;
     symbol := Markets.symbol market;
     type_ := type_;
     takerOrMaker := takerOrMaker;
     side := side;
     price := priceString;
     amount := amountString;
     cost := costString;
     fee_ := fee |}.

End Trade.

Module Balance.
Import JS.

Record account : Type := mkAccount { free : option string; total : option string }.

(** The dictionary handed to [safeBalance]: the raw response and one
    account under the currency's code (the key ["undefined"] when the
    response names no currency). *)
Record balance : Type := mkBalance { info : jvalue; accounts : list (string * account) }.

Definition parseBalance (ex : Signer.exchange) (response : jvalue) : balance :=
  let data := safeValue response "data" JUndefined in
  let currencyId := safeString data "currency" in
  let code := Markets.safeCurrencyCode (Signer.currency_code ex) currencyId in
  let account := mkAccount (safeString data "availableBalance") (safeString data "accountEquity") in
  mkBalance response [(Markets.js_str code, account)].

End Balance.

Module Position.
Import JS.

Record position : Type := mkPosition {
  info : jvalue;
  id : option string;
  symbol : option string;
  timestamp : option Z;
  datetime : option string;
  initialMargin : option Precise.t;
  initialMarginPercentage : option Precise.t;
  maintenanceMargin : option Precise.t;
  maintenanceMarginPercentage : option Precise.t;
  entryPrice : option Precise.t;
  notional : option Precise.t;
  leverage : option Precise.t;
  unrealizedPnl : option Precise.t;
  contracts : option Precise.t;
  contractSize : option Precise.t;
  marginRatio : option Precise.t;
  liquidationPrice : option Precise.t;
  markPrice : option Precise.t;
  collateral : option Precise.t;
  marginMode : string;
  side : option string;
  percentage : option Precise.t
}.

(** Lines 1058-1063: long when the quantity is positive, short when it is
    negative, unset otherwise. *)
Definition position_side (size : option string) : option string :=
  if Precise.truthy (Precise.stringGt size (Some "0")) then Some "long"
  else if Precise.truthy (Precise.stringLt size (Some "0")) then Some "short"
  else None.

Definition parsePosition (ex : Signer.exchange) (p : jvalue) (market : option Markets.market)
  : position :=
  let symbol := safeString p "symbol" in
  let market := Markets.safeMarket (Signer.markets ex) symbol market in
  let timestamp := safeInteger p "currentTimestamp" in
  let size := safeString p "currentQty" in
  let side := position_side size in
  let notional := Precise.stringAbs (safeString p "posCost") in
  let initialMargin := safeString p "posInit" in
  let initialMarginPercentage := Precise.stringDiv initialMargin notional in
  let unrealisedPnl := safeString p "unrealisedPnl" in
  let crossMode := safeValue p "crossMode" JUndefined in
  let marginMode := if truthy crossMode then "cross" else "isolated" in
  {| info := p;
     id := None;
     symbol := Markets.symbol market;
     timestamp := timestamp;
     datetime := Signer.iso8601 ex timestamp;
     initialMargin := parseNumber initialMargin;
     initialMarginPercentage := parseNumber initialMarginPercentage;
     maintenanceMargin := safeNumber p "posMaint";
     maintenanceMarginPercentage := safeNumber p "maintMarginReq";
     entryPrice := safeNumber p "avgEntryPrice";
     notional := parseNumber notional;
     leverage := safeNumber p "realLeverage";
     unrealizedPnl := parseNumber unrealisedPnl;
     contracts := parseNumber (Precise.stringAbs size);
     contractSize := Markets.contractSize market;
     marginRatio := None;
     liquidationPrice := safeNumber p "liquidationPrice";
     markPrice := safeNumber p "markPrice";
     collateral := safeNumber p "maintMargin";
     marginMode := marginMode;
     side := side;
     percentage := parseNumber (Precise.stringDiv unrealisedPnl initialMargin) |}.

End Position.

Module Order.
Import JS.

Record fee : Type := mkFee { fee_currency : option string; fee_cost : option Precise.t }.

Record order : Type := mkOrder {
  id : option string;
  clientOrderId : option string;
  symbol : option string;
  type_ : option string;
  timeInForce : option string;
  postOnly : jvalue;
  side : option string;
  amount : option string;
  price : option string;
  stopPrice : option Precise.t;
  cost : option string;
  filled : option string;
  remaining : option string;
  timestamp : option Z;
  datetime : option string;
  fee_ : fee;
  status : string;
  info : jvalue;
  lastTradeTimestamp : option Z;
  average : option string;
  trades : option (list jvalue)
}.

(** Lines 1382-1390: the average fill price, for a linear contract the
    cost per contract unit filled, for an inverse one its reciprocal. *)
Definition order_average (market : Markets.market) (rawCost filled : option string)
  : option string :=
  if Precise.truthy (Precise.stringGt filled (Some "0")) then
    let contractSize := contract_size_string market in
    if Markets.linear market then Precise.stringDiv rawCost (Precise.stringMul contractSize filled)
    else Precise.stringDiv (Precise.stringMul contractSize filled) rawCost
  else None.

(** Lines 1394-1397. *)
Definition order_status (isActive cancelExist : jvalue) : string :=
  let status := if truthy isActive then "open" else "closed" in
  if truthy cancelExist then "canceled" else status.

Definition parseOrder (ex : Signer.exchange) (o : jvalue) (market : option Markets.market)
  : order :=
  let marketId := safeString o "symbol" in
  let market := Markets.safeMarket (Signer.markets ex) marketId market in
  let symbol := Markets.symbol market in
  let orderId := safeString o "id" in
  let type_ := safeString o "type" in
  let timestamp := safeInteger o "createdAt" in
  let price := safeString o "price" in
  let side := safeString o "side" in
  let feeCurrencyId := safeString o "feeCurrency" in
  let feeCurrency := Markets.safeCurrencyCode (Signer.currency_code ex) feeCurrencyId in
  let feeCost := safeNumber o "fee" in
  let amount := safeString o "size" in
  let filled := safeString o "dealSize" in
  let rawCost := safeString2 o "dealFunds" "filledValue" in
  let leverage := safeString o "leverage" in
  let cost := Precise.stringDiv rawCost leverage in
  let average := order_average market rawCost filled in
  let isActive := safeValue o "isActive" (JBool false) in
  let cancelExist := safeValue o "cancelExist" (JBool false) in
  let status := order_status isActive cancelExist in
  {| id := orderId;
     clientOrderId := safeString o "clientOid";
     symbol := symbol;
     type_ := type_;
     timeInForce := safeString o "timeInForce";
     postOnly := safeValue o "postOnly" JUndefined;
     side := side;
     amount := amount;
     price := price;
     stopPrice := safeNumber o "stopPrice";
     cost := cost;
     filled := filled;
     remaining := None;
     timestamp := timestamp;
     datetime := Signer.iso8601 ex timestamp;
     fee_ := mkFee feeCurrency feeCost;
     status := status;
     info := o;
     lastTradeTimestamp := None;
     average := average;
     trades := None |}.

End Order.

Import JS.

(** ** Sample data for the witnesses *)

(** An inverse market of contract size 1, passed in by the caller. *)
Definition inverse_market : Markets.market :=
  Markets.parseMarket (fun c => c)
    (JObj [("symbol", JStr "XBTUSDPERP"); ("baseCurrency", JStr "XBT");
           ("quoteCurrency", JStr "USD"); ("rootSymbol", JStr "XBT");
           ("status", JStr "Open"); ("multiplier", JStr "-1"); ("isInverse", JBool true)]).

(** ** Theorems *)

Lemma denotes_zero : Precise.denotes (Some "0") 0%Q.
Proof. exists (Precise.mk 0 0). split; reflexivity. Qed.

(** [Precise.stringGt a '0'] is truthy exactly when [a] is positive. *)
Lemma truthy_gt_zero a q : Precise.denotes a q ->
  Precise.truthy (Precise.stringGt a (Some "0")) = true <-> (0 < q)%Q.
Proof.
  intros Ha. rewrite (Precise.stringGt_denotes _ _ _ _ Ha denotes_zero).
  rewrite Precise.Qlt_negb_le. destruct (negb (Qle_bool q 0)); simpl; split; auto.
Qed.

Lemma truthy_lt_zero a q : Precise.denotes a q ->
  Precise.truthy (Precise.stringLt a (Some "0")) = true <-> (q < 0)%Q.
Proof.
  intros Ha. rewrite (Precise.stringLt_denotes _ _ _ _ Ha denotes_zero).
  rewrite Precise.Qlt_negb_le. destruct (negb (Qle_bool 0 q)); simpl; split; auto.
Qed.

Lemma contract_size_denotes m x : Markets.contractSize m = Some x ->
  Precise.denotes (contract_size_string m) (Precise.val x).
Proof.
  intros H. unfold contract_size_string. rewrite H. apply Precise.denotes_to_string. reflexivity.
Qed.

Lemma Qmult_nonzero a b : ~ (a == 0)%Q -> ~ (b == 0)%Q -> ~ (a * b == 0)%Q.
Proof.
  intros Ha Hb H. apply Qmult_integral in H. tauto.
Qed.

Import Order.

(** C4: on a linear market, when the order has filled, the average is the
    raw cost (dealFunds or filledValue) divided by contract size times
    filled amount, computed exactly (when the quotient has at most 18
    decimals). *)
Theorem parseOrder_average_linear ex o mk x (qc qf : Q) (k : Z) :
  let market := Markets.safeMarket (Signer.markets ex) (safeString o "symbol") mk in
  Markets.linear market = true ->
  Markets.contractSize market = Some x -> ~ (Precise.val x == 0)%Q ->
  Precise.denotes (safeString2 o "dealFunds" "filledValue") qc ->
  Precise.denotes (safeString o "dealSize") qf -> (0 < qf)%Q ->
  (qc / (Precise.val x * qf) == inject_Z k * 10 ^ (- Precise.precision))%Q ->
  Precise.denotes (average (parseOrder ex o mk)) (qc / (Precise.val x * qf)).
Proof.
  intros market Hlin Hcs Hx Hc Hf Hpos Hk. cbn [average parseOrder]. fold market.
  unfold order_average. rewrite (proj2 (truthy_gt_zero _ _ Hf) Hpos), Hlin.
  apply Precise.stringDiv_denotes with (m := k); auto.
  - apply Precise.stringMul_denotes; [apply contract_size_denotes, Hcs | exact Hf].
  - apply Qmult_nonzero; [exact Hx|]. intros E. rewrite E in Hpos. discriminate.
Qed.

(** C36: on an inverse market, when the order has filled, the average is
    the contract size times the filled amount divided by the raw cost,
    computed exactly (when the quotient has at most 18 decimals). *)
Theorem parseOrder_average_inverse ex o mk x (qc qf : Q) (k : Z) :
  let market := Markets.safeMarket (Signer.markets ex) (safeString o "symbol") mk in
  Markets.linear market = false ->
  Markets.contractSize market = Some x ->
  Precise.denotes (safeString2 o "dealFunds" "filledValue") qc -> ~ (qc == 0)%Q ->
  Precise.denotes (safeString o "dealSize") qf -> (0 < qf)%Q ->
  (Precise.val x * qf / qc == inject_Z k * 10 ^ (- Precise.precision))%Q ->
  Precise.denotes (average (parseOrder ex o mk)) (Precise.val x * qf / qc).
Proof.
  intros market Hlin Hcs Hc Hc0 Hf Hpos Hk. cbn [average parseOrder]. fold market.
  unfold order_average. rewrite (proj2 (truthy_gt_zero _ _ Hf) Hpos), Hlin.
  apply Precise.stringDiv_denotes with (m := k); auto.
  apply Precise.stringMul_denotes; [apply contract_size_denotes, Hcs | exact Hf].
Qed.

(** C22: [parseOrder] divides the raw cost by the leverage for [cost]
    (line 1380) but computes [average] from the raw cost (line 1387): on a
    linear market, [cost] is rawCost / leverage and [average] is
    rawCost / (contractSize * filled) exactly, so whenever the leverage is
    not 1 (and the raw cost not 0) the average differs from the spec's
    cost / (contractSize * filled). *)
Theorem parseOrder_average_ignores_leverage ex o mk x (qc qf ql : Q) (k1 k2 : Z) :
  let market := Markets.safeMarket (Signer.markets ex) (safeString o "symbol") mk in
  Markets.linear market = true ->
  Markets.contractSize market = Some x -> ~ (Precise.val x == 0)%Q ->
  Precise.denotes (safeString2 o "dealFunds" "filledValue") qc -> ~ (qc == 0)%Q ->
  Precise.denotes (safeString o "dealSize") qf -> (0 < qf)%Q ->
  Precise.denotes (safeString o "leverage") ql -> ~ (ql == 0)%Q -> ~ (ql == 1)%Q ->
  (qc / ql == inject_Z k1 * 10 ^ (- Precise.precision))%Q ->
  (qc / (Precise.val x * qf) == inject_Z k2 * 10 ^ (- Precise.precision))%Q ->
  Precise.denotes (cost (parseOrder ex o mk)) (qc / ql) /\
  Precise.denotes (average (parseOrder ex o mk)) (qc / (Precise.val x * qf)) /\
  ~ (qc / (Precise.val x * qf) == (qc / ql) / (Precise.val x * qf))%Q.
Proof.
  intros market Hlin Hcs Hx Hc Hc0 Hf Hpos Hl Hl0 Hl1 Hk1 Hk2.
  assert (Hd : ~ (Precise.val x * qf == 0)%Q)
    by (apply Qmult_nonzero; [exact Hx|]; intros E; rewrite E in Hpos; discriminate).
  split; [|split].
  - cbn [cost parseOrder]. apply Precise.stringDiv_denotes with (m := k1); auto.
  - cbn [average parseOrder]. fold market.
    unfold order_average. rewrite (proj2 (truthy_gt_zero _ _ Hf) Hpos), Hlin.
    apply Precise.stringDiv_denotes with (m := k2); auto.
    apply Precise.stringMul_denotes; [apply contract_size_denotes, Hcs | exact Hf].
  - intros E. apply Hl1.
    assert (Hqf : ~ (qf == 0)%Q) by (intros E0; rewrite E0 in Hpos; discriminate).
    assert (Ha : ~ (qc / (Precise.val x * qf) == 0)%Q).
    { intros Z0. apply Hc0.
      setoid_replace qc with (qc / (Precise.val x * qf) * (Precise.val x * qf))%Q
        by (field; repeat split; assumption).
      rewrite Z0. ring. }
    apply (Qmult_inj_l _ _ _ Ha).
    setoid_rewrite E at 1. field. repeat split; assumption.
Qed.

(** An order that has not filled has no average. *)
Theorem parseOrder_average_unfilled ex o mk (qf : Q) :
  Precise.denotes (safeString o "dealSize") qf -> (qf <= 0)%Q ->
  average (parseOrder ex o mk) = None.
Proof.
  intros Hf Hle. cbn [average parseOrder]. unfold order_average.
  destruct (Precise.truthy (Precise.stringGt (safeString o "dealSize") (Some "0"))) eqn:E;
    [|reflexivity].
  apply (truthy_gt_zero _ _ Hf) in E. exfalso. apply (Qlt_not_le _ _ E Hle).
Qed.

(** C23: the status of a parsed order is ['canceled'] exactly when
    [cancelExist] is truthy, else ['open'] exactly when [isActive] is
    truthy, else ['closed']. *)
Theorem parseOrder_status ex o mk :
  let st := status (parseOrder ex o mk) in
  let canceled := truthy (safeValue o "cancelExist" (JBool false)) in
  let active := truthy (safeValue o "isActive" (JBool false)) in
  (st = "canceled" <-> canceled = true) /\
  (st = "open" <-> canceled = false /\ active = true) /\
  (st = "closed" <-> canceled = false /\ active = false).
Proof.
  cbn [status parseOrder]. unfold order_status.
  destruct (truthy (safeValue o "cancelExist" (JBool false))),
    (truthy (safeValue o "isActive" (JBool false))); repeat split; intros; try discriminate;
    try reflexivity; try (destruct H; discriminate).
Qed.

Import Ticker.

(** the ticker's timestamp is the exchange's nanosecond timestamp
    divided by 10^6 and truncated. *)
Theorem parseTicker_timestamp ex t mk s n :
  prop t "ts" = JStr s -> Precise.parse s = Some (Precise.mk n 0) -> (0 <= n)%Z ->
  timestamp (parseTicker ex t mk) = Some (n / 1000000)%Z.
Proof.
  intros Hp Hs Hn. cbn [timestamp parseTicker]. unfold safeIntegerProduct.
  rewrite Hp, Hs. cbn. f_equal. rewrite Z.quot_1_r, Z.mul_1_r. apply Z.quot_div_nonneg; lia.
Qed.

Import Trade.

(** C24: when the exchange reports a fee without its currency, the fee is
    charged in the quote currency on a sell and in the base currency
    otherwise. *)
Theorem parseTrade_fee_currency ex t mk c :
  let market := Markets.safeMarket (Signer.markets ex) (safeString t "symbol") mk in
  safeString t "fee" = Some c -> safeString t "feeCurrency" = None ->
  fee_ (parseTrade ex t mk) =
  Some (mkFee c (if Markets.same (safeString t "side") "sell" then Markets.quote market
                 else Markets.base market) (safeString t "feeRate")).
Proof.
  intros market Hf Hc. cbn [fee_ parseTrade]. rewrite Hf, Hc. reflexivity.
Qed.

(** the trade timestamp prefers the nanosecond [ts]; otherwise it is
    [createdAt], multiplied by 1000 exactly when the record has a
    [dealValue] field. *)
Theorem parseTrade_timestamp ex t mk :
  timestamp (parseTrade ex t mk) =
  match safeInteger t "ts", safeInteger t "createdAt" with
  | Some ts, _ => Some (Z.quot ts 1000000)
  | None, Some c => Some (if has_key t "dealValue" then c * 1000 else c)%Z
  | None, None => None
  end.
Proof.
  cbn [timestamp parseTrade]. unfold trade_timestamp.
  destruct (safeInteger t "ts"); [reflexivity|].
  destruct (safeInteger t "createdAt"); [|reflexivity].
  destruct (has_key t "dealValue"); reflexivity.
Qed.

Import Position.

(** C25: the side of a position is long for a positive quantity, short for a
    negative one and unset for zero. *)
Theorem parsePosition_side ex p mk (q : Q) :
  Precise.denotes (safeString p "currentQty") q ->
  side (parsePosition ex p mk) =
  if Qle_bool q 0 then (if Qle_bool 0 q then None else Some "short") else Some "long".
Proof.
  intros Hq. cbn [side parsePosition]. unfold position_side.
  destruct (Qle_bool q 0) eqn:E1.
  - apply Qle_bool_iff in E1.
    destruct (Precise.truthy (Precise.stringGt (safeString p "currentQty") (Some "0"))) eqn:G.
    + apply (truthy_gt_zero _ _ Hq) in G. exfalso. apply (Qlt_not_le _ _ G E1).
    + destruct (Qle_bool 0 q) eqn:E2.
      * apply Qle_bool_iff in E2.
        destruct (Precise.truthy (Precise.stringLt (safeString p "currentQty") (Some "0"))) eqn:L;
          [|reflexivity].
        apply (truthy_lt_zero _ _ Hq) in L. exfalso. apply (Qlt_not_le _ _ L E2).
      * replace (Precise.truthy (Precise.stringLt (safeString p "currentQty") (Some "0"))) with true;
          [reflexivity|]. symmetry. apply (truthy_lt_zero _ _ Hq).
        apply Qnot_le_lt. intros H. apply Qle_bool_iff in H. congruence.
  - replace (Precise.truthy (Precise.stringGt (safeString p "currentQty") (Some "0"))) with true;
      [reflexivity|]. symmetry. apply (truthy_gt_zero _ _ Hq).
    apply Qnot_le_lt. intros H. apply Qle_bool_iff in H. congruence.
Qed.

(** C26: the notional is the absolute position cost, the initial margin
    percentage is the initial margin over the notional and the pnl
    percentage is the unrealized pnl over the initial margin, all exact
    when the quotients have at most 18 decimals. *)
Theorem parsePosition_ratios ex p mk (qc qi qu : Q) (k1 k2 : Z) :
  Precise.denotes (safeString p "posCost") qc -> ~ (qc == 0)%Q ->
  Precise.denotes (safeString p "posInit") qi -> ~ (qi == 0)%Q ->
  Precise.denotes (safeString p "unrealisedPnl") qu ->
  (qi / Qabs qc == inject_Z k1 * 10 ^ (- Precise.precision))%Q ->
  (qu / qi == inject_Z k2 * 10 ^ (- Precise.precision))%Q ->
  let pos := parsePosition ex p mk in
  (exists n, notional pos = Some n /\ (Precise.val n == Qabs qc)%Q) /\
  (exists r, initialMarginPercentage pos = Some r /\ (Precise.val r == qi / Qabs qc)%Q) /\
  (exists r, percentage pos = Some r /\ (Precise.val r == qu / qi)%Q).
Proof.
  intros Hc Hc0 Hi Hi0 Hu Hk1 Hk2 pos.
  assert (Hn := Precise.stringAbs_denotes _ _ Hc).
  assert (Habs : ~ (Qabs qc == 0)%Q).
  { intros E. apply Hc0. destruct (Qlt_le_dec qc 0) as [L|L].
    - rewrite Qabs_neg in E by (apply Qlt_le_weak, L). lra.
    - rewrite Qabs_pos in E by exact L. exact E. }
  assert (Hr1 := Precise.stringDiv_denotes _ _ _ _ _ Hi Hn Habs Hk1).
  assert (Hr2 := Precise.stringDiv_denotes _ _ _ _ _ Hu Hi Hi0 Hk2).
  unfold pos; cbn [notional initialMarginPercentage percentage parsePosition].
  split; [exact Hn | split; [exact Hr1 | exact Hr2]].
Qed.



Import Order.

Example parseOrder_average_linear_witness :
  let o := JObj [("symbol", JStr "BTCUSDTPERP"); ("dealFunds", JStr "100.00000000");
                 ("dealSize", JStr "10")] in
  Precise.denotes (average (parseOrder sample_exchange o None))
    (100 / (Precise.val (Precise.mk 1 0) * 10))%Q.
Proof.
  intros o.
  apply (parseOrder_average_linear sample_exchange o None (Precise.mk 1 0) 100 10
           (10 * 10 ^ 18)); try reflexivity;
    try (intros H; vm_compute in H; discriminate H); try (vm_compute; reflexivity);
    try (eexists; split; reflexivity).
Defined.




Example parseOrder_average_ignores_leverage_witness :
  let o := JObj [("symbol", JStr "BTCUSDTPERP"); ("dealFunds", JStr "100");
                 ("dealSize", JStr "10"); ("leverage", JStr "2")] in
  Precise.denotes (cost (parseOrder sample_exchange o None)) (100 / 2)%Q /\
  Precise.denotes (average (parseOrder sample_exchange o None))
    (100 / (Precise.val (Precise.mk 1 0) * 10))%Q /\
  ~ (100 / (Precise.val (Precise.mk 1 0) * 10) == (100 / 2) / (Precise.val (Precise.mk 1 0) * 10))%Q.
Proof.
  intros o.
  apply (parseOrder_average_ignores_leverage sample_exchange o None (Precise.mk 1 0) 100 10 2
           (50 * 10 ^ 18) (10 * 10 ^ 18)); witness_hyps.
Defined.

Example parseOrder_average_inverse_witness :
  let o := JObj [("dealFunds", JStr "100"); ("dealSize", JStr "10")] in
  Precise.denotes (average (parseOrder sample_exchange o (Some inverse_market)))
    (Precise.val (Precise.mk 1 0) * 10 / 100)%Q.
Proof.
  intros o.
  apply (parseOrder_average_inverse sample_exchange o (Some inverse_market) (Precise.mk 1 0)
           100 10 (10 ^ 17)); witness_hyps.
Defined.

Example parseOrder_average_unfilled_witness :
  average (parseOrder sample_exchange (JObj [("dealFunds", JStr "100"); ("dealSize", JStr "0")])
             None) = None.
Proof. apply (parseOrder_average_unfilled _ _ _ 0); witness_hyps. Defined.

Import Ticker.
Example parseTicker_timestamp_witness :
  timestamp (parseTicker sample_exchange (JObj [("ts", JStr "1671203410721232337")]) None)
  = Some 1671203410721%Z.
Proof.
  apply (parseTicker_timestamp _ _ _ "1671203410721232337" 1671203410721232337); witness_hyps.
Defined.

Import Trade.
Example parseTrade_fee_currency_witness :
  let t := JObj [("symbol", JStr "BTCUSDTPERP"); ("side", JStr "sell"); ("fee", JStr "0.1")] in
  fee_ (parseTrade sample_exchange t None) = Some (mkFee "0.1" (Some "USDT") None).
Proof. intros t. apply (parseTrade_fee_currency sample_exchange t None "0.1"); witness_hyps. Defined.

Import Position.
Example parsePosition_side_witness :
  side (parsePosition sample_exchange (JObj [("currentQty", JStr "-2")]) None) = Some "short".
Proof. apply (parsePosition_side _ _ _ (-2)); witness_hyps. Defined.

Example parsePosition_ratios_witness :
  let p := JObj [("posCost", JStr "-100"); ("posInit", JStr "4"); ("unrealisedPnl", JStr "1")] in
  let pos := parsePosition sample_exchange p None in
  (exists n, notional pos = Some n /\ (Precise.val n == Qabs (-100))%Q) /\
  (exists r, initialMarginPercentage pos = Some r /\ (Precise.val r == 4 / Qabs (-100))%Q) /\
  (exists r, percentage pos = Some r /\ (Precise.val r == 1 / 4)%Q).
Proof.
  intros p pos.
  apply (parsePosition_ratios sample_exchange p None (-100) 4 1 (4 * 10 ^ 16) (25 * 10 ^ 16));
    witness_hyps.
Defined.
