(* ===== verification/Exchange.v ===== *)
(** * The exchange operations

    Each public method of the adapter (src/js/poloniexfutures.js) is a
    program of the request monad [prog]: it validates its arguments, calls
    endpoints of the API table by their generated method names
    ([this.privatePostOrders (...)], [this[method] (...)]) and normalizes
    the answers with the parsers of [Normalizers].  [run] executes a
    program against a server: every call is resolved in the API table
    (lines 73-127; a name the table does not generate is a [TypeError], as
    calling [undefined] is in JavaScript), signed by [Signer.sign], answered
    by the server, checked by [Errors.handleErrors], and logged.  The log is
    the sequence of requests that reached the network, so "fails before any
    request" is "the log is empty".  [within n p] bounds the length of
    that log for every server, and the method names of the table are
    shown to round-trip through [resolve].

    [loadMarkets] is the registry the exchange object carries
    ([Signer.markets]); of the rate limiter, the weight each call takes
    is modelled ([run_metered]), its queue and timing are
    not; the HTTP status handling of the base class and the transport are
    not modelled (the server function stands for them). *)

From Stdlib Require Import ZArith QArith String Ascii List Bool Lia Lqa.
From S2P Require Import Prelude Precise Json Errors Markets Signer Normalizers.
Import ListNotations.
Local Open Scope string_scope.
Local Open Scope ccxt_scope.

Module Api.
Import JS Errors.

(** ** The request monad *)

(** A program: a value, a thrown exception, or a call of a generated API
    method with its parameters and the continuation on the parsed answer. *)
Inductive prog (A : Type) : Type :=
| Ret (a : A)
| Throw (e : exn)
| Call (name : string) (params : jvalue) (k : jvalue -> prog A).
Arguments Ret {A} a.
Arguments Throw {A} e.
Arguments Call {A} name params k.

Fixpoint bind {A B} (p : prog A) (f : A -> prog B) : prog B :=
  match p with
  | Ret a => f a
  | Throw e => Throw e
  | Call n ps k => Call n ps (fun r => bind (k r) f)
  end.

(** A synchronous computation that may throw. *)
Definition lift {A} (r : res exn A) : prog A :=
  match r with Ok a => Ret a | Err e => Throw e end.

Declare Scope prog_scope.
Delimit Scope prog_scope with prog.
Notation "x <- p ;; k" := (bind p (fun x => k))
  (at level 61, p at next level, right associativity) : prog_scope.
Local Open Scope prog_scope.

(** ** The API table of [describe ()] (lines 73-127) *)

(** Each endpoint with its weight, the cost a call takes from the rate
    limiter in multiples of the base request cost ([rateLimit]). *)
Definition api_table : list (string * string * string * Q) :=
  ([ ("public", "get", "contracts/active", 10); ("public", "get", "contracts/{symbol}", 10);
    ("public", "get", "ticker", 10); ("public", "get", "tickers", 10);
    ("public", "get", "level2/snapshot", (180002 # 1000));
    ("public", "get", "level2/depth", (180002 # 1000));
    ("public", "get", "level2/message/query", (180002 # 1000));
    ("public", "get", "level3/snapshot", (180002 # 1000));
    ("public", "get", "trade/history", 10); ("public", "get", "interest/query", 10);
    ("public", "get", "index/query", 10); ("public", "get", "mark-price/{symbol}/current", 10);
    ("public", "get", "premium/query", 10);
    ("public", "get", "funding-rate/{symbol}/current", 10); ("public", "get", "timestamp", 10);
    ("public", "get", "status", 10); ("public", "get", "kline/query", 10);
    ("public", "post", "bullet-public", 10); ("private", "get", "account-overview", 1);
    ("private", "get", "transaction-history", 1); ("private", "get", "orders", 1);
    ("private", "get", "stopOrders", 1); ("private", "get", "recentDoneOrders", 1);
    ("private", "get", "orders/{order-id}", 1); ("private", "get", "fills", 1);
    ("private", "get", "openOrderStatistics", 1); ("private", "get", "position", (15 # 10));
    ("private", "get", "positions", (15 # 10)); ("private", "get", "funding-history", 1);
    ("private", "get", "marginType/query", 1); ("private", "post", "orders", (15 # 10));
    ("private", "post", "batchOrders", (15 # 10));
    ("private", "post", "position/margin/auto-deposit-status", (15 # 10));
    ("private", "post", "position/margin/deposit-margin", (15 # 10));
    ("private", "post", "bullet-private", 1); ("private", "post", "marginType/change", 1);
    ("private", "delete", "orders/{order-id}", (15 # 10));
    ("private", "delete", "orders", (150016 # 1000));
    ("private", "delete", "stopOrders", (150016 # 1000)) ])%Q.

(** The base class's method names: the API name, the capitalized HTTP
    method, and each alphanumeric run of the path capitalized. *)
Definition capitalize (s : string) : string :=
  match s with
  | EmptyString => EmptyString
  | String c r => String (upper_ascii c) r
  end.

Definition alnum (c : ascii) : bool :=
  let n := nat_of_ascii c in
  ((48 <=? n) && (n <=? 57) || (65 <=? n) && (n <=? 90) || (97 <=? n) && (n <=? 122))%nat.

(** [path.split (/[^a-zA-Z0-9]/)]. *)
Fixpoint split_words (l : list ascii) (cur : list ascii) : list string :=
  match l with
  | [] => [string_of_list_ascii (rev cur)]
  | c :: r => if alnum c then split_words r (c :: cur)
              else string_of_list_ascii (rev cur) :: split_words r []
  end.

Definition camelcase_name (api method path : string) : string :=
  api ++ capitalize method
      ++ String.concat "" (map capitalize (split_words (list_ascii_of_string path) [])).

Definition upper (s : string) : string :=
  string_of_list_ascii (map upper_ascii (list_ascii_of_string s)).

(** [this[name]]: the endpoint a generated name stands for, with the
    HTTP method in capitals as [request] passes it to [sign]. *)
Definition lookup (name : string) : option (string * string * string * Q) :=
  find (fun '(a, m, p, _) => String.eqb (camelcase_name a m p) name) api_table.

Definition resolve (name : string) : option (string * string * string) :=
  match lookup name with
  | Some (a, m, p, _) => Some (a, upper m, p)
  | None => None
  end.

(** The weight of the endpoint a generated name stands for. *)
Definition call_weight (name : string) : option Q :=
  match lookup name with Some (_, _, _, w) => Some w | None => None end.

(** ** Running a program *)

(** The server: the raw body of its answer and its parsed JSON
    ([undefined] when the body is not JSON). *)
Definition server := Signer.request -> string * jvalue.

Fixpoint run {A} (ex : Signer.exchange) (srv : server) (p : prog A)
  : list Signer.request * res exn A :=
  match p with
  | Ret a => ([], Ok a)
  | Throw e => ([], Err e)
  | Call name params k =>
      match resolve name with
      | None => ([], Err (mkExn TypeError ("this." ++ name ++ " is not a function")))
      | Some (api, method, path) =>
          match Signer.sign ex path api method params None None with
          | Err e => ([], Err e)
          | Ok req =>
              let '(body, response) := srv req in
              match handleErrors body response with
              | Err e => ([req], Err e)
              | Ok _ => let '(log, r) := run ex srv (k response) in (req :: log, r)
              end
          end
      end
  end.

(** ** Laws of the monad *)

Lemma run_bind {A B} ex srv (p : prog A) (f : A -> prog B) :
  run ex srv (bind p f) =
  let '(l1, r) := run ex srv p in
  match r with
  | Ok a => let '(l2, r2) := run ex srv (f a) in ((l1 ++ l2)%list, r2)
  | Err e => (l1, Err e)
  end.
Proof.
  induction p as [a|e|n ps k IH]; cbn [bind run].
  - destruct (run ex srv (f a)); reflexivity.
  - reflexivity.
  - destruct (resolve n) as [[[api m] path]|]; [|reflexivity].
    destruct (Signer.sign ex path api m ps None None) as [req|e]; [|reflexivity].
    destruct (srv req) as [body response].
    destruct (handleErrors body response); [|reflexivity].
    rewrite IH. destruct (run ex srv (k response)) as [l1 [x|e]]; [|reflexivity].
    destruct (run ex srv (f x)); reflexivity.
Qed.

Lemma run_lift {A} ex srv (r : res exn A) : run ex srv (lift r) = ([], r).
Proof. destruct r; reflexivity. Qed.

Lemma run_lift_bind {A B} ex srv (r : res exn A) (f : A -> prog B) :
  run ex srv (bind (lift r) f) =
  match r with Ok a => run ex srv (f a) | Err e => ([], Err e) end.
Proof. destruct r; reflexivity. Qed.

(** ** JavaScript property access on response values *)

Definition type_error (what : string) : exn :=
  mkExn TypeError ("Cannot read properties of undefined (reading '" ++ what ++ "')").

(** [v.length]: a [TypeError] on [undefined] and [null], [undefined] (here
    [None]) on values that have no length. *)
Definition js_length (v : jvalue) : res exn (option nat) :=
  match v with
  | JUndefined | JNull => Err (type_error "length")
  | JArr l => Ok (Some (length l))
  | JStr s => Ok (Some (String.length s))
  | _ => Ok None
  end.

(** [v[i]] for an index. *)
Definition js_index (v : jvalue) (i : nat) : res exn jvalue :=
  match v with
  | JUndefined | JNull => Err (type_error "index")
  | JArr l => Ok (nth i l JUndefined)
  | JStr s => Ok (match String.get i s with Some c => JStr (String c EmptyString)
                                         | None => JUndefined end)
  | _ => Ok JUndefined
  end.

(** [v[k]] for a key. *)
Definition member (v : jvalue) (k : string) : res exn jvalue :=
  match v with
  | JUndefined | JNull => Err (type_error k)
  | _ => Ok (get v k)
  end.

(** [for (let i = 0; i < n; i++)] with [n] possibly [undefined]. *)
Definition indices (n : option nat) : list nat :=
  match n with Some n => seq 0 n | None => [] end.

(** [String (i)] for an index. *)
Definition nat_key (i : nat) : string := string_of_list_ascii (Precise.digits (Z.of_nat i)).

(** [value === undefined] *)
Definition is_undefined (v : jvalue) : bool :=
  match v with JUndefined => true | _ => false end.

Definition js_opt (o : option string) : jvalue :=
  match o with Some s => JStr s | None => JUndefined end.

(** ** Precision of the base class in TICK_SIZE mode (line 128) *)

(** [amountToPrecision]: truncated to a multiple of the lot size. *)
Definition amountToPrecision (m : Markets.market) (x : Precise.t) : Precise.t :=
  match Markets.precision_amount m with
  | Some tick => Precise.mul (Precise.mk (Precise.integer (Precise.div x tick 0)) 0) tick
  | None => x
  end.

(** [priceToPrecision]: rounded to the nearest multiple of the tick size,
    halves up. *)
Definition priceToPrecision (m : Markets.market) (x : Precise.t) : Precise.t :=
  match Markets.precision_price m with
  | Some tick =>
      let lo := Precise.mul (Precise.mk (Precise.integer (Precise.div x tick 0)) 0) tick in
      if Precise.lt (Precise.mul (Precise.mk 2 0) (Precise.sub x lo)) tick then lo
      else Precise.add lo tick
  | None => x
  end.

(** A price given as a number or a numeric string. *)
Definition number_of (v : jvalue) : option Precise.t :=
  match v with JNum n => Some n | JStr s => Precise.parse s | _ => None end.

Definition price_field (m : Markets.market) (v : jvalue) : jvalue :=
  match number_of v with
  | Some x => JStr (Precise.to_string (priceToPrecision m x))
  | None => JUndefined
  end.

(** ** Orders *)

(** A thrown exception of the adapter: the exchange id, then the text. *)
Definition err {A} (k : exn_kind) (msg : string) : prog A :=
  Throw (mkExn k (exchange_id ++ msg)).

(** ** Registry and list helpers *)

(** [request[k] = v] when [v] is defined. *)
Definition opt_set (request : jvalue) (k : string) (v : option Z) : jvalue :=
  match v with Some t => set request k (JNum (Precise.mk t 0)) | None => request end.


(** [this.market (symbol)] when a symbol is given. *)
Definition market_opt (ex : Signer.exchange) (symbol : option string)
  : prog (option Markets.market) :=
  match symbol with
  | Some s => m <- lift (Markets.market_of (Signer.markets ex) s) ;; Ret (Some m)
  | None => Ret None
  end.

(** [a.timestamp < b.timestamp], false when either is [undefined]. *)
Definition ts_lt (a b : option Z) : bool :=
  match a, b with Some a, Some b => (a <? b)%Z | _, _ => false end.

(** [filterBySymbolSinceLimit] of the base class: the entries of the
    symbol, then those at or after [since] (a falsy timestamp or [since]
    drops the entry), then the first [limit]. *)
Definition filterBySymbolSinceLimit {A} (sym : A -> option string) (ts : A -> option Z)
  (symbol : option string) (since limit : option Z) (l : list A) : list A :=
  let l := match symbol with
           | Some s => filter (fun x => Markets.same (sym x) s) l
           | None => l
           end in
  let l := match since with
           | Some t => filter (fun x => match ts x with
                                        | Some u => negb (u =? 0)%Z && negb (t =? 0)%Z && (t <=? u)%Z
                                        | None => false
                                        end) l
           | None => l
           end in
  match limit with Some n => firstn (Z.to_nat n) l | None => l end.

Lemma index_of_key_nat_key i : index_of_key (nat_key i) = Some i.
Proof.
  unfold index_of_key, nat_key. rewrite list_ascii_of_string_of_list_ascii.
  rewrite Precise.digits_value_digits by lia.
  destruct (Precise.digits (Z.of_nat i)) eqn:E; [now apply Precise.digits_nonempty in E|].
  simpl. now rewrite Nat2Z.id.
Qed.

(** [safeString (a, i)] on an array. *)
Lemma safeString_index l i : safeString (JArr l) (nat_key i) = as_string (match nth i l JUndefined with
                                                                           | JNull | JStr "" => JUndefined
                                                                           | v => v end).
Proof. unfold safeString, prop, get. rewrite index_of_key_nat_key. reflexivity. Qed.

Lemma run_call {A} ex srv name ps (k : jvalue -> prog A) api m path req body response :
  resolve name = Some (api, m, path) ->
  Signer.sign ex path api m ps None None = Ok req ->
  srv req = (body, response) ->
  handleErrors body response = Ok tt ->
  run ex srv (Call name ps k) = let '(l, r) := run ex srv (k response) in (req :: l, r).
Proof. intros Hr Hs Hv Hh. simpl. rewrite Hr, Hs, Hv, Hh. reflexivity. Qed.

Lemma run_call_log {A} ex srv name ps (k : jvalue -> prog A) api m path req :
  resolve name = Some (api, m, path) ->
  Signer.sign ex path api m ps None None = Ok req ->
  (forall r, fst (run ex srv (k r)) = []) ->
  fst (run ex srv (Call name ps k)) = [req].
Proof.
  intros Hr Hs Hk. simpl. rewrite Hr, Hs. destruct (srv req) as [body response].
  destruct (handleErrors body response); [|reflexivity].
  specialize (Hk response). destruct (run ex srv (k response)). simpl in Hk |- *. subst. reflexivity.
Qed.

Lemma run_call_unresolved {A} ex srv name ps (k : jvalue -> prog A) :
  resolve name = None ->
  run ex srv (Call name ps k) = ([], Err (mkExn TypeError ("this." ++ name ++ " is not a function"))).
Proof. intros Hr. simpl. rewrite Hr. reflexivity. Qed.

(** [toArray (v)]: an array itself, the values of an object, else empty. *)
Definition toArray (v : jvalue) : list jvalue :=
  match v with
  | JArr l => l
  | JObj fs => map snd fs
  | _ => []
  end.

(** [filterByArray (objects, 'symbol', values)]: all of them when no
    values are given, else those whose symbol is one of the values. *)
Definition filterByArray {A} (sym : A -> option string) (values : option (list string))
  (l : list A) : list A :=
  match values with
  | Some vs => filter (fun x => match sym x with
                                | Some s => existsb (String.eqb s) vs
                                | None => false
                                end) l
  | None => l
  end.

(** [marketSymbols (symbols)]: each symbol through [this.symbol], which
    raises [BadSymbol] for one the registry does not know. *)
Definition marketSymbols (ex : Signer.exchange) (symbols : option (list string))
  : res exn (option (list string)) :=
  match symbols with
  | Some ss =>
      let* ms := res_map (Markets.market_of (Signer.markets ex)) ss in
      Ok (Some (map (fun m => Markets.js_str (Markets.symbol m)) ms))
  | None => Ok None
  end.

(** [parseTrades (trades, market, since, limit)] of the base class. *)
Definition parseTrades (ex : Signer.exchange) (trades : jvalue) (market : option Markets.market)
  (since limit : option Z) : list Trade.trade :=
  filterBySymbolSinceLimit Trade.symbol Trade.timestamp
    (match market with Some m => Markets.symbol m | None => None end) since limit
    (sort_by (fun a b => ts_lt (Trade.timestamp a) (Trade.timestamp b))
       (map (fun t => Trade.parseTrade ex t market) (toArray trades))).

Lemma filterBySymbolSinceLimit_spec {A} sym ts symbol since limit l (x : A) :
  In x (filterBySymbolSinceLimit sym ts symbol since limit l) ->
  In x l /\
  (forall s, symbol = Some s -> sym x = Some s) /\
  (forall t, since = Some t -> exists u, ts x = Some u /\ (t <= u)%Z).
Proof.
  unfold filterBySymbolSinceLimit. intros H.
  destruct limit; [apply In_firstn in H|];
  (destruct since as [t|]; [apply filter_In in H as [H Hts]|]);
  (destruct symbol as [s|]; [apply filter_In in H as [H Hs]|]);
  repeat split; try exact H; intros; try discriminate;
  repeat match goal with
  | Hq : Some _ = Some _ |- _ => injection Hq as <-
  | Hs : Markets.same ?a ?b = true |- _ =>
      unfold Markets.same in Hs; destruct a; [apply String.eqb_eq in Hs; subst; reflexivity
                                             | discriminate]
  | Hts : match ts x with Some _ => _ | None => false end = true |- _ =>
      destruct (ts x) as [u|]; [|discriminate]; exists u; split; [reflexivity|];
      apply andb_prop in Hts as [_ Hts]; apply Z.leb_le in Hts; exact Hts
  end.
Qed.

Lemma filterByArray_spec {A} (sym : A -> option string) vs l x :
  In x (filterByArray sym (Some vs) l) -> exists s, sym x = Some s /\ In s vs.
Proof.
  simpl. intros H. apply filter_In in H as [_ H]. destruct (sym x) as [s|]; [|discriminate].
  exists s. split; [reflexivity|]. apply existsb_exists in H as (s' & Hin & E).
  apply String.eqb_eq in E. subst. exact Hin.
Qed.

Lemma marketSymbols_registry ex ss :
  Forall (fun s => exists m, Markets.market_of (Signer.markets ex) s = Ok m
                             /\ Markets.symbol m = Some s) ss ->
  marketSymbols ex (Some ss) = Ok (Some ss).
Proof.
  intros H. unfold marketSymbols.
  assert (E : exists ms, res_map (Markets.market_of (Signer.markets ex)) ss = Ok ms /\
                         map (fun m => Markets.js_str (Markets.symbol m)) ms = ss).
  { induction H as [|s r (m & Hm & Hs) _ (ms & Hms & Heq)]; [exists []; split; reflexivity|].
    exists (m :: ms). simpl. rewrite Hm. simpl. rewrite Hms. simpl. rewrite Hs, Heq.
    split; reflexivity. }
  destruct E as (ms & -> & <-). reflexivity.
Qed.

(** ** A program logic for [run] *)

(** [returns P p]: every value [p] returns, whatever the server answers,
    satisfies [P]. *)
Fixpoint returns {A} (P : A -> Prop) (p : prog A) : Prop :=
  match p with
  | Ret a => P a
  | Throw _ => True
  | Call _ _ k => forall r, returns P (k r)
  end.

(** The outcome of a run: a value satisfying [P], or an exception. *)
Definition outcome {A} (P : A -> Prop) (r : res exn A) : Prop :=
  match r with Ok a => P a | Err _ => True end.

Lemma returns_run {A} (P : A -> Prop) ex srv p :
  returns P p -> outcome P (snd (run ex srv p)).
Proof.
  induction p as [a|e|n ps k IH]; simpl; [tauto | tauto|]. intros Hk.
  destruct (resolve n) as [[[api m] path]|]; [|exact I].
  destruct (Signer.sign ex path api m ps None None) as [req|e]; [|exact I].
  destruct (srv req) as [body response].
  destruct (handleErrors body response); [|exact I].
  specialize (IH response (Hk response)).
  destruct (run ex srv (k response)); exact IH.
Qed.

Lemma returns_bind {A B} (P : B -> Prop) (p : prog A) (f : A -> prog B) :
  returns (fun a => returns P (f a)) p -> returns P (bind p f).
Proof. induction p; simpl; auto. Qed.

Lemma returns_lift {A} (P : A -> Prop) (r : res exn A) :
  (forall a, r = Ok a -> P a) -> returns P (lift r).
Proof. destruct r; simpl; auto. Qed.

Lemma returns_market_opt {A} (P : A -> Prop) ex symbol (f : option Markets.market -> prog A) :
  (forall m, returns P (f m)) -> returns P (bind (market_opt ex symbol) f).
Proof.
  intros H. destruct symbol; simpl; [|apply H].
  destruct (Markets.market_of (Signer.markets ex) s); simpl; auto.
Qed.

#[local] Hint Resolve returns_bind returns_lift returns_market_opt : ccxt.

(** ** Lemmas on the list helpers *)

Lemma filterBySymbolSinceLimit_nil {A} sym ts symbol since limit :
  @filterBySymbolSinceLimit A sym ts symbol since limit [] = [].
Proof. destruct symbol, since, limit; simpl; rewrite ?firstn_nil; reflexivity. Qed.

Lemma filterBySymbolSinceLimit_In {A} sym ts symbol since limit l (x : A) :
  In x (filterBySymbolSinceLimit sym ts symbol since limit l) -> In x l.
Proof.
  unfold filterBySymbolSinceLimit. intros H.
  destruct limit; [apply In_firstn in H|]; destruct since; try apply filter_In in H;
    try destruct H as [H _]; destruct symbol; try apply filter_In in H;
    try destruct H as [H _]; exact H.
Qed.

(** A falsy member stays falsy through [safeValue] with a falsy default. *)
Lemma truthy_safeValue_false o k :
  truthy (get o k) = false -> truthy (safeValue o k (JBool false)) = false.
Proof.
  unfold safeValue, prop. destruct (get o k) as [| | | |[|c r]| |]; simpl; auto.
Qed.

(** *** Amounts to precision *)

Lemma Q_of_Z_lt a b : (a < b)%Z -> inject_Z a < inject_Z b.
Proof. intros H. rewrite <- Zlt_Qlt. exact H. Qed.

(** [parseInt] of a non-negative decimal of integer value is that value. *)
Lemma trunc_integer y n : Precise.val y == inject_Z n -> (0 <= n)%Z -> trunc y = n.
Proof.
  intros Vy Hn. unfold trunc.
  assert (V1 : 0 < Precise.val (Precise.mk 1 0)) by (apply Precise.val_pos_iff; simpl; lia).
  assert (Hy : 0 <= Precise.val y) by (rewrite Vy; change 0 with (inject_Z 0); rewrite <- Zle_Qle; exact Hn).
  destruct (Precise.div0_floor _ _ Hy V1) as [F1 F2].
  destruct (Precise.floor_bounds_mul _ _ _ V1 F1 F2) as [B1 B2].
  assert (E1 : Precise.val (Precise.mk 1 0) == 1) by reflexivity.
  rewrite E1, !Qmult_1_r, Vy in B1, B2.
  rewrite <- Zle_Qle in B1. rewrite <- Zlt_Qlt in B2. lia.
Qed.

(** With a lot size of integer value [L > 0], the [amountToPrecision] of a
    non-negative amount [x] is the multiple [k * L] with
    [k * L <= x < (k + 1) * L], and [parseInt] of it is that integer. *)
Lemma trunc_amountToPrecision m x tick L :
  Markets.precision_amount m = Some tick -> Precise.val tick == inject_Z L -> (0 < L)%Z ->
  0 <= Precise.val x ->
  exists k, (0 <= k)%Z /\ trunc (amountToPrecision m x) = (k * L)%Z /\
    inject_Z (k * L) <= Precise.val x /\ Precise.val x < inject_Z ((k + 1) * L).
Proof.
  intros Hm Ht HL Hx. unfold amountToPrecision. rewrite Hm.
  assert (Htp : 0 < Precise.val tick) by (rewrite Ht; apply (Q_of_Z_lt 0), HL).
  destruct (Precise.div0_floor x tick Hx Htp) as [F1 F2].
  set (k := Precise.integer (Precise.div x tick 0)) in *.
  assert (Hk : (0 <= k)%Z).
  { assert (Q0 : 0 <= Precise.val x / Precise.val tick)
      by (apply Qle_shift_div_l; [exact Htp | rewrite Qmult_0_l; exact Hx]).
    assert (Q1 : inject_Z 0 < inject_Z (k + 1)) by (eapply Qle_lt_trans; eassumption).
    rewrite <- Zlt_Qlt in Q1. lia. }
  destruct (Precise.floor_bounds_mul _ _ _ Htp F1 F2) as [B1 B2].
  rewrite Ht, <- !inject_Z_mult in B1, B2.
  exists k. repeat split; [exact Hk| |exact B1|exact B2].
  apply trunc_integer; [|lia].
  rewrite Precise.val_mul, Ht, inject_Z_mult. unfold Precise.val at 1. simpl. ring.
Qed.


(** ** Bounded number of requests *)

(** [within n p]: every run of [p] sends at most [n] requests, whatever the
    server answers. *)
Fixpoint within {A} (n : nat) (p : prog A) {struct p} : Prop :=
  match p with
  | Ret _ | Throw _ => True
  | Call _ _ k => match n with O => False | S n' => forall r, within n' (k r) end
  end.

Lemma within_run {A} ex srv n (p : prog A) : within n p -> (length (fst (run ex srv p)) <= n)%nat.
Proof.
  revert n. induction p as [a|e|nm ps k IH]; intros n H; cbn in H |- *; [lia | lia|].
  destruct n as [|n]; [cbn in *; contradiction|].
  destruct (resolve nm) as [[[api m] path]|]; simpl; [|lia].
  destruct (Signer.sign ex path api m ps None None) as [req|e]; simpl; [|lia].
  destruct (srv req) as [body response].
  destruct (handleErrors body response); simpl; [|lia].
  specialize (IH response n (H response)).
  destruct (run ex srv (k response)); simpl in *; lia.
Qed.

Lemma within_mono {A} n m (p : prog A) : (n <= m)%nat -> within n p -> within m p.
Proof.
  revert n m. induction p as [a|e|nm ps k IH]; intros n m Hle H; cbn in H |- *; auto.
  destruct n as [|n]; [cbn in *; contradiction|]. destruct m as [|m]; [lia|].
  intros r. apply (IH r n m); [lia | apply H].
Qed.

Lemma within_bind {A B} n m (p : prog A) (f : A -> prog B) :
  within n p -> (forall a, within m (f a)) -> within (n + m) (bind p f).
Proof.
  revert n. induction p as [a|e|nm ps k IH]; intros n Hp Hf; cbn in Hp |- *.
  - apply (within_mono m); [lia | apply Hf].
  - exact I.
  - destruct n as [|n]; [cbn in *; contradiction|]. intros r. apply IH, Hf. apply Hp.
Qed.

Lemma within_lift {A} n (r : res exn A) : within n (lift r).
Proof. destruct r; exact I. Qed.

Lemma within_call {A} n name ps (k : jvalue -> prog A) :
  (forall r, within n (k r)) -> within (S n) (Call name ps k).
Proof. intros H. exact H. Qed.

(** [within_auto]: a program built of [lift], at most one [Call] and
    returns, split at every [match] and [if]; a [bind] whose first
    program sends nothing is split by [within_bind 0]. *)
Ltac within_auto :=
  repeat first
    [ exact I
    | apply within_lift
    | progress cbv beta zeta
    | apply (within_bind 0 1); [solve [within_auto] | intros ?]
    | apply (within_bind 0 0); [solve [within_auto] | intros ?]
    | apply within_call; intros ?
    | match goal with
      | |- within _ (match ?x with _ => _ end) => destruct x
      | |- within _ (if ?x then _ else _) => destruct x
      | |- within _ (bind (market_opt _ ?s) _) => destruct s; cbn [market_opt]
      end
    | progress cbn [bind within] ].

(** ** The rate limiter's accounting *)

(** [describe ().rateLimit] (line 19): the base request cost, in
    milliseconds; an endpoint of weight [w] holds the limiter for
    [w * rateLimit] milliseconds. *)
Definition rateLimit : Q := 333 # 10.

(** [run] instrumented with the limiter's cost: a call of a generated
    method takes its endpoint's weight when it is made, before it is
    signed (the base class throttles, then signs), whatever follows. *)
Fixpoint run_metered {A} (ex : Signer.exchange) (srv : server) (p : prog A)
  : list Signer.request * res exn A * Q :=
  match p with
  | Ret a => ([], Ok a, 0)
  | Throw e => ([], Err e, 0)
  | Call name params k =>
      match lookup name with
      | None => ([], Err (mkExn TypeError ("this." ++ name ++ " is not a function")), 0)
      | Some (api, method, path, w) =>
          match Signer.sign ex path api (upper method) params None None with
          | Err e => ([], Err e, w)
          | Ok req =>
              let '(body, response) := srv req in
              match handleErrors body response with
              | Err e => ([req], Err e, w)
              | Ok _ => let '(log, r, c) := run_metered ex srv (k response) in (req :: log, r, w + c)
              end
          end
      end
  end.

(** Dropping the cost gives [run] back. *)
Lemma run_metered_erase {A} ex srv (p : prog A) :
  (let '(l, r, _) := run_metered ex srv p in (l, r)) = run ex srv p.
Proof.
  induction p as [a|e|n ps k IH]; [reflexivity|reflexivity|]. cbn [run_metered run].
  unfold resolve. destruct (lookup n) as [[[[api m] path] w]|]; [|reflexivity].
  destruct (Signer.sign ex path api (upper m) ps None None) as [req|e]; [|reflexivity].
  destruct (srv req) as [body response]. destruct (handleErrors body response); [|reflexivity].
  rewrite <- IH. destruct (run_metered ex srv (k response)) as [[l r] c]. reflexivity.
Qed.










(** ** Sample servers for the witnesses *)

(** A server that answers every request with the same data. *)
Definition answer (data : jvalue) : jvalue := JObj [("code", JStr "200000"); ("data", data)].
Definition answering (data : jvalue) : server := fun _ => ("{}", answer data).

End Api.

