(* ===== verification/Orders.v ===== *)
(** * Order placement, cancellation and order queries

    [createOrder] (lines 776-882), [cancelOrder] (884-943),
    [cancelAllOrders] (1172-1231), [fetchOrdersByStatus] (1233-1291) with
    its views [fetchOpenOrders] and [fetchClosedOrders], and [fetchOrder]
    (1331-1360), as programs of [Exchange.Api.prog].  The theorems say in
    which order the arguments are validated and that a rejected call sends
    nothing, that an accepted order completes after one request, which
    size it sends, what each call sends and returns, what the order lists
    contain, and what a client that places then cancels an order sends. *)

From Stdlib Require Import ZArith QArith String Ascii List Bool Lia Permutation.
From S2P Require Import Prelude Precise Json Errors Markets Signer Normalizers Exchange.
Import ListNotations.
Local Open Scope string_scope.
Local Open Scope ccxt_scope.

Module Orders.
Import JS Errors Api.
Local Open Scope prog_scope.

(** The order object [createOrder], [cancelOrder] and [cancelAllOrders]
    return: the id and the raw response; every other field of it is
    [undefined] (lines 864-881, 925-942, 1202-1223). *)
Record order_ack : Type := mkAck { ack_id : option string; ack_info : jvalue }.

(** Lines 808-834: the request of an order whose amount passed the check,
    or [Err tt] for a limit order without a price. *)
Definition createOrder_request (market : Markets.market) (clientOrderId type_ side : string)
  (amount : Precise.t) (price : option Precise.t) (params : jvalue) : res unit jvalue :=
  let preciseAmount := trunc (amountToPrecision market amount) in
  let request :=
    JObj [("clientOid", JStr clientOrderId); ("side", JStr side);
          ("symbol", js_opt (Markets.id market)); ("type", JStr type_);
          ("size", JNum (Precise.mk preciseAmount 0)); ("leverage", JNum (Precise.mk 1 0))] in
  let stopPrice := safeValue2 params "triggerPrice" "stopPrice" JUndefined in
  let request :=
    if truthy stopPrice then
      let request := set request "stop" (JStr (if String.eqb side "buy" then "up" else "down")) in
      let request := set request "stopPriceType" (JStr (safeStringD params "stopPriceType" "TP")) in
      set request "stopPrice" (price_field market stopPrice)
    else request in
  let timeInForce := safeStringUpper params "timeInForce" in
  if String.eqb type_ "limit" then
    match price with
    | None => Err tt
    | Some p =>
        let request := set request "price" (JStr (Precise.to_string (priceToPrecision market p))) in
        Ok (match timeInForce with Some t => set request "timeInForce" (JStr t) | None => request end)
    end
  else Ok request.

(** [createOrder] (lines 776-882). *)
Definition createOrder (ex : Signer.exchange) (symbol type_ side : string)
  (amount : Precise.t) (price : option Precise.t) (params : jvalue) : prog order_ack :=
  market <- lift (Markets.market_of (Signer.markets ex) symbol) ;;
  let clientOrderId :=
    match safeString2 params "clientOid" "clientOrderId" with
    | Some c => c | None => Signer.uuid ex end in
  let params := omit params ["clientOid"; "clientOrderId"] in
  if Precise.lt amount (Precise.mk 1 0) then
    err InvalidOrder " createOrder() minimum contract order amount is 1"
  else
  match createOrder_request market clientOrderId type_ side amount price params with
  | Err _ => err ArgumentsRequired " createOrder() requires a price argument for limit orders"
  | Ok request =>
  let postOnly := safeValue params "postOnly" (JBool false) in
  let hidden := safeValue params "hidden" JUndefined in
  if truthy postOnly && negb (is_undefined hidden) then
    err BadRequest " createOrder() does not support the postOnly parameter together with a hidden parameter"
  else if truthy (safeValue params "iceberg" JUndefined)
          && is_undefined (safeValue params "visibleSize" JUndefined) then
    err ArgumentsRequired " createOrder() requires a visibleSize parameter for iceberg orders"
  else
  let params := omit params ["timeInForce"; "stopPrice"; "triggerPrice"] in
  Call "privatePostOrders" (extend request params) (fun response =>
  let data := safeValue response "data" (JObj []) in
  Ret (mkAck (safeString data "orderId") response))
  end.

(** [cancelOrder] (lines 884-943). *)
Definition cancelOrder (id : string) (params : jvalue) : prog order_ack :=
  Call "privateDeleteOrdersOrderId" (extend (JObj [("order-id", JStr id)]) params) (fun response =>
  let data := safeValue response "data" JUndefined in
  let cancelledOrderIds := safeValue data "cancelledOrderIds" JUndefined in
  n <- lift (js_length cancelledOrderIds) ;;
  if match n with Some O => true | _ => false end then
    err InvalidOrder " cancelOrder() order already cancelled"
  else Ret (mkAck (safeString cancelledOrderIds "0") response)).

(** [cancelAllOrders] (lines 1172-1231): one acknowledgement per cancelled
    id; the [stop] flag selects the endpoint and is sent along. *)
Definition cancelAllOrders (ex : Signer.exchange) (symbol : option string) (params : jvalue)
  : prog (list order_ack) :=
  request <- match symbol with
             | Some s => m <- lift (Markets.market_of (Signer.markets ex) s) ;;
                         Ret (JObj [("symbol", js_opt (Markets.id m))])
             | None => Ret (JObj [])
             end ;;
  let stop := safeValue params "stop" JUndefined in
  let method := if truthy stop then "privateDeleteStopOrders" else "privateDeleteOrders" in
  Call method (extend request params) (fun response =>
  let data := safeValue response "data" JUndefined in
  let cancelledOrderIds := safeValue data "cancelledOrderIds" JUndefined in
  n <- lift (js_length cancelledOrderIds) ;;
  Ret (map (fun i => mkAck (safeString cancelledOrderIds (nat_key i)) response) (indices n))).

(** ** Order lists *)

(** [parseOrders] of the base class: each raw order parsed, sorted by
    timestamp, filtered. *)
Definition parseOrders (ex : Signer.exchange) (raw : list jvalue)
  (market : option Markets.market) (since limit : option Z) : list Order.order :=
  filterBySymbolSinceLimit Order.symbol Order.timestamp
    (match market with Some m => Markets.symbol m | None => None end) since limit
    (sort_by (fun a b => ts_lt (Order.timestamp a) (Order.timestamp b))
       (map (fun o => Order.parseOrder ex o (market)) raw)).

(** Lines 1280-1289: the raw orders whose [cancelExist] is falsy; reading
    a member of a [null] entry is a [TypeError]. *)
Definition keep_uncancelled (orders : jvalue) (n : option nat) : res exn (list jvalue) :=
  let* kept := res_map (fun i => let* o := js_index orders i in
                                 let* c := member o "cancelExist" in
                                 Ok (if truthy c then [] else [o])) (indices n) in
  Ok (concat kept).

Definition map_status (status : string) : string :=
  if String.eqb status "closed" then "done"
  else if String.eqb status "open" then "active" else status.

(** [fetchOrdersByStatus] (lines 1233-1291). *)
Definition fetchOrdersByStatus (ex : Signer.exchange) (status : string) (symbol : option string)
  (since limit : option Z) (params : jvalue) : prog (list Order.order) :=
  let stop := safeValue params "stop" JUndefined in
  let until := safeInteger2 params "until" "till" in
  let params := omit params ["stop"; "until"; "till"] in
  let status := map_status status in
  if truthy stop && negb (String.eqb status "active") then
    err BadRequest " fetchOrdersByStatus() can only fetch untriggered stop orders"
  else
  let request := if truthy stop then JObj [] else JObj [("status", JStr status)] in
  market <- market_opt ex symbol ;;
  let request := match market with
                 | Some m => set request "symbol" (js_opt (Markets.id m))
                 | None => request end in
  let request := opt_set (opt_set request "startAt" since) "endAt" until in
  let method := if truthy stop then "privateGetStopOrders" else "privateGetOrders" in
  Call method (extend request params) (fun response =>
  let responseData := safeValue response "data" (JObj []) in
  let orders := safeValue responseData "items" (JArr []) in
  n <- lift (js_length orders) ;;
  result <- (if String.eqb status "done" then lift (keep_uncancelled orders n) else Ret []) ;;
  Ret (parseOrders ex result market since limit)).

(** [fetchOpenOrders] (lines 1293-1310) and [fetchClosedOrders] (lines
    1312-1329). *)
Definition fetchOpenOrders ex symbol since limit params : prog (list Order.order) :=
  fetchOrdersByStatus ex "active" symbol since limit params.

Definition fetchClosedOrders ex symbol since limit params : prog (list Order.order) :=
  fetchOrdersByStatus ex "closed" symbol since limit params.

(** [fetchOrder] (lines 1331-1360): by id, else by client order id; the
    market is looked up after the request. *)
Definition fetchOrder (ex : Signer.exchange) (id symbol : option string) (params : jvalue)
  : prog Order.order :=
  let target : res exn (string * jvalue * jvalue) :=
    match id with
    | None =>
        match safeString2 params "clientOid" "clientOrderId" with
        | None => Err (mkExn InvalidOrder
                         (exchange_id ++ " fetchOrder() requires parameter id or params.clientOid"))
        | Some c => Ok ("privateGetOrdersByClientOid", JObj [("clientOid", JStr c)],
                        omit params ["clientOid"; "clientOrderId"])
        end
    | Some i => Ok ("privateGetOrdersOrderId", JObj [("order-id", JStr i)], params)
    end in
  t <- lift target ;;
  let '(method, request, params) := t in
  Call method (extend request params) (fun response =>
  market <- market_opt ex symbol ;;
  Ret (Order.parseOrder ex (safeValue response "data" JUndefined) market)).

(** ** Abstract specification of the argument checks (spec section 7) *)

(** The exception [createOrder] raises for its arguments, in the order the
    code checks them: an amount below one contract, a limit order without
    a price, [postOnly] with [hidden], an iceberg order without a visible
    size. *)
Definition createOrder_rejection (type_ : string) (amount : Precise.t)
  (price : option Precise.t) (params : jvalue) : option exn_kind :=
  if Precise.lt amount (Precise.mk 1 0) then Some InvalidOrder
  else if String.eqb type_ "limit" && negb (match price with Some _ => true | None => false end)
  then Some ArgumentsRequired
  else if truthy (safeValue params "postOnly" (JBool false))
          && negb (is_undefined (safeValue params "hidden" JUndefined))
  then Some BadRequest
  else if truthy (safeValue params "iceberg" JUndefined)
          && is_undefined (safeValue params "visibleSize" JUndefined)
  then Some ArgumentsRequired
  else None.

(** A client of the adapter that places an order and cancels it by the id
    the placement returned ([cancelOrder (order['id'])]; an undefined id
    prints as ["undefined"]). *)
Definition place_then_cancel (ex : Signer.exchange) (symbol type_ side : string)
  (amount : Precise.t) (price : option Precise.t) (params : jvalue) : prog order_ack :=
  ack <- createOrder ex symbol type_ side amount price params ;;
  cancelOrder (Markets.js_str (ack_id ack)) (JObj []).

(** ** Lemmas *)

Lemma parseOrders_In ex raw m since limit o :
  In o (parseOrders ex raw m since limit) -> exists r, In r raw /\ o = Order.parseOrder ex r m.
Proof.
  unfold parseOrders. intros H. apply filterBySymbolSinceLimit_In, In_sort_by, in_map_iff in H.
  destruct H as (r & <- & Hr). eauto.
Qed.

Lemma parseOrders_nil ex m since limit : parseOrders ex [] m since limit = [].
Proof. apply filterBySymbolSinceLimit_nil. Qed.

Lemma keep_uncancelled_spec orders n kept :
  keep_uncancelled orders n = Ok kept -> Forall (fun o => truthy (get o "cancelExist") = false) kept.
Proof.
  unfold keep_uncancelled. destruct (res_map _ _) as [ls|e] eqn:E; [|discriminate].
  simpl. intros H. inversion H as [H']. clear H H'. apply res_map_Ok in E.
  induction E as [|i l x xs Hx _ IH]; simpl; [constructor|]. apply Forall_app. split; [|exact IH].
  destruct (js_index orders i) as [o|]; [|discriminate]. simpl in Hx.
  assert (Hm : exists c, member o "cancelExist" = Ok c /\ c = get o "cancelExist")
    by (destruct o; simpl in *; try discriminate; eauto).
  destruct Hm as (c & Hc & ->). rewrite Hc in Hx. simpl in Hx. injection Hx as <-.
  destruct (truthy (get o "cancelExist")) eqn:Ec; repeat constructor; assumption.
Qed.

Lemma createOrder_request_fails m c t sd a p ps :
  match createOrder_request m c t sd a p ps with Err _ => true | Ok _ => false end =
  String.eqb t "limit" && negb (match p with Some _ => true | None => false end).
Proof. unfold createOrder_request. destruct (String.eqb t "limit"), p; reflexivity. Qed.

Lemma parseOrder_not_canceled ex r m :
  truthy (get r "cancelExist") = false -> Order.status (Order.parseOrder ex r m) <> "canceled".
Proof.
  intros H. cbn [Order.status Order.parseOrder]. unfold Order.order_status.
  rewrite truthy_safeValue_false by exact H.
  destruct (truthy (safeValue r "isActive" (JBool false))); discriminate.
Qed.

Lemma createOrder_request_stop m c t sd a p ps req :
  truthy (safeValue2 ps "triggerPrice" "stopPrice" JUndefined) = true ->
  createOrder_request m c t sd a p ps = Ok req ->
  (exists fs, req = JObj fs) /\ get req "stop" = JStr (if String.eqb sd "buy" then "up" else "down").
Proof.
  intros Hs. unfold createOrder_request. rewrite Hs.
  destruct (String.eqb t "limit"), p, (safeStringUpper ps "timeInForce"); intros H; inv H;
    (split; [eexists; reflexivity | reflexivity]).
Qed.

Lemma keep_uncancelled_array l :
  Forall (fun o => o <> JUndefined /\ o <> JNull) l ->
  keep_uncancelled (JArr l) (Some (length l)) =
  Ok (filter (fun o => negb (truthy (get o "cancelExist"))) l).
Proof.
  intros Hd. unfold keep_uncancelled. cbn [indices].
  rewrite (res_map_seq _ (fun o => Ok (if truthy (get o "cancelExist") then [] else [o]))
             JUndefined l 0) by (intros i Hi; simpl;
    assert (Hn := proj1 (Forall_forall _ l) Hd (nth i l JUndefined) (nth_In l _ Hi));
    destruct (nth i l JUndefined); try (destruct Hn; congruence); reflexivity).
  rewrite (res_map_map _ (fun o => if truthy (get o "cancelExist") then [] else [o]))
    by reflexivity.
  simpl. f_equal. induction l as [|o r IH]; [reflexivity|]. simpl.
  inv Hd. rewrite IH by assumption. destruct (truthy (get o "cancelExist")); reflexivity.
Qed.

(** [createOrder_accepted Hm Hr]: with the market found ([Hm]) and no
    check failing ([Hr : createOrder_rejection ... = None]), step
    [createOrder] to its call of [privatePostOrders]. *)
Ltac createOrder_accepted Hm Hr :=
  unfold createOrder; rewrite run_lift_bind, Hm; cbv beta iota zeta;
  rewrite !safeValue_omit by reflexivity; unfold createOrder_rejection in Hr;
  destruct (Precise.lt _ (Precise.mk 1 0)); [discriminate|];
  match goal with |- context [createOrder_request ?m ?c ?t ?s ?a ?p ?ps] =>
    let Hf := fresh "Hf" in
    pose proof (createOrder_request_fails m c t s a p ps) as Hf;
    destruct (createOrder_request m c t s a p ps); rewrite <- Hf in Hr; [|discriminate]; clear Hf
  end;
  destruct (_ && _); [discriminate|]; destruct (_ && _); [discriminate|].

(** [run_private_call Hc Hs]: run one call of a private endpoint with a
    body, the credentials set ([Hc]) and every answer accepted ([Hs]). *)
Ltac run_private_call Hc Hs :=
  erewrite run_call; [| vm_compute; reflexivity | apply Signer.sign_private_body_eq; auto
                      | apply surjective_pairing | apply Hs].

(** ** Theorems *)

(** C8: [createOrder] validates its arguments in the order of
    [createOrder_rejection] and raises the first failing check's exception
    before any request is sent (the market lookup comes first). *)
Theorem createOrder_rejects ex srv symbol type_ side amount price params m k :
  Markets.market_of (Signer.markets ex) symbol = Ok m ->
  createOrder_rejection type_ amount price params = Some k ->
  exists msg, run ex srv (createOrder ex symbol type_ side amount price params)
              = ([], Err (mkExn k msg)).
Proof.
  intros Hm Hr. unfold createOrder. rewrite run_lift_bind, Hm. cbv beta iota zeta.
  rewrite !safeValue_omit by reflexivity. unfold createOrder_rejection in Hr.
  destruct (Precise.lt amount (Precise.mk 1 0)); [inv Hr; eexists; reflexivity|].
  match goal with |- context [createOrder_request ?m ?c ?t ?s ?a ?p ?ps] =>
    pose proof (createOrder_request_fails m c t s a p ps) as Hf;
    destruct (createOrder_request m c t s a p ps) end;
    rewrite <- Hf in Hr; [|inv Hr; eexists; reflexivity].
  destruct (truthy (safeValue params "postOnly" (JBool false))
            && negb (is_undefined (safeValue params "hidden" JUndefined)));
    [inv Hr; eexists; reflexivity|].
  destruct (truthy (safeValue params "iceberg" JUndefined)
            && is_undefined (safeValue params "visibleSize" JUndefined));
    [inv Hr; eexists; reflexivity | discriminate].
Qed.

(** C21: a stop order (a truthy [triggerPrice] or [stopPrice]) is sent with
    [stop = 'up'] when buying and ['down'] when selling, unless the caller
    passes [stop] itself. *)
Theorem createOrder_stop_direction ex symbol type_ side amount price params m :
  Markets.market_of (Signer.markets ex) symbol = Ok m ->
  createOrder_rejection type_ amount price params = None ->
  truthy (safeValue2 params "triggerPrice" "stopPrice" JUndefined) = true ->
  has_key params "stop" = false ->
  exists body k, createOrder ex symbol type_ side amount price params = Call "privatePostOrders" body k
                 /\ get body "stop" = JStr (if String.eqb side "buy" then "up" else "down").
Proof.
  intros Hm Hr Hs Hk. unfold createOrder. rewrite Hm. cbn [lift bind]. cbv beta zeta.
  unfold createOrder_rejection in Hr. rewrite !safeValue_omit by reflexivity.
  destruct (Precise.lt amount (Precise.mk 1 0)); [discriminate|].
  match goal with |- context [createOrder_request ?m ?c ?t ?s ?a ?p ?ps] =>
    pose proof (createOrder_request_fails m c t s a p ps) as Hf;
    pose proof (createOrder_request_stop m c t s a p ps) as Hst;
    destruct (createOrder_request m c t s a p ps) as [req|] end;
    rewrite <- Hf in Hr; [|discriminate].
  destruct (_ && _); [discriminate|]. destruct (_ && _); [discriminate|].
  rewrite safeValue2_omit in Hst by reflexivity.
  destruct (Hst req Hs eq_refl) as [[fs ->] Hstop].
  do 2 eexists. split; [reflexivity|].
  rewrite get_extend_obj by (rewrite !has_key_omit by reflexivity; exact Hk). exact Hstop.
Qed.

(** C5: [fetchOpenOrders] returns the empty list whatever the server
    answers: [fetchOrdersByStatus] collects the orders only for the status
    ['done'], and the open view asks for ['active']. *)
Theorem fetchOpenOrders_always_empty ex srv symbol since limit params :
  outcome (fun os => os = []) (snd (run ex srv (fetchOpenOrders ex symbol since limit params))).
Proof.
  apply returns_run. unfold fetchOpenOrders, fetchOrdersByStatus. cbv zeta.
  cbn [map_status String.eqb Ascii.eqb Bool.eqb negb]. rewrite andb_false_r.
  apply returns_market_opt. intros m. cbn [returns]. intros r.
  apply returns_bind, returns_lift. intros n _. cbn [bind returns String.eqb Ascii.eqb Bool.eqb].
  apply parseOrders_nil.
Qed.

(** C6: no order [fetchClosedOrders] returns has the status ['canceled']:
    the raw orders whose [cancelExist] is set are dropped before parsing. *)
Theorem fetchClosedOrders_not_canceled ex srv symbol since limit params :
  outcome (Forall (fun o => Order.status o <> "canceled"))
    (snd (run ex srv (fetchClosedOrders ex symbol since limit params))).
Proof.
  apply returns_run. unfold fetchClosedOrders, fetchOrdersByStatus. cbv zeta.
  cbn [map_status String.eqb Ascii.eqb Bool.eqb negb].
  destruct (truthy (safeValue params "stop" JUndefined)); cbn [andb err returns]; [exact I|].
  apply returns_market_opt. intros m. cbn [returns]. intros r.
  apply returns_bind, returns_lift. intros n _. cbn [String.eqb Ascii.eqb Bool.eqb].
  apply returns_bind, returns_lift. intros kept Hk. apply keep_uncancelled_spec in Hk.
  cbn [returns]. apply Forall_forall. intros o Ho. apply parseOrders_In in Ho as (r' & Hr' & ->).
  apply parseOrder_not_canceled. rewrite Forall_forall in Hk. exact (Hk r' Hr').
Qed.

(** stop orders can only be listed untriggered: with [stop] set and a
    status other than open, [fetchOrdersByStatus] raises [BadRequest]
    before any request. *)
Theorem fetchOrdersByStatus_stop_untriggered ex srv status symbol since limit params :
  truthy (safeValue params "stop" JUndefined) = true ->
  String.eqb (map_status status) "active" = false ->
  exists msg, run ex srv (fetchOrdersByStatus ex status symbol since limit params)
              = ([], Err (mkExn BadRequest msg)).
Proof.
  intros Hs Ha. unfold fetchOrdersByStatus. cbv zeta. rewrite Hs, Ha. eexists. reflexivity.
Qed.

(** [fetchOrder] without an id needs a client order id, and raises
    [InvalidOrder] before any request otherwise. *)
Theorem fetchOrder_requires_id ex srv symbol params :
  safeString2 params "clientOid" "clientOrderId" = None ->
  exists msg, run ex srv (fetchOrder ex None symbol params) = ([], Err (mkExn InvalidOrder msg)).
Proof. intros H. unfold fetchOrder. cbv zeta. rewrite H. eexists. reflexivity. Qed.

(** C19: [fetchOrder] by client order id never reaches the exchange: the
    method [privateGetOrdersByClientOid] it calls is not generated by the
    API table, so the call is a [TypeError]. *)
Theorem fetchOrder_by_clientOid_fails ex srv symbol params c :
  safeString2 params "clientOid" "clientOrderId" = Some c ->
  exists msg, run ex srv (fetchOrder ex None symbol params) = ([], Err (mkExn TypeError msg)).
Proof.
  intros H. unfold fetchOrder. cbv zeta. rewrite H, run_lift_bind. cbv beta iota.
  rewrite run_call_unresolved by (vm_compute; reflexivity). eexists. reflexivity.
Qed.

(** C9: cancelling an order that the exchange reports as not cancelled (an
    empty [cancelledOrderIds]) raises [InvalidOrder] after the one DELETE
    request. *)
Theorem cancelOrder_already_cancelled ex srv id params req body response :
  Signer.sign ex "orders/{order-id}" "private" "DELETE"
    (extend (JObj [("order-id", JStr id)]) params) None None = Ok req ->
  srv req = (body, response) ->
  handleErrors body response = Ok tt ->
  safeValue (safeValue response "data" JUndefined) "cancelledOrderIds" JUndefined = JArr [] ->
  exists msg, run ex srv (cancelOrder id params) = ([req], Err (mkExn InvalidOrder msg)).
Proof.
  intros Hs Hv Hh Hc. unfold cancelOrder.
  rewrite (run_call _ _ _ _ _ "private" "DELETE" "orders/{order-id}" req body response)
    by (assumption || (vm_compute; reflexivity)).
  cbv beta zeta. rewrite Hc. eexists. reflexivity.
Qed.

(** C34: a successful cancellation returns the first cancelled id, and a
    response without [cancelledOrderIds] is a [TypeError]. *)
Theorem cancelOrder_result ex srv id params req body response ids :
  Signer.sign ex "orders/{order-id}" "private" "DELETE"
    (extend (JObj [("order-id", JStr id)]) params) None None = Ok req ->
  srv req = (body, response) ->
  handleErrors body response = Ok tt ->
  let cancelled := safeValue (safeValue response "data" JUndefined) "cancelledOrderIds" JUndefined in
  (cancelled = JArr (map JStr ids) -> ids <> [] -> hd "" ids <> "" ->
   run ex srv (cancelOrder id params) = ([req], Ok (mkAck (Some (hd "" ids)) response))) /\
  (cancelled = JUndefined ->
   exists msg, run ex srv (cancelOrder id params) = ([req], Err (mkExn TypeError msg))).
Proof.
  intros Hs Hv Hh cancelled. unfold cancelOrder.
  rewrite (run_call _ _ _ _ _ "private" "DELETE" "orders/{order-id}" req body response)
    by (assumption || (vm_compute; reflexivity)).
  cbv beta zeta. subst cancelled. split.
  - intros Hc Hne Hhd. rewrite Hc. destruct ids as [|i r]; [congruence|]. simpl in Hhd |- *.
    unfold safeString, prop, get. simpl. destruct i; [congruence | reflexivity].
  - intros Hc. rewrite Hc. eexists. reflexivity.
Qed.

(** C7: with no symbol, [since] or [limit], on an answer whose [items] are
    order objects, [fetchClosedOrders] sends one GET of the orders with
    status ['done'] and returns the parsed items whose [cancelExist] is
    falsy, each once (sorted by timestamp). *)
Theorem fetchClosedOrders_complete ex srv params req body response l :
  truthy (safeValue params "stop" JUndefined) = false ->
  Signer.sign ex "orders" "private" "GET"
    (extend (opt_set (JObj [("status", JStr "done")]) "endAt" (safeInteger2 params "until" "till"))
       (omit params ["stop"; "until"; "till"])) None None = Ok req ->
  srv req = (body, response) ->
  handleErrors body response = Ok tt ->
  safeValue (safeValue response "data" (JObj [])) "items" (JArr []) = JArr l ->
  Forall (fun o => o <> JUndefined /\ o <> JNull) l ->
  exists os, run ex srv (fetchClosedOrders ex None None None params) = ([req], Ok os) /\
    Permutation os (map (fun o => Order.parseOrder ex o None)
                      (filter (fun o => negb (truthy (get o "cancelExist"))) l)).
Proof.
  intros Hst Hs Hv Hh Hl Hd. unfold fetchClosedOrders, fetchOrdersByStatus. cbv zeta.
  cbn [map_status String.eqb Ascii.eqb Bool.eqb negb]. rewrite Hst. cbn [andb market_opt bind].
  rewrite (run_call _ _ _ _ _ "private" "GET" "orders" req body response)
    by (assumption || (vm_compute; reflexivity)).
  cbv beta zeta. rewrite Hl. cbn [js_length lift bind String.eqb Ascii.eqb Bool.eqb].
  rewrite keep_uncancelled_array by exact Hd. cbn [run].
  eexists. split; [reflexivity|]. unfold parseOrders. cbn [filterBySymbolSinceLimit].
  symmetry. apply sort_by_perm.
Qed.

(** C33: [cancelAllOrders] sends one DELETE, to [stopOrders] when the [stop]
    flag is set and to [orders] otherwise, and returns one acknowledgement
    per cancelled id, in the order of the response. *)
Theorem cancelAllOrders_acks ex srv params req body response ids :
  Signer.sign ex (if truthy (safeValue params "stop" JUndefined) then "stopOrders" else "orders")
    "private" "DELETE" (extend (JObj []) params) None None = Ok req ->
  srv req = (body, response) ->
  handleErrors body response = Ok tt ->
  safeValue (safeValue response "data" JUndefined) "cancelledOrderIds" JUndefined
    = JArr (map JStr ids) ->
  Forall (fun i => i <> "") ids ->
  run ex srv (cancelAllOrders ex None params) = ([req], Ok (map (fun i => mkAck (Some i) response) ids)).
Proof.
  intros Hs Hv Hh Hc Hne. unfold cancelAllOrders. cbn [bind]. cbv zeta.
  destruct (truthy (safeValue params "stop" JUndefined));
    (rewrite (run_call _ _ _ _ _ "private" "DELETE" _ req body response)
       by (eassumption || (vm_compute; reflexivity)));
    cbv beta zeta; rewrite Hc; cbn [js_length lift bind run indices];
    rewrite length_map; do 3 f_equal;
    (apply (map_seq _ _ EmptyString); intros i Hi; rewrite Nat.add_0_l, safeString_index;
     rewrite (nth_indep _ JUndefined (JStr EmptyString)) by (rewrite length_map; exact Hi);
     rewrite map_nth; assert (Hn := proj1 (Forall_forall _ _) Hne _ (nth_In ids EmptyString Hi));
     destruct (nth i ids EmptyString); [congruence | reflexivity]).
Qed.

(** C12: [createOrder] completes: when the market is known, no check
    rejects the arguments, the credentials are set and the exchange
    accepts the request, it sends exactly one signed POST to [orders] and
    returns the order id the answer's [data] carries. *)
Theorem createOrder_completes ex srv symbol type_ side amount price params m :
  Markets.market_of (Signer.markets ex) symbol = Ok m ->
  createOrder_rejection type_ amount price params = None ->
  Signer.checkRequiredCredentials ex = Ok tt ->
  (forall req, handleErrors (fst (srv req)) (snd (srv req)) = Ok tt) ->
  exists req, Signer.method req = "POST" /\
    run ex srv (createOrder ex symbol type_ side amount price params) =
    ([req], Ok (mkAck (safeString (safeValue (snd (srv req)) "data" (JObj [])) "orderId")
                      (snd (srv req)))).
Proof.
  intros Hm Hr Hc Hs. createOrder_accepted Hm Hr. run_private_call Hc Hs.
  eexists. split; [|reflexivity]. reflexivity.
Qed.

(** C16: placing then cancelling an order composes: when the exchange
    accepts the order with the id [oid] and then reports [oid] cancelled,
    the client sends exactly two requests, the POST of the order and then
    the signed DELETE of [orders/oid], and gets back the acknowledgement
    of [oid]. *)
Theorem place_then_cancel_sequence ex srv symbol type_ side amount price params m oid :
  Markets.market_of (Signer.markets ex) symbol = Ok m ->
  createOrder_rejection type_ amount price params = None ->
  Signer.checkRequiredCredentials ex = Ok tt ->
  (forall req, handleErrors (fst (srv req)) (snd (srv req)) = Ok tt) ->
  (forall req, Signer.method req = "POST" ->
     safeString (safeValue (snd (srv req)) "data" (JObj [])) "orderId" = Some oid) ->
  (forall req, Signer.method req = "DELETE" ->
     safeValue (safeValue (snd (srv req)) "data" JUndefined) "cancelledOrderIds" JUndefined
     = JArr [JStr oid]) ->
  oid <> "" ->
  exists post del, Signer.method post = "POST" /\
    Signer.sign ex "orders/{order-id}" "private" "DELETE" (JObj [("order-id", JStr oid)]) None None
      = Ok del /\
    run ex srv (place_then_cancel ex symbol type_ side amount price params)
      = ([post; del], Ok (mkAck (Some oid) (snd (srv del)))).
Proof.
  intros Hm Hr Hc Hs Hpost Hdel Hoid. unfold place_then_cancel. rewrite run_bind.
  createOrder_accepted Hm Hr. run_private_call Hc Hs. cbn [run].
  rewrite Hpost by reflexivity. cbn [ack_id Markets.js_str]. unfold cancelOrder.
  run_private_call Hc Hs. cbv beta zeta. rewrite Hdel by reflexivity.
  do 2 eexists. split; [|split].
  3: { cbn. unfold safeString, prop, get. simpl. destruct oid; [congruence | reflexivity]. }
  - reflexivity.
  - rewrite Signer.sign_private_body_eq by auto. reflexivity.
Qed.

(** C14: the [size] [createOrder] sends is [parseInt (amountToPrecision
    (symbol, amount))]: with a lot size of integer value [L > 0], a
    non-negative amount is sent truncated to a multiple [n] of [L], with
    [n <= amount < n + L]. *)
Theorem createOrder_request_size market cid type_ side amount price params request tick L :
  Markets.precision_amount market = Some tick -> Precise.val tick == inject_Z L -> (0 < L)%Z ->
  0 <= Precise.val amount ->
  createOrder_request market cid type_ side amount price params = Ok request ->
  exists n, get request "size" = JNum (Precise.mk n 0) /\ (L | n)%Z /\ (0 <= n)%Z /\
    inject_Z n <= Precise.val amount /\ Precise.val amount < inject_Z (n + L).
Proof.
  intros Hm Ht HL Hx H.
  destruct (trunc_amountToPrecision market amount tick L Hm Ht HL Hx) as (k & Hk & Ek & B1 & B2).
  unfold createOrder_request in H. rewrite Ek in H. exists (k * L)%Z.
  replace (k * L + L)%Z with ((k + 1) * L)%Z by ring.
  repeat split; [| exists k; reflexivity | lia | exact B1 | exact B2].
  destruct (truthy (safeValue2 params "triggerPrice" "stopPrice" JUndefined)),
    (String.eqb type_ "limit"), price, (safeStringUpper params "timeInForce");
    inv H; reflexivity.
Qed.


(** ** Witnesses *)

Definition raw_open : jvalue :=
  JObj [("id", JStr "a"); ("symbol", JStr "BTCUSDTPERP"); ("isActive", JBool true);
        ("cancelExist", JBool false); ("createdAt", JNum (Precise.mk 5 0))].
Definition raw_canceled : jvalue :=
  JObj [("id", JStr "b"); ("symbol", JStr "BTCUSDTPERP"); ("isActive", JBool false);
        ("cancelExist", JBool true); ("createdAt", JNum (Precise.mk 3 0))].
Definition raw_done : jvalue :=
  JObj [("id", JStr "c"); ("symbol", JStr "BTCUSDTPERP"); ("isActive", JBool false);
        ("cancelExist", JBool false); ("createdAt", JNum (Precise.mk 1 0))].

(** A market of lot size 10. *)
Definition lot_market : Markets.market :=
  Markets.parseMarket (fun c => c)
    (JObj [("symbol", JStr "BTCUSDTPERP"); ("baseCurrency", JStr "XBT");
           ("quoteCurrency", JStr "USDT"); ("rootSymbol", JStr "USDT");
           ("lotSize", JNum (Precise.mk 10 0)); ("multiplier", JStr "1.0")]).

Example createOrder_request_size_witness :
  exists request,
    createOrder_request lot_market "c1" "market" "buy" (Precise.mk 257 1) None (JObj []) = Ok request
    /\ exists n, get request "size" = JNum (Precise.mk n 0) /\ (10 | n)%Z /\ (0 <= n)%Z /\
       inject_Z n <= Precise.val (Precise.mk 257 1) /\ Precise.val (Precise.mk 257 1) < inject_Z (n + 10).
Proof.
  eexists. split; [reflexivity|].
  eapply (createOrder_request_size lot_market "c1" "market" "buy" (Precise.mk 257 1) None (JObj []));
    [reflexivity | reflexivity | lia | apply Qle_bool_imp_le; reflexivity | reflexivity].
Defined.

Example createOrder_completes_witness :
  exists req, Signer.method req = "POST" /\
    run sample_exchange (answering (JObj [("orderId", JStr "o1")]))
      (createOrder sample_exchange "XBT/USDT:USDT" "market" "buy" (Precise.mk 2 0) None (JObj [])) =
    ([req], Ok (mkAck (Some "o1") (answer (JObj [("orderId", JStr "o1")])))).
Proof.
  destruct (createOrder_completes sample_exchange (answering (JObj [("orderId", JStr "o1")]))
              "XBT/USDT:USDT" "market" "buy" (Precise.mk 2 0) None (JObj []) sample_market)
    as (req & Hm & Hr); [vm_compute; reflexivity .. | intros; reflexivity |].
  exists req. split; [exact Hm | rewrite Hr; reflexivity].
Defined.


(** A server that accepts an order as [o1] and reports [o1] cancelled. *)
Definition by_method : server := fun req =>
  if String.eqb (Signer.method req) "POST" then ("{}", answer (JObj [("orderId", JStr "o1")]))
  else ("{}", answer (JObj [("cancelledOrderIds", JArr [JStr "o1"])])).

Example place_then_cancel_sequence_witness :
  exists post del, Signer.method post = "POST" /\
    Signer.sign sample_exchange "orders/{order-id}" "private" "DELETE"
      (JObj [("order-id", JStr "o1")]) None None = Ok del /\
    run sample_exchange by_method
      (place_then_cancel sample_exchange "XBT/USDT:USDT" "market" "buy" (Precise.mk 2 0) None (JObj []))
      = ([post; del], Ok (mkAck (Some "o1") (snd (by_method del)))).
Proof.
  apply (place_then_cancel_sequence _ _ _ _ _ _ _ _ sample_market);
    [vm_compute; reflexivity | vm_compute; reflexivity | vm_compute; reflexivity | ..].
  - intros req. unfold by_method. destruct (String.eqb (Signer.method req) "POST"); reflexivity.
  - intros req H. unfold by_method. rewrite H. reflexivity.
  - intros req H. unfold by_method. rewrite H. reflexivity.
  - discriminate.
Defined.

Example createOrder_rejects_witness :
  exists msg, run sample_exchange (answering (JObj []))
    (createOrder sample_exchange "XBT/USDT:USDT" "limit" "buy" (Precise.mk 5 1) None (JObj []))
    = ([], Err (mkExn InvalidOrder msg)).
Proof. apply (createOrder_rejects _ _ _ _ _ _ _ _ sample_market); vm_compute; reflexivity. Defined.

Example createOrder_stop_direction_witness :
  exists body k, createOrder sample_exchange "XBT/USDT:USDT" "market" "sell" (Precise.mk 2 0) None
                   (JObj [("stopPrice", JStr "90")]) = Call "privatePostOrders" body k
                 /\ get body "stop" = JStr "down".
Proof.
  apply (createOrder_stop_direction sample_exchange "XBT/USDT:USDT" "market" "sell"
           (Precise.mk 2 0) None (JObj [("stopPrice", JStr "90")]) sample_market);
    vm_compute; reflexivity.
Defined.

Example fetchOrdersByStatus_stop_untriggered_witness :
  exists msg, run sample_exchange (answering (JObj []))
    (fetchOrdersByStatus sample_exchange "closed" None None None (JObj [("stop", JBool true)]))
    = ([], Err (mkExn BadRequest msg)).
Proof. apply fetchOrdersByStatus_stop_untriggered; vm_compute; reflexivity. Defined.

Example fetchOrder_requires_id_witness :
  exists msg, run sample_exchange (answering (JObj [])) (fetchOrder sample_exchange None None (JObj []))
    = ([], Err (mkExn InvalidOrder msg)).
Proof. apply fetchOrder_requires_id; vm_compute; reflexivity. Defined.

Example fetchOrder_by_clientOid_fails_witness :
  exists msg, run sample_exchange (answering (JObj []))
    (fetchOrder sample_exchange None None (JObj [("clientOid", JStr "c1")]))
    = ([], Err (mkExn TypeError msg)).
Proof. apply (fetchOrder_by_clientOid_fails _ _ _ _ "c1"); vm_compute; reflexivity. Defined.

Example cancelOrder_already_cancelled_witness :
  exists msg, run sample_exchange (answering (JObj [("cancelledOrderIds", JArr [])]))
    (cancelOrder "abc" (JObj []))
    = ([signed "private" "orders/{order-id}" "DELETE" (JObj [("order-id", JStr "abc")])],
       Err (mkExn InvalidOrder msg)).
Proof.
  apply (cancelOrder_already_cancelled _ _ _ _ _ "{}" (answer (JObj [("cancelledOrderIds", JArr [])])));
    vm_compute; reflexivity.
Defined.

Example cancelOrder_result_witness :
  run sample_exchange (answering (JObj [("cancelledOrderIds", JArr [JStr "x"])]))
    (cancelOrder "abc" (JObj []))
  = ([signed "private" "orders/{order-id}" "DELETE" (JObj [("order-id", JStr "abc")])],
     Ok (mkAck (Some "x") (answer (JObj [("cancelledOrderIds", JArr [JStr "x"])])))).
Proof.
  destruct (cancelOrder_result sample_exchange (answering (JObj [("cancelledOrderIds", JArr [JStr "x"])]))
              "abc" (JObj []) (signed "private" "orders/{order-id}" "DELETE" (JObj [("order-id", JStr "abc")]))
              "{}" (answer (JObj [("cancelledOrderIds", JArr [JStr "x"])])) ["x"]) as [H _];
    [vm_compute; reflexivity .. |].
  apply H; [vm_compute; reflexivity | discriminate | discriminate].
Defined.

Example fetchClosedOrders_complete_witness :
  exists os, run sample_exchange (answering (JObj [("items", JArr [raw_open; raw_canceled; raw_done])]))
    (fetchClosedOrders sample_exchange None None None (JObj []))
    = ([signed "private" "orders" "GET" (JObj [("status", JStr "done")])], Ok os) /\
    Permutation os (map (fun o => Order.parseOrder sample_exchange o None)
                      (filter (fun o => negb (truthy (get o "cancelExist")))
                         [raw_open; raw_canceled; raw_done])).
Proof.
  apply (fetchClosedOrders_complete _ _ _ _ "{}"
           (answer (JObj [("items", JArr [raw_open; raw_canceled; raw_done])])));
    try (vm_compute; reflexivity).
  unfold raw_open, raw_canceled, raw_done. repeat constructor; discriminate.
Defined.

Example cancelAllOrders_acks_witness :
  run sample_exchange (answering (JObj [("cancelledOrderIds", JArr [JStr "x"; JStr "y"])]))
    (cancelAllOrders sample_exchange None (JObj [("stop", JBool true)]))
  = ([signed "private" "stopOrders" "DELETE" (JObj [("stop", JBool true)])],
     Ok [mkAck (Some "x") (answer (JObj [("cancelledOrderIds", JArr [JStr "x"; JStr "y"])]));
         mkAck (Some "y") (answer (JObj [("cancelledOrderIds", JArr [JStr "x"; JStr "y"])]))]).
Proof.
  apply (cancelAllOrders_acks _ _ _ _ "{}" _ ["x"; "y"]); try (vm_compute; reflexivity).
  repeat constructor; discriminate.
Defined.

End Orders.
