(* ===== verification/MarketData.v ===== *)
(** * Public market data

    [fetchMarkets] (src/js/poloniexfutures.js, lines 196-340),
    [fetchTicker] (371-406), [fetchTickers] (408-421), [fetchOrderBook]
    (423-507), [fetchL3OrderBook] (509-523), [fetchTrades] (617-653),
    [fetchTime] (655-673) and [fetchOHLCV] (675-721) as programs of
    [Exchange.Api.prog], with the base class's [parseTickers],
    [parseOrderBook], [parseOHLCVs] and [parseTimeframe] they hand their
    answers to (not part of src/, modelled from spec sections 3 and 9).
    The theorems cover the order book's level check and sorting, the
    version of the ticker endpoint, the filters of the ticker and trade
    lists, and the candle granularity table. *)

From Stdlib Require Import ZArith QArith String Ascii List Bool Lia Permutation Sorted.
From S2P Require Import Prelude Precise Json Errors Markets Signer Normalizers Exchange.
Import ListNotations.
Local Open Scope string_scope.
Local Open Scope ccxt_scope.

Module MarketData.
Import JS Errors Api.
Local Open Scope prog_scope.

(** ** Markets, tickers, trades, time *)

Definition fetchMarkets (ex : Signer.exchange) (params : jvalue) : prog (list Markets.market) :=
  Call "publicGetContractsActive" params (fun response =>
  Ret (Markets.parseMarkets (Signer.currency_code ex) response)).

Definition fetchTicker (ex : Signer.exchange) (symbol : string) (params : jvalue)
  : prog Ticker.ticker :=
  market <- lift (Markets.market_of (Signer.markets ex) symbol) ;;
  Call "publicGetTicker" (extend (JObj [("symbol", js_opt (Markets.id market))]) params) (fun response =>
  Ret (Ticker.parseTicker ex (safeValue response "data" (JObj [])) (Some market))).

(** [parseTickers (tickers, symbols)] of the base class: every ticker
    parsed, then the symbols normalized, then the tickers of those
    symbols kept. *)
Definition parseTickers (ex : Signer.exchange) (tickers : jvalue) (symbols : option (list string))
  : res exn (list Ticker.ticker) :=
  let results := map (fun t => Ticker.parseTicker ex t None) (toArray tickers) in
  let* symbols := marketSymbols ex symbols in
  Ok (filterByArray Ticker.symbol symbols results).

Definition fetchTickers (ex : Signer.exchange) (symbols : option (list string)) (params : jvalue)
  : prog (list Ticker.ticker) :=
  Call "publicGetTickers" params (fun response =>
  lift (parseTickers ex (safeValue response "data" (JArr [])) symbols)).

Definition fetchTrades (ex : Signer.exchange) (symbol : string) (since limit : option Z)
  (params : jvalue) : prog (list Trade.trade) :=
  market <- lift (Markets.market_of (Signer.markets ex) symbol) ;;
  Call "publicGetTradeHistory" (extend (JObj [("symbol", js_opt (Markets.id market))]) params)
    (fun response =>
  Ret (parseTrades ex (safeValue response "data" (JArr [])) (Some market) since limit)).

Definition fetchTime (params : jvalue) : prog (option Z) :=
  Call "publicGetTimestamp" params (fun response => Ret (safeInteger response "data")).

(** ** The order book *)

(** A level: its price and amount. *)
Definition bidask : Type := (option Precise.t * option Precise.t)%type.

(** [parseBidAsk (entry, priceKey, amountKey)]. *)
Definition parseBidAsk (priceKey amountKey : nat) (e : jvalue) : bidask :=
  (safeNumber e (nat_key priceKey), safeNumber e (nat_key amountKey)).

Definition parseBidsAsks (v : jvalue) (priceKey amountKey : nat) : list bidask :=
  map (parseBidAsk priceKey amountKey) (toArray v).

(** [a[0] < b[0]], false when a price is [undefined]. *)
Definition price_lt (a b : bidask) : bool :=
  match fst a, fst b with
  | Some p, Some q => Precise.lt p q
  | _, _ => false
  end.

Record orderbook : Type := mkBook {
  ob_symbol : option string;
  bids : list bidask;
  asks : list bidask;
  ob_timestamp : option Z;
  nonce : option Z
}.

(** [key in o]: a [TypeError] on a value that is not an object. *)
Definition js_in (o : jvalue) (k : string) : res exn bool :=
  match o with
  | JObj _ => Ok (has_key o k)
  | JArr _ => Ok false
  | _ => Err (mkExn TypeError ("Cannot use 'in' operator to search for '" ++ k ++ "'"))
  end.

(** [parseOrderBook (data, symbol, timestamp, 'bids', 'asks', priceKey,
    amountKey)] of the base class: bids by descending, asks by ascending
    price. *)
Definition parseOrderBook (data : jvalue) (symbol : option string) (timestamp : option Z)
  (priceKey amountKey : nat) : res exn orderbook :=
  let* hasBids := js_in data "bids" in
  let* hasAsks := js_in data "asks" in
  let bids := if hasBids then parseBidsAsks (get data "bids") priceKey amountKey else [] in
  let asks := if hasAsks then parseBidsAsks (get data "asks") priceKey amountKey else [] in
  Ok (mkBook symbol (sort_by (fun x y => price_lt y x) bids) (sort_by price_lt asks) timestamp None).

Definition with_nonce (ob : orderbook) (n : option Z) : orderbook :=
  mkBook (ob_symbol ob) (bids ob) (asks ob) (ob_timestamp ob) n.

(** [level === n] for the number read from the parameters. *)
Definition level_is (level : option Precise.t) (n : Z) : bool :=
  match level with Some l => Qeq_bool (Precise.val l) (inject_Z n) | None => false end.

(** [fetchOrderBook] (lines 423-507); [limit] is not used by the code.  A
    [level] that is given but not a number is [NaN] in the code, which
    fails the test of line 438 like any level other than 2 and 3. *)
Definition fetchOrderBook (ex : Signer.exchange) (symbol : string) (limit : option Z)
  (params : jvalue) : prog orderbook :=
  let level := safeNumber params "level" in
  let given := match safeString params "level" with Some _ => true | None => false end in
  let params := omit params ["level"] in
  if given && negb (level_is level 2) && negb (level_is level 3) then
    err BadRequest " fetchOrderBook() can only return level 2 & 3"
  else
  market <- lift (Markets.market_of (Signer.markets ex) symbol) ;;
  let request := JObj [("symbol", js_opt (Markets.id market))] in
  let method := if level_is level 3 then "publicGetLevel3Snapshot" else "publicGetLevel2Snapshot" in
  Call method (extend request params) (fun response =>
  let data := safeValue response "data" (JObj []) in
  let timestamp := safeIntegerProduct data "ts" ns_to_ms in
  orderbook <- lift (if level_is level 3
                     then parseOrderBook data (Markets.symbol market) timestamp 1 2
                     else parseOrderBook data (Markets.symbol market) timestamp 0 1) ;;
  Ret (with_nonce orderbook (safeInteger data "sequence"))).

(** [fetchL3OrderBook] (lines 509-523): the level-3 book of the market's
    id; the caller's [params] are not passed on. *)
Definition fetchL3OrderBook (ex : Signer.exchange) (symbol : string) (limit : option Z)
  (params : jvalue) : prog orderbook :=
  market <- lift (Markets.market_of (Signer.markets ex) symbol) ;;
  fetchOrderBook ex (Markets.js_str (Markets.id market)) None
    (JObj [("level", JNum (Precise.mk 3 0))]).

(** ** Candles *)

(** [describe ().timeframes] (lines 50-61): the [granularity] of each
    timeframe, in minutes. *)
Definition timeframes : list (string * Z) :=
  [("1m", 1); ("5m", 5); ("15m", 15); ("30m", 30); ("1h", 60); ("2h", 120);
   ("4h", 480); ("12h", 720); ("1d", 1440); ("1w", 10080)]%Z.

Fixpoint assoc_str {A} (l : list (string * A)) (k : string) : option A :=
  match l with
  | [] => None
  | (k', v) :: r => if String.eqb k k' then Some v else assoc_str r k
  end.

(** [parseTimeframe (timeframe)] of the base class, in seconds: the amount
    before the last character times the unit it names ([None] when the
    amount is not a number, NaN in JavaScript). *)
Definition parseTimeframe (tf : string) : res exn (option Z) :=
  let n := String.length tf in
  let amount := Precise.parse (substring 0 (n - 1) tf) in
  let unit := substring (n - 1) 1 tf in
  let scale :=
    if String.eqb unit "y" then Some (60 * 60 * 24 * 365)%Z
    else if String.eqb unit "M" then Some (60 * 60 * 24 * 30)%Z
    else if String.eqb unit "w" then Some (60 * 60 * 24 * 7)%Z
    else if String.eqb unit "d" then Some (60 * 60 * 24)%Z
    else if String.eqb unit "h" then Some (60 * 60)%Z
    else if String.eqb unit "m" then Some 60%Z
    else if String.eqb unit "s" then Some 1%Z
    else None in
  match scale with
  | Some k => Ok (option_map (fun a => trunc (Precise.mul a (Precise.mk k 0))) amount)
  | None => Err (mkExn NotSupported ("timeframe unit " ++ unit ++ " is not supported"))
  end.

Inductive candle : Type :=
| Candle (ts : option Z) (o h l c v : option Precise.t)
| RawCandle (raw : jvalue).

(** [parseOHLCV (ohlcv)] of the base class: the six fields of an array,
    anything else unchanged. *)
Definition parseOHLCV (v : jvalue) : candle :=
  match v with
  | JArr _ => Candle (safeInteger v "0") (safeNumber v "1") (safeNumber v "2")
                (safeNumber v "3") (safeNumber v "4") (safeNumber v "5")
  | _ => RawCandle v
  end.

Definition candle_ts (c : candle) : option Z :=
  match c with Candle t _ _ _ _ _ => t | RawCandle _ => None end.

(** [filterBySinceLimit (array, since, limit, 0, tail)]: a tail of [limit]
    entries when [tail] ([slice (-0)] is the whole array). *)
Definition filterBySinceLimit {A} (ts : A -> option Z) (since limit : option Z) (tail : bool)
  (l : list A) : list A :=
  let l := match since with
           | Some t => filter (fun x => match ts x with
                                        | Some u => negb (u =? 0)%Z && negb (t =? 0)%Z && (t <=? u)%Z
                                        | None => false
                                        end) l
           | None => l
           end in
  match limit with
  | Some n => if tail then (if (n =? 0)%Z then l else skipn (length l - Z.to_nat n) l)
              else firstn (Z.to_nat n) l
  | None => l
  end.

(** [parseOHLCVs (data, market, timeframe, since, limit)]: the tail when
    [since] is [undefined]. *)
Definition parseOHLCVs (data : jvalue) (since limit : option Z) : list candle :=
  filterBySinceLimit candle_ts since limit (match since with Some _ => false | None => true end)
    (sort_by (fun a b => ts_lt (candle_ts a) (candle_ts b)) (map parseOHLCV (toArray data))).

Definition mul_opt (a : Z) (b : option Z) : option Z := option_map (Z.mul a) b.

(** [fetchOHLCV] (lines 675-721): the window [from]/[to] is computed from
    the timeframe's duration; [since] and [limit] are updated before they
    are passed to [parseOHLCVs]. *)
Definition fetchOHLCV (ex : Signer.exchange) (symbol tf : string) (since limit : option Z)
  (params : jvalue) : prog (list candle) :=
  market <- lift (Markets.market_of (Signer.markets ex) symbol) ;;
  let request := JObj [("symbol", js_opt (Markets.id market));
                       ("granularity", match assoc_str timeframes tf with
                                       | Some g => JNum (Precise.mk g 0)
                                       | None => JUndefined end)] in
  seconds <- lift (parseTimeframe tf) ;;
  let duration := mul_opt 1000 seconds in
  let endAt := Signer.milliseconds ex in
  let num (z : option Z) := match z with Some z => JNum (Precise.mk z 0) | None => JUndefined end in
  let '(request, since, limit) :=
    match since with
    | Some t =>
        let limit := match limit with
                     | Some l => l
                     | None => match safeInteger (Signer.options ex) "fetchOHLCVLimit" with
                               | Some l => l | None => 200%Z end
                     end in
        let endAt := option_map (Z.add t) (mul_opt limit duration) in
        (set (set request "from" (JNum (Precise.mk t 0))) "to" (num endAt), Some t, Some limit)
    | None =>
        match limit with
        | Some l =>
            let since := option_map (Z.sub endAt) (mul_opt l duration) in
            (set request "from" (num since), since, Some l)
        | None => (request, None, None)
        end
    end in
  Call "publicGetKlineQuery" (extend request params) (fun response =>
  Ret (parseOHLCVs (safeValue response "data" (JArr [])) since limit)).

(** ** Lemmas *)

Lemma price_lt_asym a b : price_lt a b = true -> price_lt b a = false.
Proof.
  unfold price_lt. destruct (fst a) as [p|], (fst b) as [q|]; try reflexivity.
  intros H. apply Precise.lt_spec in H. destruct (Precise.lt q p) eqn:E; [|reflexivity].
  apply Precise.lt_spec in E. exfalso. apply (Qlt_irrefl (Precise.val p)).
  apply (Qlt_trans _ _ _ H E).
Qed.

(** The two sides of a parsed book: bids never rise, asks never fall. *)
Definition book_sorted (ob : orderbook) : Prop :=
  Sorted (fun a b => price_lt a b = false) (bids ob) /\
  Sorted (fun a b => price_lt b a = false) (asks ob).

Lemma parseOrderBook_sorted data symbol ts pk ak ob :
  parseOrderBook data symbol ts pk ak = Ok ob -> book_sorted ob.
Proof.
  unfold parseOrderBook. destruct (js_in data "bids") as [hb|]; [|discriminate].
  destruct (js_in data "asks") as [ha|]; [|discriminate]. simpl. intros H. inv H.
  split; cbn [bids asks].
  - apply (sort_by_sorted (fun x y => price_lt y x)). intros x y. apply price_lt_asym.
  - apply sort_by_sorted, price_lt_asym.
Qed.

Lemma js_in_has_key o k : has_key o k = true -> js_in o k = Ok true.
Proof. destruct o; simpl; try discriminate. intros H. rewrite H. reflexivity. Qed.

Lemma parseTimeframe_4h : parseTimeframe "4h" = Ok (Some 14400%Z).
Proof. vm_compute. reflexivity. Qed.

(** ** Theorems *)

(** C30: [fetchOrderBook] accepts only the levels 2 and 3: any other
    [level] parameter, a number or text that is not one ([NaN] in the
    code), raises [BadRequest] before any request. *)
Theorem fetchOrderBook_level_check ex srv symbol limit params s :
  safeString params "level" = Some s ->
  level_is (safeNumber params "level") 2 = false -> level_is (safeNumber params "level") 3 = false ->
  exists msg, run ex srv (fetchOrderBook ex symbol limit params) = ([], Err (mkExn BadRequest msg)).
Proof.
  intros Hs H2 H3. unfold fetchOrderBook. cbv zeta. rewrite Hs, H2, H3. eexists. reflexivity.
Qed.


(** C31: the level-3 book is read from [level3/snapshot] with the price and
    the amount at the indices 1 and 2 of each entry; its nonce is the
    [sequence] and its timestamp the nanosecond [ts] in milliseconds. *)
Theorem fetchOrderBook_level3 ex srv symbol limit params m req body response :
  level_is (safeNumber params "level") 3 = true ->
  Markets.market_of (Signer.markets ex) symbol = Ok m ->
  Signer.sign ex "level3/snapshot" "public" "GET"
    (extend (JObj [("symbol", js_opt (Markets.id m))]) (omit params ["level"])) None None = Ok req ->
  srv req = (body, response) ->
  handleErrors body response = Ok tt ->
  let data := safeValue response "data" (JObj []) in
  has_key data "bids" = true -> has_key data "asks" = true ->
  exists ob, run ex srv (fetchOrderBook ex symbol limit params) = ([req], Ok ob) /\
    Permutation (bids ob) (parseBidsAsks (get data "bids") 1 2) /\
    Permutation (asks ob) (parseBidsAsks (get data "asks") 1 2) /\
    nonce ob = safeInteger data "sequence" /\
    ob_timestamp ob = safeIntegerProduct data "ts" ns_to_ms.
Proof.
  intros H3 Hm Hs Hv Hh data Hb Ha. unfold fetchOrderBook. cbv zeta.
  destruct (safeNumber params "level") as [l|] eqn:El; [|discriminate].
  rewrite H3, andb_false_r, run_lift_bind, Hm. cbv beta iota.
  rewrite (run_call _ _ _ _ _ "public" "GET" "level3/snapshot" req body response)
    by (assumption || (vm_compute; reflexivity)).
  cbv beta zeta. fold data. unfold parseOrderBook.
  rewrite (js_in_has_key _ _ Hb), (js_in_has_key _ _ Ha). cbn [res_bind lift bind run].
  eexists. split; [reflexivity|]. cbn [bids asks nonce ob_timestamp with_nonce].
  repeat split; symmetry; apply sort_by_perm.
Qed.

Lemma level_2_not_3 l : level_is l 2 = true -> level_is l 3 = false.
Proof.
  destruct l as [l|]; [|discriminate]. cbn [level_is]. intros H.
  apply Qeq_bool_iff in H. destruct (Qeq_bool _ _) eqn:E; [|reflexivity].
  apply Qeq_bool_iff in E. rewrite H in E. discriminate.
Qed.

(** C29: without a [level], or with level 2, [fetchOrderBook] sends one
    signed GET of [level2/snapshot] for the market's id and returns the
    book whose bids are exactly the entries of [data.bids] and whose asks
    are exactly those of [data.asks], read at indices 0 (price) and 1
    (amount), the bids by descending and the asks by ascending price, with
    the nonce from [sequence] and the timestamp from [ts]. *)
Theorem fetchOrderBook_level2 ex srv symbol limit params m req body response :
  (safeString params "level" = None \/ level_is (safeNumber params "level") 2 = true) ->
  Markets.market_of (Signer.markets ex) symbol = Ok m ->
  Signer.sign ex "level2/snapshot" "public" "GET"
    (extend (JObj [("symbol", js_opt (Markets.id m))]) (omit params ["level"])) None None = Ok req ->
  srv req = (body, response) ->
  handleErrors body response = Ok tt ->
  let data := safeValue response "data" (JObj []) in
  has_key data "bids" = true -> has_key data "asks" = true ->
  exists ob, run ex srv (fetchOrderBook ex symbol limit params) = ([req], Ok ob) /\
    Permutation (bids ob) (parseBidsAsks (get data "bids") 0 1) /\
    Permutation (asks ob) (parseBidsAsks (get data "asks") 0 1) /\
    book_sorted ob /\
    nonce ob = safeInteger data "sequence" /\
    ob_timestamp ob = safeIntegerProduct data "ts" ns_to_ms.
Proof.
  intros Hl Hm Hs Hv Hh data Hb Ha. unfold fetchOrderBook. cbv zeta.
  assert (H3 : level_is (safeNumber params "level") 3 = false).
  { destruct Hl as [E|E]; [|apply level_2_not_3, E].
    unfold safeNumber. rewrite E. reflexivity. }
  assert (Hr : (match safeString params "level" with Some _ => true | None => false end
                && negb (level_is (safeNumber params "level") 2)
                && negb (level_is (safeNumber params "level") 3))%bool = false).
  { destruct Hl as [E|E]; [rewrite E | rewrite E, andb_false_r]; reflexivity. }
  rewrite Hr, H3, run_lift_bind, Hm. cbv beta iota.
  rewrite (run_call _ _ _ _ _ "public" "GET" "level2/snapshot" req body response)
    by (assumption || (vm_compute; reflexivity)).
  cbv beta zeta. fold data.
  destruct (parseOrderBook data (Markets.symbol m) (safeIntegerProduct data "ts" ns_to_ms) 0 1)
    as [ob|e] eqn:Eob.
  2: { unfold parseOrderBook in Eob.
       rewrite (js_in_has_key _ _ Hb), (js_in_has_key _ _ Ha) in Eob. discriminate. }
  pose proof (parseOrderBook_sorted _ _ _ _ _ _ Eob) as Hsort.
  unfold parseOrderBook in Eob.
  rewrite (js_in_has_key _ _ Hb), (js_in_has_key _ _ Ha) in Eob. cbn in Eob. inv Eob.
  cbn [lift bind run]. eexists. split; [reflexivity|].
  cbn [bids asks nonce ob_timestamp with_nonce]. repeat split; try (symmetry; apply sort_by_perm);
    apply Hsort.
Qed.

(** C32: without a [version] parameter, the ticker is requested from the
    v2 endpoint of [options.versions], with the market id as the only
    query parameter. *)
Theorem fetchTicker_request ex srv symbol m i :
  Signer.options ex = Signer.default_options ->
  Markets.market_of (Signer.markets ex) symbol = Ok m ->
  Markets.id m = Some i ->
  fst (run ex srv (fetchTicker ex symbol (JObj []))) =
  [Signer.mkRequest ("https://futures-api.poloniex.com/api/v2/ticker?symbol=" ++ percent_encode i)
     "GET" None None].
Proof.
  intros Ho Hm Hi. unfold fetchTicker. rewrite run_lift_bind, Hm. cbv beta iota.
  rewrite Hi. erewrite run_call_log; [reflexivity | vm_compute; reflexivity | | reflexivity].
  rewrite Signer.sign_public, Signer.resolve_version_default by exact Ho. reflexivity.
Qed.

(** when every requested symbol is one of the registry, the tickers
    [fetchTickers] returns are tickers of requested symbols. *)
Theorem fetchTickers_filtered ex srv ss params :
  Forall (fun s => exists m, Markets.market_of (Signer.markets ex) s = Ok m
                             /\ Markets.symbol m = Some s) ss ->
  outcome (Forall (fun t => exists s, Ticker.symbol t = Some s /\ In s ss))
    (snd (run ex srv (fetchTickers ex (Some ss) params))).
Proof.
  intros Hss. apply returns_run. cbn [fetchTickers returns]. intros r. apply returns_lift.
  intros ts H. unfold parseTickers in H. rewrite marketSymbols_registry in H by exact Hss.
  inv H. apply Forall_forall. intros t Ht. apply filterByArray_spec in Ht. exact Ht.
Qed.

(** the trades [fetchTrades] returns are trades of the requested
    market at or after [since]. *)
Theorem fetchTrades_filtered ex srv symbol t0 limit params m s :
  Markets.market_of (Signer.markets ex) symbol = Ok m ->
  Markets.symbol m = Some s ->
  outcome (Forall (fun t => Trade.symbol t = Some s /\
                            exists u, Trade.timestamp t = Some u /\ (t0 <= u)%Z))
    (snd (run ex srv (fetchTrades ex symbol (Some t0) limit params))).
Proof.
  intros Hm Hs. apply returns_run. unfold fetchTrades. rewrite Hm. cbn [lift bind returns].
  intros r. apply Forall_forall. intros t Ht. unfold parseTrades in Ht. rewrite Hs in Ht.
  apply filterBySymbolSinceLimit_spec in Ht as (_ & Hsym & Hts). split; auto.
Qed.

(** the granularity table disagrees with the timeframes' durations for
    ['4h'] alone: every other entry is its timeframe in minutes, ['4h'] is
    mapped to 480 minutes, twice its duration. *)
Theorem timeframes_granularity :
  Forall (fun '(tf, g) => String.eqb tf "4h" = false -> parseTimeframe tf = Ok (Some (g * 60)%Z))
    timeframes /\
  assoc_str timeframes "4h" = Some 480%Z /\ parseTimeframe "4h" = Ok (Some (240 * 60)%Z).
Proof. split; [repeat constructor; vm_compute; first [reflexivity | discriminate] | split; reflexivity]. Qed.

(** C17: [fetchOHLCV] for ['4h'] asks for a window of [limit] four-hour
    periods from [since] but with the granularity of 480 minutes. *)
Theorem fetchOHLCV_4h_request ex symbol t n params m :
  Markets.market_of (Signer.markets ex) symbol = Ok m ->
  has_key params "granularity" = false -> has_key params "from" = false ->
  has_key params "to" = false ->
  exists body k, fetchOHLCV ex symbol "4h" (Some t) (Some n) params = Call "publicGetKlineQuery" body k /\
    get body "granularity" = JNum (Precise.mk 480 0) /\
    get body "from" = JNum (Precise.mk t 0) /\
    get body "to" = JNum (Precise.mk (t + n * (4 * 3600 * 1000)) 0).
Proof.
  intros Hm Hg Hf Ht. unfold fetchOHLCV. rewrite Hm. cbn [lift bind]. cbv zeta.
  rewrite parseTimeframe_4h. cbn [lift bind mul_opt option_map assoc_str timeframes String.eqb
                                 Ascii.eqb Bool.eqb set assoc_set].
  do 2 eexists. split; [reflexivity|].
  rewrite !get_extend_obj by assumption. cbn. repeat split; f_equal; f_equal; lia.
Qed.

(** ** Witnesses *)

Definition sample_book : jvalue :=
  JObj [("ts", JNum (Precise.mk 1700000000123456789 0)); ("sequence", JNum (Precise.mk 42 0));
        ("bids", JArr [JArr [JStr "1"; JStr "99"; JStr "1"]; JArr [JStr "2"; JStr "101"; JStr "2"]]);
        ("asks", JArr [JArr [JStr "3"; JStr "105"; JStr "1"]; JArr [JStr "4"; JStr "103"; JStr "2"]])].

Example fetchOrderBook_level_check_witness :
  (exists msg, run sample_exchange (answering sample_book)
     (fetchOrderBook sample_exchange "XBT/USDT:USDT" None (JObj [("level", JNum (Precise.mk 4 0))]))
     = ([], Err (mkExn BadRequest msg))) /\
  (exists msg, run sample_exchange (answering sample_book)
     (fetchOrderBook sample_exchange "XBT/USDT:USDT" None (JObj [("level", JStr "abc")]))
     = ([], Err (mkExn BadRequest msg))).
Proof.
  split; [apply (fetchOrderBook_level_check _ _ _ _ _ "4") | apply (fetchOrderBook_level_check _ _ _ _ _ "abc")];
    vm_compute; reflexivity.
Defined.

Example fetchOrderBook_level2_witness :
  let data := safeValue (answer sample_book) "data" (JObj []) in
  exists ob, run sample_exchange (answering sample_book)
    (fetchOrderBook sample_exchange "XBT/USDT:USDT" None (JObj []))
    = ([Signer.mkRequest "https://futures-api.poloniex.com/api/v1/level2/snapshot?symbol=BTCUSDTPERP"
          "GET" None None], Ok ob) /\
    Permutation (bids ob) (parseBidsAsks (get data "bids") 0 1) /\
    Permutation (asks ob) (parseBidsAsks (get data "asks") 0 1) /\
    book_sorted ob /\
    nonce ob = safeInteger data "sequence" /\
    ob_timestamp ob = safeIntegerProduct data "ts" ns_to_ms.
Proof.
  apply (fetchOrderBook_level2 _ _ _ _ _ sample_market _ "{}" (answer sample_book));
    [left; reflexivity | vm_compute; reflexivity ..].
Defined.

Example fetchOrderBook_level3_witness :
  let data := safeValue (answer sample_book) "data" (JObj []) in
  exists ob, run sample_exchange (answering sample_book)
    (fetchOrderBook sample_exchange "XBT/USDT:USDT" None (JObj [("level", JNum (Precise.mk 3 0))]))
    = ([Signer.mkRequest "https://futures-api.poloniex.com/api/v2/level3/snapshot?symbol=BTCUSDTPERP"
          "GET" None None], Ok ob) /\
    Permutation (bids ob) (parseBidsAsks (get data "bids") 1 2) /\
    Permutation (asks ob) (parseBidsAsks (get data "asks") 1 2) /\
    nonce ob = safeInteger data "sequence" /\
    ob_timestamp ob = safeIntegerProduct data "ts" ns_to_ms.
Proof.
  apply (fetchOrderBook_level3 _ _ _ _ _ sample_market _ "{}" (answer sample_book));
    vm_compute; reflexivity.
Defined.

Example fetchTicker_request_witness :
  fst (run sample_exchange (answering (JObj [])) (fetchTicker sample_exchange "XBT/USDT:USDT" (JObj [])))
  = [Signer.mkRequest ("https://futures-api.poloniex.com/api/v2/ticker?symbol=" ++ percent_encode "BTCUSDTPERP")
       "GET" None None].
Proof. apply (fetchTicker_request _ _ _ sample_market); vm_compute; reflexivity. Defined.

Example fetchTickers_filtered_witness :
  outcome (Forall (fun t => exists s, Ticker.symbol t = Some s /\ In s ["XBT/USDT:USDT"]))
    (snd (run sample_exchange (answering (JArr [JObj [("symbol", JStr "BTCUSDTPERP")]]))
            (fetchTickers sample_exchange (Some ["XBT/USDT:USDT"]) (JObj [])))).
Proof.
  apply fetchTickers_filtered. repeat constructor. exists sample_market.
  split; vm_compute; reflexivity.
Defined.

Example fetchTrades_filtered_witness :
  outcome (Forall (fun t => Trade.symbol t = Some "XBT/USDT:USDT" /\
                            exists u, Trade.timestamp t = Some u /\ (1000 <= u)%Z))
    (snd (run sample_exchange (answering (JArr [JObj [("ts", JNum (Precise.mk 2000000000 0))]]))
            (fetchTrades sample_exchange "XBT/USDT:USDT" (Some 1000%Z) None (JObj [])))).
Proof. apply (fetchTrades_filtered _ _ _ _ _ _ sample_market); vm_compute; reflexivity. Defined.

Example fetchOHLCV_4h_request_witness :
  exists body k, fetchOHLCV sample_exchange "XBT/USDT:USDT" "4h" (Some 1000%Z) (Some 10%Z) (JObj [])
                   = Call "publicGetKlineQuery" body k /\
    get body "granularity" = JNum (Precise.mk 480 0) /\
    get body "from" = JNum (Precise.mk 1000 0) /\
    get body "to" = JNum (Precise.mk (1000 + 10 * (4 * 3600 * 1000)) 0).
Proof. apply (fetchOHLCV_4h_request _ _ _ _ _ sample_market); vm_compute; reflexivity. Defined.

End MarketData.
