(* ===== verification/Account.v ===== *)
(** * Account, positions and funding

    [fetchBalance] (src/js/poloniexfutures.js, lines 739-774),
    [fetchPositions] (945-1005), [fetchFundingHistory] (1098-1170),
    [fetchFundingRate] (1431-1478), [fetchMyTrades] (1480-1544) and
    [setMarginMode] (1546-1570) as programs of [Exchange.Api.prog], with
    the base class's [currency] lookup and [parsePositions] (not part of
    src/, modelled from spec section 9).  The theorems cover the argument
    checks of [setMarginMode] and [fetchFundingHistory], the funding
    entries, the filters of the position and fill lists, and the currency
    that [fetchBalance] really sends. *)

From Stdlib Require Import ZArith QArith String Ascii List Bool Lia.
From S2P Require Import Prelude Precise Json Errors Markets Signer Normalizers Exchange.
Import ListNotations.
Local Open Scope string_scope.
Local Open Scope ccxt_scope.

Module Account.
Import JS Errors Api.
Local Open Scope prog_scope.

(** ** Balance *)

(** The currencies [loadMarkets] derives from the markets: each market's
    base, quote and settlement code with its id. *)
Definition currencies (ms : list Markets.market) : list (string * string) :=
  flat_map (fun m =>
              flat_map (fun '(c, i) => match c, i with Some c, Some i => [(c, i)] | _, _ => [] end)
                [(Markets.base m, Markets.baseId m); (Markets.quote m, Markets.quoteId m);
                 (Markets.settle m, Markets.settleId m)]) ms.

(** [this.currency (code)]: by code, then by id; [ExchangeError] for a
    currency the registry does not know.  The result is the id. *)
Definition currency_of (ex : Signer.exchange) (code : string) : res exn string :=
  let cs := currencies (Signer.markets ex) in
  match find (fun '(c, _) => String.eqb c code) cs with
  | Some (_, i) => Ok i
  | None =>
      match find (fun '(_, i) => String.eqb i code) cs with
      | Some (_, i) => Ok i
      | None => Err (mkExn ExchangeError (exchange_id ++ " does not have currency code " ++ code))
      end
  end.

Definition fetchBalance (ex : Signer.exchange) (params : jvalue) : prog Balance.balance :=
  request <- match safeString params "currency" with
             | Some c => i <- lift (currency_of ex c) ;; Ret (JObj [("currency", JStr i)])
             | None => Ret (JObj [])
             end ;;
  Call "privateGetAccountOverview" (extend request params) (fun response =>
  Ret (Balance.parseBalance ex response)).

(** ** Positions *)

(** [parsePositions (positions, symbols)] of the base class. *)
Definition parsePositions (ex : Signer.exchange) (data : jvalue) (symbols : option (list string))
  : res exn (list Position.position) :=
  let* symbols := marketSymbols ex symbols in
  let results := map (fun p => Position.parsePosition ex p None) (toArray data) in
  Ok (filterByArray Position.symbol symbols results).

Definition fetchPositions (ex : Signer.exchange) (symbols : option (list string)) (params : jvalue)
  : prog (list Position.position) :=
  Call "privateGetPositions" params (fun response =>
  lift (parsePositions ex (safeValue response "data" JUndefined) symbols)).

(** ** Funding *)

(** An entry of the funding history (lines 1141-1155). *)
Record funding : Type := mkFunding {
  f_info : jvalue;
  f_symbol : string;
  f_code : option string;
  f_timestamp : option Z;
  f_datetime : option string;
  f_id : option Precise.t;
  f_amount : option Precise.t;
  f_fundingRate : option Precise.t;
  f_markPrice : option Precise.t;
  f_positionQty : option Precise.t;
  f_positionCost : option Precise.t
}.

Definition parseFunding (ex : Signer.exchange) (symbol : string) (listItem : jvalue) : funding :=
  {| f_info := listItem;
     f_symbol := symbol;
     f_code := Markets.safeCurrencyCode (Signer.currency_code ex) (safeString listItem "settleCurrency");
     f_timestamp := safeInteger listItem "timePoint";
     f_datetime := Signer.iso8601 ex (safeInteger listItem "timePoint");
     f_id := safeNumber listItem "id";
     f_amount := safeNumber listItem "funding";
     f_fundingRate := safeNumber listItem "fundingRate";
     f_markPrice := safeNumber listItem "markPrice";
     f_positionQty := safeNumber listItem "positionQty";
     f_positionCost := safeNumber listItem "positionCost" |}.

Definition fetchFundingHistory (ex : Signer.exchange) (symbol : option string)
  (since limit : option Z) (params : jvalue) : prog (list funding) :=
  match symbol with
  | None => err ArgumentsRequired " fetchFundingHistory() requires a symbol argument"
  | Some sym =>
  market <- lift (Markets.market_of (Signer.markets ex) sym) ;;
  let request := opt_set (opt_set (JObj [("symbol", js_opt (Markets.id market))]) "startAt" since)
                   "maxCount" limit in
  Call "privateGetFundingHistory" (extend request params) (fun response =>
  let data := safeValue response "data" JUndefined in
  let dataList := safeValue data "dataList" (JArr []) in
  n <- lift (js_length dataList) ;;
  items <- lift (res_map (js_index dataList) (indices n)) ;;
  Ret (map (parseFunding ex sym) items))
  end.

(** The funding rate of lines 1458-1477: the fields the code sets (the
    others are [undefined]). *)
Record funding_rate : Type := mkFundingRate {
  fr_info : jvalue;
  fr_symbol : option string;
  fr_fundingRate : option Precise.t;
  fr_previousFundingRate : option Precise.t;
  fr_previousFundingTimestamp : option Z;
  fr_previousFundingDatetime : option string
}.

Definition fetchFundingRate (ex : Signer.exchange) (symbol : string) (params : jvalue)
  : prog funding_rate :=
  market <- lift (Markets.market_of (Signer.markets ex) symbol) ;;
  Call "publicGetFundingRateSymbolCurrent" (extend (JObj [("symbol", js_opt (Markets.id market))]) params)
    (fun response =>
  let data := safeValue response "data" JUndefined in
  Ret {| fr_info := data;
         fr_symbol := Markets.symbol market;
         fr_fundingRate := safeNumber data "predictedValue";
         fr_previousFundingRate := safeNumber data "value";
         fr_previousFundingTimestamp := safeInteger data "timePoint";
         fr_previousFundingDatetime := Signer.iso8601 ex (safeInteger data "timePoint") |}).

(** ** Fills and margin mode *)

Definition fetchMyTrades (ex : Signer.exchange) (symbol : option string) (since limit : option Z)
  (params : jvalue) : prog (list Trade.trade) :=
  market <- market_opt ex symbol ;;
  let request := match market with
                 | Some m => JObj [("symbol", js_opt (Markets.id m))]
                 | None => JObj [] end in
  Call "privateGetFills" (extend (opt_set request "startAt" since) params) (fun response =>
  let data := safeValue response "data" (JObj []) in
  Ret (parseTrades ex (safeValue data "items" (JObj [])) market since limit)).

(** [v === n] for a number [n]. *)
Definition is_number (v : jvalue) (n : Z) : bool :=
  match v with JNum x => Qeq_bool (Precise.val x) (inject_Z n) | _ => false end.

(** [setMarginMode] (lines 1546-1570): the answer is returned as it is;
    the caller's [params] are not sent. *)
Definition setMarginMode (ex : Signer.exchange) (marginMode : jvalue) (symbol : option string)
  (params : jvalue) : prog jvalue :=
  match symbol with
  | None => err ArgumentsRequired " setMarginMode() requires a symbol argument"
  | Some s =>
  if negb (is_number marginMode 0) && negb (is_number marginMode 1) then
    err ArgumentsRequired " setMarginMode() marginMode must be 0 (isolated) or 1 (cross)"
  else
  market <- lift (Markets.market_of (Signer.markets ex) s) ;;
  Call "privatePostMarginTypeChange"
    (JObj [("symbol", js_opt (Markets.id market)); ("marginType", marginMode)]) Ret
  end.

(** ** Theorems *)

(** C35: [setMarginMode] needs a symbol and a margin mode that is the
    number 0 or 1 (a string such as ["1"] is refused); otherwise it raises
    [ArgumentsRequired] before any request. *)
Theorem setMarginMode_rejects ex srv marginMode symbol params :
  symbol = None \/ (is_number marginMode 0 = false /\ is_number marginMode 1 = false) ->
  exists msg, run ex srv (setMarginMode ex marginMode symbol params)
              = ([], Err (mkExn ArgumentsRequired msg)).
Proof.
  intros [-> | [H0 H1]]; [eexists; reflexivity|].
  destruct symbol; [|eexists; reflexivity]. unfold setMarginMode. rewrite H0, H1.
  eexists. reflexivity.
Qed.

(** [fetchFundingHistory] without a symbol raises [ArgumentsRequired]
    before any request. *)
Theorem fetchFundingHistory_requires_symbol ex srv since limit params :
  run ex srv (fetchFundingHistory ex None since limit params) =
  ([], Err (mkExn ArgumentsRequired (exchange_id ++ " fetchFundingHistory() requires a symbol argument"))).
Proof. reflexivity. Qed.

(** the funding history has one entry per item of [dataList], in order,
    each carrying the requested symbol and its raw item. *)
Theorem fetchFundingHistory_entries ex srv sym since limit params m req body response l :
  Markets.market_of (Signer.markets ex) sym = Ok m ->
  Signer.sign ex "funding-history" "private" "GET"
    (extend (opt_set (opt_set (JObj [("symbol", js_opt (Markets.id m))]) "startAt" since)
               "maxCount" limit) params) None None = Ok req ->
  srv req = (body, response) ->
  handleErrors body response = Ok tt ->
  safeValue (safeValue response "data" JUndefined) "dataList" (JArr []) = JArr l ->
  run ex srv (fetchFundingHistory ex (Some sym) since limit params)
  = ([req], Ok (map (parseFunding ex sym) l)).
Proof.
  intros Hm Hs Hv Hh Hl. unfold fetchFundingHistory. rewrite run_lift_bind, Hm. cbv beta iota zeta.
  rewrite (run_call _ _ _ _ _ "private" "GET" "funding-history" req body response)
    by (assumption || (vm_compute; reflexivity)).
  cbv beta zeta. rewrite Hl. cbn [js_length lift bind indices].
  rewrite (res_map_seq _ (fun v => Ok v) JUndefined l 0) by reflexivity.
  rewrite (res_map_map _ (fun v => v)) by reflexivity. rewrite map_id. reflexivity.
Qed.

(** C18: [fetchBalance] with a [currency] parameter resolves the currency's
    exchange id but then sends the caller's value: [extend (request,
    params)] lets the parameter overwrite the id. *)
Theorem fetchBalance_sends_caller_currency ex c i :
  currency_of ex c = Ok i ->
  exists k, fetchBalance ex (JObj [("currency", JStr c)])
            = Call "privateGetAccountOverview" (JObj [("currency", JStr c)]) k.
Proof.
  intros H. destruct c as [|a c']; [eexists; reflexivity|]. unfold fetchBalance.
  cbn [safeString prop get assoc_get as_string String.eqb Ascii.eqb Bool.eqb]. rewrite H.
  eexists. reflexivity.
Qed.

(** when every requested symbol is one of the registry, the positions
    [fetchPositions] returns are positions of requested symbols. *)
Theorem fetchPositions_filtered ex srv ss params :
  Forall (fun s => exists m, Markets.market_of (Signer.markets ex) s = Ok m
                             /\ Markets.symbol m = Some s) ss ->
  outcome (Forall (fun p => exists s, Position.symbol p = Some s /\ In s ss))
    (snd (run ex srv (fetchPositions ex (Some ss) params))).
Proof.
  intros Hss. apply returns_run. cbn [fetchPositions returns]. intros r. apply returns_lift.
  intros ps H. unfold parsePositions in H. rewrite marketSymbols_registry in H by exact Hss.
  inv H. apply Forall_forall. intros p Hp. apply filterByArray_spec in Hp. exact Hp.
Qed.

(** the fills [fetchMyTrades] returns for a symbol are fills of that
    market at or after [since]. *)
Theorem fetchMyTrades_filtered ex srv symbol t0 limit params m s :
  Markets.market_of (Signer.markets ex) symbol = Ok m ->
  Markets.symbol m = Some s ->
  outcome (Forall (fun t => Trade.symbol t = Some s /\
                            exists u, Trade.timestamp t = Some u /\ (t0 <= u)%Z))
    (snd (run ex srv (fetchMyTrades ex (Some symbol) (Some t0) limit params))).
Proof.
  intros Hm Hs. apply returns_run. unfold fetchMyTrades, market_opt. rewrite Hm.
  cbn [lift bind returns]. intros r. apply Forall_forall. intros t Ht.
  unfold parseTrades in Ht. rewrite Hs in Ht.
  apply filterBySymbolSinceLimit_spec in Ht as (_ & Hsym & Hts). split; auto.
Qed.

(** ** Witnesses *)

(** An exchange whose registry canonicalizes [XBT] into [BTC]. *)
Definition btc_exchange : Signer.exchange :=
  let cc := fun c => if String.eqb c "XBT" then "BTC" else c in
  Signer.mkExchange (Some "key") (Some "secret") (Some "pass") 1700000000000
    (fun payload key => payload ++ "|" ++ key) Signer.default_options "uuid"
    [Markets.parseMarket cc
       (JObj [("symbol", JStr "BTCUSDTPERP"); ("baseCurrency", JStr "XBT");
              ("quoteCurrency", JStr "USDT"); ("rootSymbol", JStr "USDT");
              ("status", JStr "Open"); ("multiplier", JStr "1.0")])] cc
    (option_map Signer.z_to_string).

Example setMarginMode_rejects_witness :
  exists msg, run sample_exchange (answering (JObj []))
    (setMarginMode sample_exchange (JStr "1") (Some "XBT/USDT:USDT") (JObj []))
    = ([], Err (mkExn ArgumentsRequired msg)).
Proof. apply setMarginMode_rejects. right. split; reflexivity. Defined.

Example fetchFundingHistory_entries_witness :
  let items := [JObj [("id", JNum (Precise.mk 1 0)); ("funding", JStr "-0.5")]] in
  run sample_exchange (answering (JObj [("dataList", JArr items)]))
    (fetchFundingHistory sample_exchange (Some "XBT/USDT:USDT") None None (JObj []))
  = ([signed "private" "funding-history" "GET" (JObj [("symbol", JStr "BTCUSDTPERP")])],
     Ok (map (parseFunding sample_exchange "XBT/USDT:USDT") items)).
Proof.
  intros items. apply (fetchFundingHistory_entries _ _ _ _ _ _ sample_market _ "{}"
                         (answer (JObj [("dataList", JArr items)])));
    vm_compute; reflexivity.
Defined.

Example fetchBalance_sends_caller_currency_witness :
  currency_of btc_exchange "BTC" = Ok "XBT" /\
  exists k, fetchBalance btc_exchange (JObj [("currency", JStr "BTC")])
            = Call "privateGetAccountOverview" (JObj [("currency", JStr "BTC")]) k.
Proof.
  split; [vm_compute; reflexivity|].
  apply (fetchBalance_sends_caller_currency _ _ "XBT"). vm_compute. reflexivity.
Defined.

Example fetchPositions_filtered_witness :
  outcome (Forall (fun p => exists s, Position.symbol p = Some s /\ In s ["XBT/USDT:USDT"]))
    (snd (run sample_exchange (answering (JArr [JObj [("symbol", JStr "BTCUSDTPERP")]]))
            (fetchPositions sample_exchange (Some ["XBT/USDT:USDT"]) (JObj [])))).
Proof.
  apply fetchPositions_filtered. repeat constructor. exists sample_market.
  split; vm_compute; reflexivity.
Defined.

Example fetchMyTrades_filtered_witness :
  outcome (Forall (fun t => Trade.symbol t = Some "XBT/USDT:USDT" /\
                            exists u, Trade.timestamp t = Some u /\ (1000 <= u)%Z))
    (snd (run sample_exchange (answering (JObj [("items", JArr [JObj [("ts", JNum (Precise.mk 2000000000 0))]])]))
            (fetchMyTrades sample_exchange (Some "XBT/USDT:USDT") (Some 1000%Z) None (JObj [])))).
Proof. apply (fetchMyTrades_filtered _ _ _ _ _ _ sample_market); vm_compute; reflexivity. Defined.

End Account.
