(* ===== verification/Unified.v ===== *)
(** * The unified API

    ccxt's unified interface is the set of methods every exchange adapter
    provides ([createOrder], [fetchOrderBook], ...).  Here it is a record
    of operations, [unified_api], each a program of [Exchange.Api.prog];
    [poloniexfutures] is the instance the class of
    src/js/poloniexfutures.js provides, assembled from [Orders],
    [MarketData] and [Account].  Its law [at_most_one_request] says that
    every method finishes after at most one request, whatever the server
    answers: no method retries or pages on the answers.  The literal
    capability table [has] of [describe ()] is compared with the markets
    the class builds, and the cost of a run is read off [run_metered]. *)

From Stdlib Require Import ZArith QArith String Ascii List Bool Lia.
From S2P Require Import Prelude Precise Json Errors Markets Signer Normalizers Exchange Orders MarketData Account.
Import ListNotations.
Local Open Scope string_scope.

Module Unified.
Import JS Errors Api.

Record unified_api : Type := mkApi {
  createOrder : Signer.exchange -> string -> string -> string -> Precise.t -> option Precise.t ->
                jvalue -> prog Orders.order_ack;
  cancelOrder : string -> jvalue -> prog Orders.order_ack;
  cancelAllOrders : Signer.exchange -> option string -> jvalue -> prog (list Orders.order_ack);
  fetchOrdersByStatus : Signer.exchange -> string -> option string -> option Z -> option Z ->
                        jvalue -> prog (list Order.order);
  fetchOpenOrders : Signer.exchange -> option string -> option Z -> option Z -> jvalue ->
                    prog (list Order.order);
  fetchClosedOrders : Signer.exchange -> option string -> option Z -> option Z -> jvalue ->
                      prog (list Order.order);
  fetchOrder : Signer.exchange -> option string -> option string -> jvalue -> prog Order.order;
  fetchMarkets : Signer.exchange -> jvalue -> prog (list Markets.market);
  fetchTicker : Signer.exchange -> string -> jvalue -> prog Ticker.ticker;
  fetchTickers : Signer.exchange -> option (list string) -> jvalue -> prog (list Ticker.ticker);
  fetchOrderBook : Signer.exchange -> string -> option Z -> jvalue -> prog MarketData.orderbook;
  fetchL3OrderBook : Signer.exchange -> string -> option Z -> jvalue -> prog MarketData.orderbook;
  fetchTrades : Signer.exchange -> string -> option Z -> option Z -> jvalue -> prog (list Trade.trade);
  fetchTime : jvalue -> prog (option Z);
  fetchOHLCV : Signer.exchange -> string -> string -> option Z -> option Z -> jvalue ->
               prog (list MarketData.candle);
  fetchBalance : Signer.exchange -> jvalue -> prog Balance.balance;
  fetchPositions : Signer.exchange -> option (list string) -> jvalue -> prog (list Position.position);
  fetchFundingHistory : Signer.exchange -> option string -> option Z -> option Z -> jvalue ->
                        prog (list Account.funding);
  fetchFundingRate : Signer.exchange -> string -> jvalue -> prog Account.funding_rate;
  fetchMyTrades : Signer.exchange -> option string -> option Z -> option Z -> jvalue ->
                  prog (list Trade.trade);
  setMarginMode : Signer.exchange -> jvalue -> option string -> jvalue -> prog jvalue
}.

(** The methods of [class poloniexfutures extends Exchange]. *)
Definition poloniexfutures : unified_api :=
  {| createOrder := Orders.createOrder;
     cancelOrder := Orders.cancelOrder;
     cancelAllOrders := Orders.cancelAllOrders;
     fetchOrdersByStatus := Orders.fetchOrdersByStatus;
     fetchOpenOrders := Orders.fetchOpenOrders;
     fetchClosedOrders := Orders.fetchClosedOrders;
     fetchOrder := Orders.fetchOrder;
     fetchMarkets := MarketData.fetchMarkets;
     fetchTicker := MarketData.fetchTicker;
     fetchTickers := MarketData.fetchTickers;
     fetchOrderBook := MarketData.fetchOrderBook;
     fetchL3OrderBook := MarketData.fetchL3OrderBook;
     fetchTrades := MarketData.fetchTrades;
     fetchTime := MarketData.fetchTime;
     fetchOHLCV := MarketData.fetchOHLCV;
     fetchBalance := Account.fetchBalance;
     fetchPositions := Account.fetchPositions;
     fetchFundingHistory := Account.fetchFundingHistory;
     fetchFundingRate := Account.fetchFundingRate;
     fetchMyTrades := Account.fetchMyTrades;
     setMarginMode := Account.setMarginMode |}.

(** [describe ().has] (lines 23-49): the capabilities the class
    advertises; [undefined] is [None]. *)
Definition has : list (string * option bool) :=
  [("CORS", None); ("spot", Some false); ("margin", Some true); ("swap", Some true);
   ("future", Some false); ("option", None); ("createOrder", Some true);
   ("fetchBalance", Some true); ("fetchClosedOrders", Some true); ("fetchCurrencies", Some false);
   ("fetchFundingRate", Some true); ("fetchL3OrderBook", Some true); ("fetchMarkets", Some true);
   ("fetchMyTrades", Some true); ("fetchOHLCV", Some true); ("fetchOpenOrders", Some true);
   ("fetchOrder", Some true); ("fetchOrderBook", Some true); ("fetchOrdersByStatus", Some true);
   ("fetchPositions", Some true); ("fetchTicker", Some true); ("fetchTickers", Some true);
   ("fetchTime", Some true); ("fetchTrades", Some true); ("setMarginMode", Some true)].

(** The law: each method's program sends at most one request. *)
Definition at_most_one_request (a : unified_api) : Prop :=
  (forall ex s t sd am p ps, within 1 (createOrder a ex s t sd am p ps)) /\
  (forall i ps, within 1 (cancelOrder a i ps)) /\
  (forall ex s ps, within 1 (cancelAllOrders a ex s ps)) /\
  (forall ex st s sn l ps, within 1 (fetchOrdersByStatus a ex st s sn l ps)) /\
  (forall ex s sn l ps, within 1 (fetchOpenOrders a ex s sn l ps)) /\
  (forall ex s sn l ps, within 1 (fetchClosedOrders a ex s sn l ps)) /\
  (forall ex i s ps, within 1 (fetchOrder a ex i s ps)) /\
  (forall ex ps, within 1 (fetchMarkets a ex ps)) /\
  (forall ex s ps, within 1 (fetchTicker a ex s ps)) /\
  (forall ex ss ps, within 1 (fetchTickers a ex ss ps)) /\
  (forall ex s l ps, within 1 (fetchOrderBook a ex s l ps)) /\
  (forall ex s l ps, within 1 (fetchL3OrderBook a ex s l ps)) /\
  (forall ex s sn l ps, within 1 (fetchTrades a ex s sn l ps)) /\
  (forall ps, within 1 (fetchTime a ps)) /\
  (forall ex s tf sn l ps, within 1 (fetchOHLCV a ex s tf sn l ps)) /\
  (forall ex ps, within 1 (fetchBalance a ex ps)) /\
  (forall ex ss ps, within 1 (fetchPositions a ex ss ps)) /\
  (forall ex s sn l ps, within 1 (fetchFundingHistory a ex s sn l ps)) /\
  (forall ex s ps, within 1 (fetchFundingRate a ex s ps)) /\
  (forall ex s sn l ps, within 1 (fetchMyTrades a ex s sn l ps)) /\
  (forall ex mm s ps, within 1 (setMarginMode a ex mm s ps)).

(** Unfold each method of [poloniexfutures] to its program. *)
Ltac unfold_methods :=
  repeat split; intros; cbn [createOrder cancelOrder cancelAllOrders fetchOrdersByStatus
    fetchOpenOrders fetchClosedOrders fetchOrder fetchMarkets fetchTicker fetchTickers
    fetchOrderBook fetchL3OrderBook fetchTrades fetchTime fetchOHLCV fetchBalance fetchPositions
    fetchFundingHistory fetchFundingRate fetchMyTrades setMarginMode poloniexfutures];
  unfold Orders.fetchOpenOrders, Orders.fetchClosedOrders, Orders.createOrder,
    Orders.cancelOrder, Orders.cancelAllOrders, Orders.fetchOrdersByStatus, Orders.fetchOrder,
    MarketData.fetchMarkets, MarketData.fetchTicker, MarketData.fetchTickers,
    MarketData.fetchOrderBook, MarketData.fetchL3OrderBook, MarketData.fetchTrades,
    MarketData.fetchTime, MarketData.fetchOHLCV, Account.fetchBalance, Account.fetchPositions,
    Account.fetchFundingHistory, Account.fetchFundingRate, Account.fetchMyTrades,
    Account.setMarginMode.

(** C13: every method of the adapter terminates after at most one
    request, whatever the server answers: its program satisfies
    [within 1], so [run] logs at most one request ([within_run]); no
    method pages, retries or chains a second call on an answer. *)
Theorem poloniexfutures_one_request : at_most_one_request poloniexfutures.
Proof. unfold_methods; within_auto. Qed.

(** An accepted order costs the limiter the weight of [POST orders],
    1.5, and the metered run logs what [run] logs. *)
Example createOrder_cost :
  let p := Orders.createOrder sample_exchange "XBT/USDT:USDT" "market" "buy" (Precise.mk 2 0) None
             (JObj []) in
  let srv := answering (JObj [("orderId", JStr "o1")]) in
  snd (run_metered sample_exchange srv p) == 3 # 2 /\
  length (fst (run sample_exchange srv p)) = 1%nat.
Proof. split; vm_compute; reflexivity. Qed.

(** The market-type entries against the markets [fetchMarkets] returns:
    [spot], [swap] and [future] agree with every market, [margin] is
    advertised while every market has [margin = false]. *)
Theorem has_market_flags cc response m :
  In m (Markets.parseMarkets cc response) ->
  MarketData.assoc_str has "spot" = Some (Some (Markets.spot m)) /\
  MarketData.assoc_str has "swap" = Some (Some (Markets.swap m)) /\
  MarketData.assoc_str has "future" = Some (Some (Markets.future m)) /\
  MarketData.assoc_str has "margin" = Some (Some (negb (Markets.margin m))).
Proof.
  unfold Markets.parseMarkets. destruct (safeValue response "data" (JArr [])); try contradiction.
  intros Hin. apply in_map_iff in Hin as (raw & <- & _). repeat split.
Qed.

End Unified.
